(** * sysid: the analyzer plot (AnalyzerPlot.cpp)

    A shallow embedding of [AnalyzerPlot.cpp]: the segmented time-domain
    simulator [PopulateTimeDomainSim], the recomputation passes [SetData] and
    [SetRawData] with their cooperative abort flag, and the goodness-of-fit
    metrics (RMSE, R squared).

    The C++ code computes on [double].  The program is written once over an
    interface [Scalar] of the operations it uses and read at two instances:
    IEEE binary64 (the kernel's primitive floats), at which the metrics, the
    plotted times and every evaluation are stated, and the real numbers,
    used only for the step of the strided loops and for the order of
    samples. *)

From Stdlib Require Import Ascii String.
From Stdlib Require Import ZArith List Bool Arith Lia.
From Stdlib Require Import Reals Lra Zfloor.
From Stdlib Require Import Floats.
Import ListNotations.

Set Implicit Arguments.
Set Warnings "-inexact-float".

(** ** The arithmetic of [double] *)

Class Scalar (T : Type) : Type := {
  s_of_Z : Z -> T;                (* an integer converted to double *)
  s_add : T -> T -> T;
  s_sub : T -> T -> T;
  s_mul : T -> T -> T;
  s_div : T -> T -> T;
  s_sqrt : T -> T;                (* std::sqrt *)
  s_copysign : T -> T -> T;       (* std::copysign(magnitude, sign) *)
  s_ltb : T -> T -> bool;         (* operator< *)
  s_eqb : T -> T -> bool;         (* operator== *)
  s_ceil : T -> Z                 (* std::ceil, its integral value *)
}.

(** std::pow(x, 2) *)
Definition s_pow2 {T} `{Scalar T} (x : T) : T := s_mul x x.

(** units::millisecond_t{d}.value() for a duration [d] held in seconds *)
Definition to_ms {T} `{Scalar T} (d : T) : T := s_mul d (s_of_Z 1000).

Module F64.
(** IEEE binary64, round to nearest even. *)

(** An integer of magnitude below 2^63 converted to double. *)
Definition of_Z (z : Z) : float :=
  match z with
  | Z0 => PrimFloat.zero
  | Zpos _ => PrimFloat.of_uint63 (Uint63.of_Z z)
  | Zneg p => PrimFloat.opp (PrimFloat.of_uint63 (Uint63.of_Z (Zpos p)))
  end.

(** The result has the magnitude of [x] and the sign bit of [y]; the one
    NaN of the primitive floats counts as positive. *)
Definition copysign (x y : float) : float :=
  if PrimFloat.get_sign y then PrimFloat.opp (PrimFloat.abs x)
  else PrimFloat.abs x.

(** The least integer not below [x]; 0 where [x] is infinite or NaN (the
    conversion to [size_t] that follows in the code is undefined there). *)
Definition ceil (x : float) : Z :=
  match Prim2SF x with
  | S754_finite s m e =>
      let q := match e with
               | Zneg k => Z.pos (2 ^ k)
               | _ => 1%Z
               end in
      let n := match e with
               | Zneg _ => Z.pos m
               | _ => (Z.pos m * 2 ^ e)%Z
               end in
      if s then (- (n / q))%Z else (- ((- n) / q))%Z
  | _ => 0%Z
  end.
End F64.

#[export] Instance Scalar_float : Scalar float := {
  s_of_Z := F64.of_Z;
  s_add := PrimFloat.add;
  s_sub := PrimFloat.sub;
  s_mul := PrimFloat.mul;
  s_div := PrimFloat.div;
  s_sqrt := PrimFloat.sqrt;
  s_copysign := F64.copysign;
  s_ltb := PrimFloat.ltb;
  s_eqb := PrimFloat.eqb;
  s_ceil := F64.ceil
}.

Module Real.
(** The same operations on the real numbers: no rounding, no NaN, no
    overflow or underflow, and x / 0 = 0.  The sums, quotients and square
    roots of the code differ from these in binary64, so nothing about their
    values is stated at this instance.  It is used for the quotient
    4 * size / kMaxSize of the step, which in binary64 is rounded once and
    whose ceiling [stride_at_sizes] evaluates in binary64 at sample sizes,
    and for the
    comparisons behind std::min_element and std::max_element, which on
    doubles that are not NaN are the comparisons of the numbers they
    denote. *)

Definition ltb (x y : R) : bool := if Rlt_dec x y then true else false.
Definition eqb (x y : R) : bool := if Req_dec_T x y then true else false.
Definition copysign (x y : R) : R :=
  if Rlt_dec y 0 then (- Rabs x)%R else Rabs x.

End Real.

#[export] Instance Scalar_R : Scalar R := {
  s_of_Z := IZR;
  s_add := Rplus;
  s_sub := Rminus;
  s_mul := Rmult;
  s_div := Rdiv;
  s_sqrt := R_sqrt.sqrt;
  s_copysign := Real.copysign;
  s_ltb := Real.ltb;
  s_eqb := Real.eqb;
  s_ceil := Zceil
}.

(** ** Storage.h: the prepared samples *)

Record PreparedData (T : Type) : Type := {
  timestamp : T;
  voltage : T;
  position : T;
  velocity : T;
  nextVelocity : T;
  dt : T;
  acceleration : T;
  cos : T
}.

Record Storage (T : Type) : Type := {
  slow : list (PreparedData T);
  fast : list (PreparedData T)
}.

(** ImPlotPoint: an (x, y) pair of doubles *)
Definition ImPlotPoint (T : Type) : Type := (T * T)%type.

(** The three file-level accumulators of AnalyzerPlot.cpp.  The count is an
    [int] in the code; it is taken here without overflow. *)
Record Sums (T : Type) : Type := {
  simSquaredErrorSum : T;
  squaredVariationSum : T;
  timeSeriesPoints : nat
}.

(** ** The mechanism models

    [PopulateTimeDomainSim] is a template over the model
    (SimpleMotorSim, ElevatorSim, ArmSim); it uses these three members. *)

Class MechanismModel (T M : Type) : Type := {
  Reset : M -> T -> T -> M;        (* Reset(position, velocity) *)
  Update : M -> T -> T -> M;       (* Update(voltage, dt) *)
  GetVelocity : M -> T
}.

(** ** PopulateTimeDomainSim *)

Section TimeDomainSim.
Context {T : Type} `{Scalar T}.
Context {M : Type} `{MechanismModel T M}.

Definition sample0 : PreparedData T :=
  let z := s_of_Z 0 in
  {| timestamp := z; voltage := z; position := z; velocity := z;
     nextVelocity := z; dt := z; acceleration := z; cos := z |}.

(** data[i] *)
Definition at_ (data : list (PreparedData T)) (i : nat) : PreparedData T :=
  nth i data sample0.

(** std::find(startTimes.begin(), startTimes.end(), ts) != startTimes.end() *)
Definition is_start (startTimes : list T) (ts : T) : bool :=
  existsb (fun s => s_eqb s ts) startTimes.

(** The variables the loop of PopulateTimeDomainSim carries. *)
Record SimLoop : Type := {
  sl_model : M;
  sl_t : T;
  sl_tmp : list (ImPlotPoint T);
  sl_pts : list (list (ImPlotPoint T));
  sl_sums : Sums T
}.

Definition sim_init (data : list (PreparedData T)) (model : M)
    (g : Sums T) : SimLoop :=
  let d0 := at_ data 0 in
  {| sl_model := Reset model (position d0) (velocity d0);
     sl_t := s_of_Z 0;
     sl_tmp := [(timestamp d0, velocity d0)];
     sl_pts := [];
     sl_sums := g |}.

(** The loop body at index [i] (1 <= i < data.size()). *)
Definition sim_body (data : list (PreparedData T)) (startTimes : list T)
    (i : nat) (s : SimLoop) : SimLoop :=
  let now := at_ data i in
  let pre := at_ data (i - 1) in
  let startTime := timestamp (at_ data 0) in
  let t := s_add (sl_t s) (s_sub (timestamp now) (timestamp pre)) in
  if is_start startTimes (timestamp now) then
    {| sl_model := Reset (sl_model s) (position now) (velocity now);
       sl_t := t;
       sl_tmp := [];                       (* moved from: empty *)
       sl_pts := sl_pts s ++ [sl_tmp s];
       sl_sums := sl_sums s |}
  else
    let m := Update (sl_model s) (voltage pre) (dt pre) in
    let g := sl_sums s in
    {| sl_model := m;
       sl_t := t;
       sl_tmp := sl_tmp s ++ [(s_add startTime t, GetVelocity m)];
       sl_pts := sl_pts s;
       sl_sums :=
         {| simSquaredErrorSum :=
              s_add (simSquaredErrorSum g)
                    (s_pow2 (s_sub (velocity now) (GetVelocity m)));
            squaredVariationSum :=
              s_add (squaredVariationSum g) (s_pow2 (velocity now));
            timeSeriesPoints := S (timeSeriesPoints g) |} |}.

(** The loop variables after the iterations i = 1 .. k. *)
Fixpoint sim_upto (data : list (PreparedData T)) (startTimes : list T)
    (model : M) (g : Sums T) (k : nat) : SimLoop :=
  match k with
  | O => sim_init data model g
  | S j => sim_body data startTimes (S j) (sim_upto data startTimes model g j)
  end.

(** The whole function: the loop runs for i = 1 .. data.size() - 1, then the
    open sequence is appended.  [step] is a parameter of the C++ function.
    The result is the returned vector and the accumulators as left. *)
Definition PopulateTimeDomainSim (data : list (PreparedData T))
    (startTimes : list T) (step : nat) (model : M) (g : Sums T)
    : list (list (ImPlotPoint T)) * Sums T :=
  let s := sim_upto data startTimes model g (length data - 1) in
  (sl_pts s ++ [sl_tmp s], sl_sums s).
End TimeDomainSim.

(** ** The samples behind the accumulators *)

Section Contributions.
Context {T : Type} `{Scalar T}.
Context {M : Type} `{MechanismModel T M}.

(** The accumulators as ResetData leaves them. *)
Definition sums0 : Sums T :=
  {| simSquaredErrorSum := s_of_Z 0; squaredVariationSum := s_of_Z 0;
     timeSeriesPoints := 0 |}.

(** The measured velocity and the predicted velocity at every sample among
    1 .. k that is not at a start time: the samples at which the simulator
    adds to the accumulators, in order. *)
Definition contributions (data : list (PreparedData T)) (startTimes : list T)
    (model : M) (k : nat) : list (T * T) :=
  flat_map
    (fun i =>
       if is_start startTimes (timestamp (at_ data i)) then []
       else [(velocity (at_ data i),
              GetVelocity (sl_model (sim_upto data startTimes model sums0 i)))])
    (seq 1 k).

(** The accumulators after adding, for each (measured, predicted) pair, the
    squared difference, the squared measured velocity, and one to the
    count. *)
Definition accumulate (g : Sums T) (l : list (T * T)) : Sums T :=
  fold_left
    (fun g mp =>
       {| simSquaredErrorSum :=
            s_add (simSquaredErrorSum g) (s_pow2 (s_sub (fst mp) (snd mp)));
          squaredVariationSum :=
            s_add (squaredVariationSum g) (s_pow2 (fst mp));
          timeSeriesPoints := S (timeSeriesPoints g) |})
    l g.
End Contributions.

(** ** AnalyzerPlot *)

(** AnalysisType.h is not among the sources; the code tests the type against
    [analysis::kElevator] and [analysis::kArm] and treats every other type
    alike. *)
Inductive AnalysisType : Type := kSimple | kElevator | kArm.

(** The members of AnalyzerPlot that the passes write, and the three
    file-level accumulators.  The two string maps are keyed by chart title;
    [kChartTitles] holds seven distinct titles, and the maps are indexed here
    by the position of the title in that array.  A missing entry and an empty
    vector display alike and are not told apart. *)
Record AnalyzerPlot (T : Type) : Type := {
  m_filteredData : nat -> list (ImPlotPoint T);
  m_rawData : nat -> list (ImPlotPoint T);
  m_dtMeanLine : list (ImPlotPoint T);
  m_quasistaticSim : list (list (ImPlotPoint T));
  m_dynamicSim : list (list (ImPlotPoint T));
  m_KvFit : ImPlotPoint T * ImPlotPoint T;
  m_KaFit : ImPlotPoint T * ImPlotPoint T;
  m_RMSE : T;
  m_RSquared : T;
  m_fitNextPlot : list bool;
  m_velocityLabel : String.string;
  m_accelerationLabel : String.string;
  sums : Sums T
}.

(** How a loop that polls the abort flag ended: whether it left through
    [return], how many times the flag has been read, and the state. *)
Record Ran (S : Type) : Type := {
  returned : bool;
  reads : nat;
  state : S
}.

Section StridedLoop.
Variable St : Type.
(** [abort k] is the value the k-th read of the atomic flag observes. *)
Variable abort : nat -> bool.
Variable body : nat -> St -> St.
Variables n step : nat.

(** for (size_t i = 0; i < n; i += step) { if (abort) return; body(i); }
    entered at [i], the flag read [k] times so far.  [fuel] bounds the
    number of iterations; [for_stride] gives it the value [n], which is
    enough whenever [n = 0] or [step >= 1] (lemma [stride_loop_total]).
    With [step = 0] and [n > 0] the C++ loop would stay at index 0; the
    step the code computes is at least 1 for every non-empty run (lemma
    [stride_R_covers], on the reals). *)
Fixpoint stride_loop (fuel i k : nat) (st : St) : Ran St :=
  match fuel with
  | O => {| returned := false; reads := k; state := st |}
  | S f =>
      if i <? n then
        if abort k then {| returned := true; reads := S k; state := st |}
        else stride_loop f (i + step) (S k) (body i st)
      else {| returned := false; reads := k; state := st |}
  end.

Definition for_stride (k : nat) (st : St) : Ran St := stride_loop n 0 k st.
End StridedLoop.

Section Plot.
Context {T : Type} `{Scalar T}.

(** Declared in headers that are not among the sources: the size budget of a
    plotted series, the unit abbreviations, and the mean time step of the
    filtered data. *)
Variable kMaxSize : nat.
Variable GetAbbreviation : String.string -> String.string.
Variable GetMeanTimeDelta : Storage T -> T.

(** The three simulators and their constructors from the gains. *)
Context {SimpleMotorSim ElevatorSim ArmSim : Type}.
Context `{MechanismModel T SimpleMotorSim}.
Context `{MechanismModel T ElevatorSim}.
Context `{MechanismModel T ArmSim}.
Variable mkSimpleMotorSim : T -> T -> T -> SimpleMotorSim.
Variable mkElevatorSim : T -> T -> T -> T -> ElevatorSim.
Variable mkArmSim : T -> T -> T -> T -> ArmSim.

Local Abbreviation Plot := (AnalyzerPlot T).
Local Abbreviation Pt := (ImPlotPoint T).

Definition zero : T := s_of_Z 0.

(** m[kChartTitles[c]].emplace_back(p) *)
Definition emplace_back (c : nat) (p : Pt) (m : nat -> list Pt)
    : nat -> list Pt :=
  fun c' => if c' =? c then m c' ++ [p] else m c'.

Definition with_filtered (f : nat -> list Pt) (st : Plot) : Plot :=
  {| m_filteredData := f; m_rawData := m_rawData st;
     m_dtMeanLine := m_dtMeanLine st;
     m_quasistaticSim := m_quasistaticSim st;
     m_dynamicSim := m_dynamicSim st;
     m_KvFit := m_KvFit st; m_KaFit := m_KaFit st;
     m_RMSE := m_RMSE st; m_RSquared := m_RSquared st;
     m_fitNextPlot := m_fitNextPlot st;
     m_velocityLabel := m_velocityLabel st;
     m_accelerationLabel := m_accelerationLabel st;
     sums := sums st |}.

Definition with_raw (f : nat -> list Pt) (st : Plot) : Plot :=
  {| m_filteredData := m_filteredData st; m_rawData := f;
     m_dtMeanLine := m_dtMeanLine st;
     m_quasistaticSim := m_quasistaticSim st;
     m_dynamicSim := m_dynamicSim st;
     m_KvFit := m_KvFit st; m_KaFit := m_KaFit st;
     m_RMSE := m_RMSE st; m_RSquared := m_RSquared st;
     m_fitNextPlot := m_fitNextPlot st;
     m_velocityLabel := m_velocityLabel st;
     m_accelerationLabel := m_accelerationLabel st;
     sums := sums st |}.

Definition with_KvFit (l : Pt * Pt) (st : Plot) : Plot :=
  {| m_filteredData := m_filteredData st; m_rawData := m_rawData st;
     m_dtMeanLine := m_dtMeanLine st;
     m_quasistaticSim := m_quasistaticSim st;
     m_dynamicSim := m_dynamicSim st;
     m_KvFit := l; m_KaFit := m_KaFit st;
     m_RMSE := m_RMSE st; m_RSquared := m_RSquared st;
     m_fitNextPlot := m_fitNextPlot st;
     m_velocityLabel := m_velocityLabel st;
     m_accelerationLabel := m_accelerationLabel st;
     sums := sums st |}.

Definition with_KaFit (l : Pt * Pt) (st : Plot) : Plot :=
  {| m_filteredData := m_filteredData st; m_rawData := m_rawData st;
     m_dtMeanLine := m_dtMeanLine st;
     m_quasistaticSim := m_quasistaticSim st;
     m_dynamicSim := m_dynamicSim st;
     m_KvFit := m_KvFit st; m_KaFit := l;
     m_RMSE := m_RMSE st; m_RSquared := m_RSquared st;
     m_fitNextPlot := m_fitNextPlot st;
     m_velocityLabel := m_velocityLabel st;
     m_accelerationLabel := m_accelerationLabel st;
     sums := sums st |}.

(** void AnalyzerPlot::FitPlots() *)
Definition FitPlots (st : Plot) : Plot :=
  {| m_filteredData := m_filteredData st; m_rawData := m_rawData st;
     m_dtMeanLine := m_dtMeanLine st;
     m_quasistaticSim := m_quasistaticSim st;
     m_dynamicSim := m_dynamicSim st;
     m_KvFit := m_KvFit st; m_KaFit := m_KaFit st;
     m_RMSE := m_RMSE st; m_RSquared := m_RSquared st;
     m_fitNextPlot := map (fun _ => true) (m_fitNextPlot st);
     m_velocityLabel := m_velocityLabel st;
     m_accelerationLabel := m_accelerationLabel st;
     sums := sums st |}.

(** void AnalyzerPlot::ResetData(): every series, both simulations and the
    mean line are cleared, the accumulators and the fit lines zeroed;
    m_RMSE and m_RSquared are not assigned. *)
Definition ResetData (st : Plot) : Plot :=
  FitPlots
    {| m_filteredData := fun _ => [];
       m_rawData := fun _ => [];
       m_dtMeanLine := [];
       m_quasistaticSim := [];
       m_dynamicSim := [];
       m_KvFit := ((zero, zero), (zero, zero));
       m_KaFit := ((zero, zero), (zero, zero));
       m_RMSE := m_RMSE st; m_RSquared := m_RSquared st;
       m_fitNextPlot := m_fitNextPlot st;
       m_velocityLabel := m_velocityLabel st;
       m_accelerationLabel := m_accelerationLabel st;
       sums := {| simSquaredErrorSum := zero;
                  squaredVariationSum := zero;
                  timeSeriesPoints := 0 |} |}.

(** void AnalyzerPlot::SetGraphLabels(std::string_view unit) *)
Definition SetGraphLabels (unit : String.string) (st : Plot) : Plot :=
  let abbreviation := GetAbbreviation unit in
  {| m_filteredData := m_filteredData st; m_rawData := m_rawData st;
     m_dtMeanLine := m_dtMeanLine st;
     m_quasistaticSim := m_quasistaticSim st;
     m_dynamicSim := m_dynamicSim st;
     m_KvFit := m_KvFit st; m_KaFit := m_KaFit st;
     m_RMSE := m_RMSE st; m_RSquared := m_RSquared st;
     m_fitNextPlot := m_fitNextPlot st;
     m_velocityLabel :=
       String.append "Velocity ("%string
                   (String.append abbreviation " / s)"%string);
     m_accelerationLabel :=
       String.append "Acceleration ("%string
                   (String.append abbreviation " / s^2)"%string);
     sums := sums st |}.

(** std::ceil(size * 1.0 / kMaxSize * 4), the step of a strided loop. *)
Definition stride (size : nat) : nat :=
  Z.to_nat
    (s_ceil
       (s_mul
          (s_div (s_mul (s_of_Z (Z.of_nat size)) (s_of_Z 1))
                 (s_of_Z (Z.of_nat kMaxSize)))
          (s_of_Z 4))).

(** *** SetRawTimeData *)

Definition raw_body (cv ca : nat) (raw : list (PreparedData T)) (i : nat)
    (st : Plot) : Plot :=
  let d := at_ raw i in
  with_raw
    (emplace_back ca (timestamp d, acceleration d)
       (emplace_back cv (timestamp d, velocity d) (m_rawData st)))
    st.

(** The result keeps the count of flag reads; the C++ function returns
    nothing, also when it leaves through [return]. *)
Definition SetRawTimeData (rawSlow rawFast : list (PreparedData T))
    (abort : nat -> bool) (k : nat) (st : Plot) : Ran Plot :=
  let rawSlowStep := stride (length rawSlow) in
  let rawFastStep := stride (length rawFast) in
  let r := for_stride abort (raw_body 2 3 rawSlow)
                      (length rawSlow) rawSlowStep k st in
  if returned r then r
  else for_stride abort (raw_body 4 5 rawFast)
                  (length rawFast) rawFastStep (reads r) (state r).

(** void AnalyzerPlot::SetRawData(rawData, unit, abort) *)
Definition SetRawData (rawData : Storage T) (unit : String.string)
    (abort : nat -> bool) (st : Plot) : Ran Plot :=
  SetRawTimeData (slow rawData) (fast rawData) abort 0
                 (ResetData (SetGraphLabels unit st)).

(** *** SetData *)

(** ffGains[k] *)
Definition gain (ffGains : list T) (k : nat) : T := nth k ffGains zero.

(** std::min_element and std::max_element with the comparison
    [key a < key b], on a non-empty range: the first smallest and the first
    largest element.  On an empty range the code dereferences [end()]. *)
Definition min_element (key : PreparedData T -> T)
    (l : list (PreparedData T)) : PreparedData T :=
  match l with
  | [] => sample0
  | x :: r =>
      fold_left
        (fun smallest e => if s_ltb (key e) (key smallest) then e else smallest)
        r x
  end.

Definition max_element (key : PreparedData T -> T)
    (l : list (PreparedData T)) : PreparedData T :=
  match l with
  | [] => sample0
  | x :: r =>
      fold_left
        (fun largest e => if s_ltb (key largest) (key e) then e else largest)
        r x
  end.

(** units::math::min and units::math::max *)
Definition s_min (a b : T) : T := if s_ltb a b then a else b.
Definition s_max (a b : T) : T := if s_ltb b a then a else b.

(** The mechanism-specific term taken from Vportion. *)
Definition minus_gravity (type : AnalysisType) (ffGains : list T)
    (d : PreparedData T) (Vportion : T) : T :=
  match type with
  | kElevator => s_sub Vportion (gain ffGains 3)
  | kArm => s_sub Vportion (s_mul (gain ffGains 3) (cos d))
  | kSimple => Vportion
  end.

(** The condition under which iteration [i] adds a timestep point:
    i > 0, dt > 0_s, and the timestamp is not found in startTimes. *)
Definition emits_dt (startTimes : list T) (d : PreparedData T) (i : nat)
    : bool :=
  (0 <? i) && s_ltb zero (dt d) && negb (is_start startTimes (timestamp d)).

Definition dt_point (startTimes : list T) (d : PreparedData T) (i : nat)
    (f : nat -> list Pt) : nat -> list Pt :=
  if emits_dt startTimes d i
  then emplace_back 6 (timestamp d, to_ms (dt d)) f
  else f.

(** Vportion of the quasistatic (slow) loop. *)
Definition slow_Vportion (type : AnalysisType) (ffGains : list T)
    (d : PreparedData T) : T :=
  let Ks := gain ffGains 0 in
  let Ka := gain ffGains 2 in
  minus_gravity type ffGains d
    (s_sub (s_sub (voltage d) (s_copysign Ks (velocity d)))
           (s_mul Ka (acceleration d))).

(** Vportion of the dynamic (fast) loop. *)
Definition fast_Vportion (type : AnalysisType) (ffGains : list T)
    (d : PreparedData T) : T :=
  let Ks := gain ffGains 0 in
  let Kv := gain ffGains 1 in
  minus_gravity type ffGains d
    (s_sub (s_sub (voltage d) (s_copysign Ks (velocity d)))
           (s_mul Kv (velocity d))).

(** The two points of a line of best fit with gain [K] between the extreme
    values [mn] and [mx]. *)
Definition fit_line (K mn mx : T) : Pt * Pt :=
  ((s_mul K mn, mn), (s_mul K mx, mx)).

(** The body of the loop over the slow data at index [i]. *)
Definition slow_body (type : AnalysisType) (ffGains startTimes : list T)
    (fslow : list (PreparedData T)) (slowMinElement slowMaxElement : T)
    (i : nat) (st : Plot) : Plot :=
  let d := at_ fslow i in
  let Kv := gain ffGains 1 in
  let Vportion := slow_Vportion type ffGains d in
  let st1 := with_KvFit (fit_line Kv slowMinElement slowMaxElement) st in
  with_filtered
    (dt_point startTimes d i
       (emplace_back 3 (timestamp d, acceleration d)
          (emplace_back 2 (timestamp d, velocity d)
             (emplace_back 0 (Vportion, velocity d) (m_filteredData st1)))))
    st1.

(** The body of the loop over the fast data at index [i]. *)
Definition fast_body (type : AnalysisType) (ffGains startTimes : list T)
    (ffast : list (PreparedData T)) (fastMinElement fastMaxElement : T)
    (i : nat) (st : Plot) : Plot :=
  let d := at_ ffast i in
  let Ka := gain ffGains 2 in
  let Vportion := fast_Vportion type ffGains d in
  let st1 := with_KaFit (fit_line Ka fastMinElement fastMaxElement) st in
  with_filtered
    (dt_point startTimes d i
       (emplace_back 5 (timestamp d, acceleration d)
          (emplace_back 4 (timestamp d, velocity d)
             (emplace_back 1 (Vportion, acceleration d)
                (m_filteredData st1)))))
    st1.

(** PopulateTimeDomainSim at the simulator the analysis type selects. *)
Definition simulate (type : AnalysisType) (ffGains startTimes : list T)
    (step : nat) (data : list (PreparedData T)) (g : Sums T)
    : list (list Pt) * Sums T :=
  let Ks := gain ffGains 0 in
  let Kv := gain ffGains 1 in
  let Ka := gain ffGains 2 in
  match type with
  | kElevator =>
      PopulateTimeDomainSim data startTimes step
        (mkElevatorSim Ks Kv Ka (gain ffGains 3)) g
  | kArm =>
      PopulateTimeDomainSim data startTimes step
        (mkArmSim Ks Kv Ka (gain ffGains 3)) g
  | kSimple =>
      PopulateTimeDomainSim data startTimes step
        (mkSimpleMotorSim Ks Kv Ka) g
  end.

(** m_RMSE and m_RSquared from the accumulators. *)
Definition rmse (g : Sums T) : T :=
  s_sqrt (s_div (simSquaredErrorSum g)
                (s_of_Z (Z.of_nat (timeSeriesPoints g)))).

Definition r_squared (g : Sums T) : T :=
  s_sub (s_of_Z 1)
        (s_div (rmse g)
               (s_sqrt (s_div (squaredVariationSum g)
                              (s_of_Z (Z.of_nat (timeSeriesPoints g)))))).

(** What SetData does once both of its own loops have run to the end: the
    mean line, the raw series, the two simulations and the metrics. *)
Definition finish_SetData (rawData filteredData : Storage T)
    (ffGains startTimes : list T) (type : AnalysisType)
    (abort : nat -> bool) (k : nat) (st : Plot) : Ran Plot :=
  let fslow := slow filteredData in
  let ffast := fast filteredData in
  let fastStep := stride (length ffast) in
  let dtMean := GetMeanTimeDelta filteredData in
  let minTime := s_min (timestamp (at_ fslow 0)) (timestamp (at_ ffast 0)) in
  let maxTime := s_max (timestamp (last fslow sample0))
                       (timestamp (last ffast sample0)) in
  let line := m_dtMeanLine st ++ [(minTime, to_ms dtMean)]
                               ++ [(maxTime, to_ms dtMean)] in
  let r := SetRawTimeData (slow rawData) (fast rawData) abort k
             {| m_filteredData := m_filteredData st;
                m_rawData := m_rawData st;
                m_dtMeanLine := line;
                m_quasistaticSim := m_quasistaticSim st;
                m_dynamicSim := m_dynamicSim st;
                m_KvFit := m_KvFit st; m_KaFit := m_KaFit st;
                m_RMSE := m_RMSE st; m_RSquared := m_RSquared st;
                m_fitNextPlot := m_fitNextPlot st;
                m_velocityLabel := m_velocityLabel st;
                m_accelerationLabel := m_accelerationLabel st;
                sums := sums st |} in
  let st2 := state r in
  let q := simulate type ffGains startTimes fastStep (slow rawData)
                    (sums st2) in
  let d := simulate type ffGains startTimes fastStep (fast rawData)
                    (snd q) in
  let g := snd d in
  {| returned := false;
     reads := reads r;
     state :=
       FitPlots
         {| m_filteredData := m_filteredData st2;
            m_rawData := m_rawData st2;
            m_dtMeanLine := m_dtMeanLine st2;
            m_quasistaticSim := fst q;
            m_dynamicSim := fst d;
            m_KvFit := m_KvFit st2; m_KaFit := m_KaFit st2;
            m_RMSE := rmse g; m_RSquared := r_squared g;
            m_fitNextPlot := m_fitNextPlot st2;
            m_velocityLabel := m_velocityLabel st2;
            m_accelerationLabel := m_accelerationLabel st2;
            sums := g |} |}.

(** The loop over the slow data, with the step and the extreme velocities
    computed before it. *)
Definition slow_loop (filteredData : Storage T) (ffGains startTimes : list T)
    (type : AnalysisType) (abort : nat -> bool) (k : nat) (st : Plot)
    : Ran Plot :=
  let fslow := slow filteredData in
  let slowStep := stride (length fslow) in
  let slowMinElement := velocity (min_element (@velocity T) fslow) in
  let slowMaxElement := velocity (max_element (@velocity T) fslow) in
  for_stride abort
    (slow_body type ffGains startTimes fslow slowMinElement slowMaxElement)
    (length fslow) slowStep k st.

(** The loop over the fast data, with the step and the extreme accelerations
    computed before it. *)
Definition fast_loop (filteredData : Storage T) (ffGains startTimes : list T)
    (type : AnalysisType) (abort : nat -> bool) (k : nat) (st : Plot)
    : Ran Plot :=
  let ffast := fast filteredData in
  let fastStep := stride (length ffast) in
  let fastMinElement := acceleration (min_element (@acceleration T) ffast) in
  let fastMaxElement := acceleration (max_element (@acceleration T) ffast) in
  for_stride abort
    (fast_body type ffGains startTimes ffast fastMinElement fastMaxElement)
    (length ffast) fastStep k st.

(** void AnalyzerPlot::SetData(rawData, filteredData, unit, ffGains,
    startTimes, type, abort).  [returned] tells whether the call left through
    one of the two [return] statements of its own loops. *)
Definition SetData (rawData filteredData : Storage T) (unit : string)
    (ffGains startTimes : list T) (type : AnalysisType)
    (abort : nat -> bool) (st : Plot) : Ran Plot :=
  let st0 := ResetData (SetGraphLabels unit st) in
  let r1 := slow_loop filteredData ffGains startTimes type abort 0 st0 in
  if returned r1 then r1
  else
    let r2 := fast_loop filteredData ffGains startTimes type abort
                        (reads r1) (state r1) in
    if returned r2 then r2
    else finish_SetData rawData filteredData ffGains startTimes type
                        abort (reads r2) (state r2).

(** The (measured, predicted) pairs of a whole run at the simulator the
    analysis type selects. *)
Definition sim_contributions (type : AnalysisType) (ffGains startTimes : list T)
    (data : list (PreparedData T)) : list (T * T) :=
  let Ks := gain ffGains 0 in
  let Kv := gain ffGains 1 in
  let Ka := gain ffGains 2 in
  let k := length data - 1 in
  match type with
  | kElevator =>
      contributions data startTimes (mkElevatorSim Ks Kv Ka (gain ffGains 3)) k
  | kArm =>
      contributions data startTimes (mkArmSim Ks Kv Ka (gain ffGains 3)) k
  | kSimple =>
      contributions data startTimes (mkSimpleMotorSim Ks Kv Ka) k
  end.
End Plot.

(** ** Vocabulary of the statements *)

Section Vocabulary.
Context {T : Type} `{Scalar T}.

(** A sample with another voltage and dt, all else kept. *)
Definition with_drive (d : PreparedData T) (v t : T) : PreparedData T :=
  {| timestamp := timestamp d; voltage := v; position := position d;
     velocity := velocity d; nextVelocity := nextVelocity d; dt := t;
     acceleration := acceleration d; cos := cos d |}.

(** The run with the voltage and dt of sample [i] replaced. *)
Definition redrive (i : nat) (v t : T) (data : list (PreparedData T))
    : list (PreparedData T) :=
  firstn i data ++
  match skipn i data with
  | [] => []
  | d :: r => with_drive d v t :: r
  end.
End Vocabulary.

(** ** Concrete data

    The simulators (SimpleMotorSim.h, ElevatorSim.h, ArmSim.h) are not among
    the sources; the theorems hold for any.  Where a statement is evaluated,
    [Integrator] stands in for all three: its state is the velocity, [Reset]
    takes the measured velocity, [Update] adds voltage times dt. *)

#[export] Instance Integrator (T : Type) `{Scalar T} : MechanismModel T T := {
  Reset := fun _ _ v => v;
  Update := fun m V d => s_add m (s_mul V d);
  GetVelocity := fun m => m
}.

Module Demo.

(** A sample with the members the struct initialises left at their
    defaults. *)
Definition sample {T : Type} `{Scalar T} (t V pos vel d : T)
    : PreparedData T :=
  let z := s_of_Z 0 in
  {| timestamp := t; voltage := V; position := pos; velocity := vel;
     nextVelocity := z; dt := d; acceleration := z; cos := z |}.

(** The slow run of the example scenario. *)
Definition scenario_slow : list (PreparedData float) :=
  [ sample 0 1 0 0 0.02; sample 0.02 1 0.001 0.05 0.02 ]%float.

(** Ks = 0.5, Kv = 0.5, Ka = 0 *)
Definition scenario_gains : list float := [0.5; 0.5; 0]%float.

(** A run of four samples and start times of which 0.04 is met at sample 2. *)
Definition run4 : list (PreparedData float) :=
  [ sample 0 1 0 0 0.02; sample 0.02 1 0.001 0.05 0.02;
    sample 0.04 2 0.002 0.1 0.02; sample 0.06 2 0.005 0.15 0.02 ]%float.

Definition starts4 : list float := [0; 0.04; 10; 20]%float.

(** Start times met at samples 1 and 2 in a row, and at the last sample. *)
Definition starts_twice : list float := [0; 0.02; 0.04; 0.06]%float.

Definition no_sums : Sums float :=
  {| simSquaredErrorSum := 0%float; squaredVariationSum := 0%float;
     timeSeriesPoints := 0 |}.

(** The series budget.  AnalyzerPlot.h is not among the sources; the upstream
    header has 2048. *)
Definition kMaxSize : nat := 2048.

Definition GetAbbreviation (unit : string) : string := unit.

(** GetMeanTimeDelta is declared in FilteringUtils.h; here 2 / 100. *)
Definition GetMeanTimeDelta {T : Type} `{Scalar T} (_ : Storage T) : T :=
  s_div (s_of_Z 2) (s_of_Z 100).

(** The simulators are built with the velocity 0; [Reset] seeds them. *)
Definition mkSim3 {T : Type} `{Scalar T} (Ks Kv Ka : T) : T := s_of_Z 0.
Definition mkSim4 {T : Type} `{Scalar T} (Ks Kv Ka Kg : T) : T := s_of_Z 0.

(** SetData at these stand-ins. *)
Definition run_SetData (rawData filteredData : Storage float)
    (ffGains startTimes : list float) (type : AnalysisType)
    (abort : nat -> bool) (st : AnalyzerPlot float)
    : Ran (AnalyzerPlot float) :=
  SetData kMaxSize GetAbbreviation GetMeanTimeDelta mkSim3 mkSim4 mkSim4
          rawData filteredData "Meters" ffGains startTimes type abort st.

(** A plot that has not been given data yet. *)
Definition fresh : AnalyzerPlot float :=
  {| m_filteredData := fun _ => [];
     m_rawData := fun _ => [];
     m_dtMeanLine := [];
     m_quasistaticSim := [];
     m_dynamicSim := [];
     m_KvFit := ((0, 0), (0, 0))%float;
     m_KaFit := ((0, 0), (0, 0))%float;
     m_RMSE := 0%float;
     m_RSquared := 0%float;
     m_fitNextPlot := repeat false 7;
     m_velocityLabel := EmptyString;
     m_accelerationLabel := EmptyString;
     sums := no_sums |}.

Definition never : nat -> bool := fun _ => false.

Definition store4 : Storage float := {| slow := run4; fast := run4 |}.

(** A run at rest: no voltage, no motion. *)
Definition still : list (PreparedData float) :=
  [ sample 0 0 0 0 0.02; sample 0.02 0 0 0 0.02; sample 0.04 0 0 0 0.02 ]%float.

Definition store_still : Storage float := {| slow := still; fast := still |}.

Definition store_scenario : Storage float :=
  {| slow := scenario_slow; fast := scenario_slow |}.

(** The plot after one complete pass over [run4]. *)
Definition shown : AnalyzerPlot float :=
  state (run_SetData store4 store4 scenario_gains starts4 kSimple never fresh).

(** A run of 513 samples, 0.02 s apart, and start times none of which is
    met after the first sample. *)
Definition long_run : list (PreparedData float) :=
  map (fun k => sample (F64.of_Z (Z.of_nat k) * 0.02) 1 0 0 0.02)%float
      (seq 0 513).

Definition store_long : Storage float := {| slow := long_run; fast := long_run |}.

Definition starts_far : list float := [0; 100; 200; 300]%float.

(** The plot after one complete pass over [long_run]. *)
Definition shown_long : Ran (AnalyzerPlot float) :=
  run_SetData store_long store_long scenario_gains starts_far kSimple never
              fresh.

(** On the reals: a run at the steady velocity 1 under no voltage, which the
    stand-in simulator predicts exactly, and a plot without data. *)
Definition steady : list (PreparedData R) :=
  [ sample 0 0 0 1 (2 / 100); sample (2 / 100) 0 (2 / 100) 1 (2 / 100);
    sample (4 / 100) 0 (4 / 100) 1 (2 / 100) ]%R.

Definition store_steady : Storage R := {| slow := steady; fast := steady |}.

Definition fresh_R : AnalyzerPlot R :=
  {| m_filteredData := fun _ => [];
     m_rawData := fun _ => [];
     m_dtMeanLine := [];
     m_quasistaticSim := [];
     m_dynamicSim := [];
     m_KvFit := ((0, 0), (0, 0))%R;
     m_KaFit := ((0, 0), (0, 0))%R;
     m_RMSE := 0%R;
     m_RSquared := 0%R;
     m_fitNextPlot := repeat false 7;
     m_velocityLabel := EmptyString;
     m_accelerationLabel := EmptyString;
     sums := {| simSquaredErrorSum := 0%R; squaredVariationSum := 0%R;
                timeSeriesPoints := 0 |} |}.

(** SetData on the reals at the stand-ins, with no start time given. *)
Definition run_SetData_R (rawData filteredData : Storage R)
    (ffGains : list R) (type : AnalysisType) (abort : nat -> bool)
    (st : AnalyzerPlot R) : Ran (AnalyzerPlot R) :=
  SetData kMaxSize GetAbbreviation GetMeanTimeDelta mkSim3 mkSim4 mkSim4
          rawData filteredData "Meters" ffGains [] type abort st.

(** A complete pass over the run at rest. *)
Definition shown_still : Ran (AnalyzerPlot float) :=
  run_SetData store_still store_still scenario_gains starts_far kSimple never
              fresh.

(** A complete pass, on the reals, over the steady run. *)
Definition shown_steady : Ran (AnalyzerPlot R) :=
  run_SetData_R store_steady store_steady [0; 0; 0]%R kSimple never fresh_R.

(** The flag is clear for the first [k] reads and set from then on. *)
Definition set_from (k : nat) : nat -> bool := fun j => k <=? j.

(** A second pass over the same data on the plot [shown], during which the
    flag is set after two iterations of the first loop. *)
Definition aborted : Ran (AnalyzerPlot float) :=
  run_SetData store4 store4 scenario_gains starts4 kSimple (set_from 2) shown.
End Demo.

(** ** Vocabulary for the strided loops *)

(** The indices i, i + step, ... below [n], at most [fuel] of them. *)
Fixpoint stride_indices (n step fuel i : nat) : list nat :=
  match fuel with
  | O => []
  | S f => if i <? n then i :: stride_indices n step f (i + step) else []
  end.

(** The indices a strided loop over [n] samples visits when the abort flag is
    never seen set. *)
Definition visited (n step : nat) : list nat := stride_indices n step n 0.

(** Of [m] iterations, the number that run before the flag is seen set, when
    it has been read [k] times before the first. *)
Fixpoint completed (abort : nat -> bool) (k m : nat) : nat :=
  match m with
  | O => O
  | S m' => if abort k then O else S (completed abort (S k) m')
  end.

(** The loop body applied along a list of indices. *)
Definition run_body {S : Type} (body : nat -> S -> S) (idx : list nat)
    (st : S) : S :=
  fold_left (fun s i => body i s) idx st.

Section SeriesVocabulary.
Context {T : Type} `{Scalar T}.

(** The timestep points the loop over [run] adds along the indices [idx]. *)
Definition dt_series (startTimes : list T) (run : list (PreparedData T))
    (idx : list nat) : list (ImPlotPoint T) :=
  flat_map
    (fun i => let d := at_ run i in
              if emits_dt startTimes d i
              then [(timestamp d, to_ms (dt d))] else [])
    idx.

(** [l1] is an initial segment of [l2]. *)
Definition prefix_of {A : Type} (l1 l2 : list A) : Prop :=
  exists rest, l2 = l1 ++ rest.
End SeriesVocabulary.

(** ** Vocabulary for the size of the series *)

(** Whether an iteration at index [i] of the loop over the slow data, of the
    loop over the fast data, and of a loop over raw data may append a point to
    the series of chart [c]. *)
Definition slow_adds (c i : nat) : bool :=
  match c with
  | 0 | 2 | 3 => true
  | 6 => 0 <? i
  | _ => false
  end.

Definition fast_adds (c i : nat) : bool :=
  match c with
  | 1 | 4 | 5 => true
  | 6 => 0 <? i
  | _ => false
  end.

Definition raw_adds (cv ca c : nat) (i : nat) : bool := (c =? cv) || (c =? ca).

(** ** Vocabulary for the abort flag *)

(** The flag was clear at every read from the a-th up to, not including, the
    b-th. *)
Definition clear_between (abort : nat -> bool) (a b : nat) : Prop :=
  forall i, a <= i -> i < b -> abort i = false.

(** The number of iterations the four strided loops of SetData make together
    when the flag stays clear. *)
Definition iterations {T : Type} `{Scalar T} (kMaxSize : nat)
    (rawData filteredData : Storage T) : nat :=
  let n l := length (visited (length l) (stride kMaxSize (length l))) in
  n (slow filteredData) + n (fast filteredData)
  + n (slow rawData) + n (fast rawData).

(** ** Vocabulary for comparing plots *)

Section PlotVocabulary.
Context {T : Type} `{Scalar T}.

(** Two plots that differ at most in m_RMSE and m_RSquared. *)
Definition same_but_metrics (s w : AnalyzerPlot T) : Prop :=
  m_filteredData s = m_filteredData w
  /\ m_rawData s = m_rawData w
  /\ m_dtMeanLine s = m_dtMeanLine w
  /\ m_quasistaticSim s = m_quasistaticSim w
  /\ m_dynamicSim s = m_dynamicSim w
  /\ m_KvFit s = m_KvFit w
  /\ m_KaFit s = m_KaFit w
  /\ m_fitNextPlot s = m_fitNextPlot w
  /\ m_velocityLabel s = m_velocityLabel w
  /\ m_accelerationLabel s = m_accelerationLabel w
  /\ sums s = sums w.

(** Two plots that differ at most in the raw series. *)
Definition same_but_raw (s w : AnalyzerPlot T) : Prop :=
  m_filteredData s = m_filteredData w
  /\ m_dtMeanLine s = m_dtMeanLine w
  /\ m_quasistaticSim s = m_quasistaticSim w
  /\ m_dynamicSim s = m_dynamicSim w
  /\ m_KvFit s = m_KvFit w
  /\ m_KaFit s = m_KaFit w
  /\ m_RMSE s = m_RMSE w
  /\ m_RSquared s = m_RSquared w
  /\ m_fitNextPlot s = m_fitNextPlot w
  /\ m_velocityLabel s = m_velocityLabel w
  /\ m_accelerationLabel s = m_accelerationLabel w
  /\ sums s = sums w.

(** The series that are filled side by side have their points side by side:
    charts 0 and 2 carry the same velocities, charts 2 and 3 the same
    timestamps, charts 1 and 5 the same accelerations, charts 4 and 5 the
    same timestamps, and so do the raw series of charts 2 and 3 and of charts
    4 and 5. *)
Definition aligned (s : AnalyzerPlot T) : Prop :=
  map snd (m_filteredData s 0) = map snd (m_filteredData s 2)
  /\ map fst (m_filteredData s 2) = map fst (m_filteredData s 3)
  /\ map snd (m_filteredData s 1) = map snd (m_filteredData s 5)
  /\ map fst (m_filteredData s 4) = map fst (m_filteredData s 5)
  /\ map fst (m_rawData s 2) = map fst (m_rawData s 3)
  /\ map fst (m_rawData s 4) = map fst (m_rawData s 5).
End PlotVocabulary.

(** ** Vocabulary for the content of the series *)

(** The points (px d, py d) of the samples of [run] at the indices [idx]. *)
Definition sample_points {T : Type} `{Scalar T} (px py : PreparedData T -> T)
    (run : list (PreparedData T)) (idx : list nat) : list (ImPlotPoint T) :=
  map (fun i => (px (at_ run i), py (at_ run i))) idx.

(** The indices among 1 .. k of the samples that are not at a start time:
    those at which the simulator steps the model. *)
Definition stepped {T : Type} `{Scalar T} (startTimes : list T)
    (data : list (PreparedData T)) (k : nat) : list nat :=
  filter (fun i => negb (is_start startTimes (timestamp (at_ data i))))
         (seq 1 k).

(** ** Displaying the plots *)

Module ImVec2.
(** ImVec2, two floats; a float is held as the double of the same value. *)
Record t : Type := mk { x : float; y : float }.
End ImVec2.

Inductive ImAxis : Type := ImAxis_X1 | ImAxis_Y1.

(** The calls the display functions make into ImGui and ImPlot, in the order
    they make them, each with its arguments that vary: a chart stands for its
    title kChartTitles[chart], and the style, flag and getter arguments,
    which are the same at every call, are left out.  The argument of
    ImGui::Text is the character given for %c in "Loading %c". *)
Inductive Call (T : Type) : Type :=
| ImGui_Text (c : option ascii)
| ImGui_SameLine
| SetNextAxesToFit
| SetNextAxisToFit (axis : ImAxis)
| BeginPlot (chart : nat) (size : ImVec2.t)
| SetupAxis (axis : ImAxis) (label : String.string)
| SetupAxisLimits (axis : ImAxis) (lo hi : Z)
| SetupLegend
| SetNextMarkerStyle
| SetNextLineStyle
| PlotScatterG (label : String.string) (pts : list (ImPlotPoint T))
| PlotLineG (label : String.string) (pts : list (ImPlotPoint T))
| EndPlot.

Arguments ImGui_Text {T} c.
Arguments ImGui_SameLine {T}.
Arguments SetNextAxesToFit {T}.
Arguments SetNextAxisToFit {T} axis.
Arguments BeginPlot {T} chart size.
Arguments SetupAxis {T} axis label.
Arguments SetupAxisLimits {T} axis lo hi.
Arguments SetupLegend {T}.
Arguments SetNextMarkerStyle {T}.
Arguments SetNextLineStyle {T}.
Arguments EndPlot {T}.

Module Spinner.
(** static_cast<int>(x) for a double [x]: [x] truncated toward zero, and
    nothing where that value is not an int (the conversion is undefined
    there). *)
Definition to_int (x : float) : option Z :=
  match Prim2SF x with
  | S754_zero _ => Some 0%Z
  | S754_finite s m e =>
      let magnitude := match e with
                       | Zneg k => (Z.pos m / Z.pos (2 ^ k))%Z
                       | _ => (Z.pos m * 2 ^ e)%Z
                       end in
      let z := if s then (- magnitude)%Z else magnitude in
      if ((- 2 ^ 31 <=? z) && (z <? 2 ^ 31))%Z then Some z else None
  | _ => None
  end.

(** The literal 0.05f, converted to double for the division. *)
Definition period : float := 0x1.99999ap-5%float.

(** The characters of the literal: bar, slash, dash, backslash and the
    terminating zero. *)
Definition glyphs : list ascii :=
  [ascii_of_nat 124; ascii_of_nat 47; ascii_of_nat 45; ascii_of_nat 92;
   ascii_of_nat 0].

(** The character at index static_cast<int>(ImGui::GetTime() / 0.05f) & 3
    of the literal, for the value [time] of ImGui::GetTime(). *)
Definition glyph (time : float) : option ascii :=
  match to_int (PrimFloat.div time period) with
  | Some n => nth_error glyphs (Z.to_nat (Z.land n 3))
  | None => None
  end.
End Spinner.

(** What running a display function gave: its value, the plot it leaves and
    the calls it made. *)
Record Drawn (T A : Type) : Type := {
  value : A;
  plot : AnalyzerPlot T;
  calls : list (Call T)
}.

(** l[i] = v on an array; an index outside it is not assigned. *)
Fixpoint assign {A : Type} (i : nat) (v : A) (l : list A) : list A :=
  match l, i with
  | [], _ => []
  | _ :: r, O => v :: r
  | a :: r, S j => a :: assign j v r
  end.

Section Display.
Context {T : Type} `{Scalar T}.

(** Declared in AnalyzerPlot.h, which is not among the sources: the default
    value of the plotSize argument and the size of the combined plots. *)
Variable kDefaultPlotSize : ImVec2.t.
Variable kCombinedPlotSize : float.

(** [begins chart] is the value ImPlot::BeginPlot returns for the chart. *)
Variable begins : nat -> bool.

Local Abbreviation Plot := (AnalyzerPlot T).
Local Abbreviation Pt := (ImPlotPoint T).

(** A piece of a display function: from the plot to a value, the plot it
    leaves and the calls made. *)
Definition Draw (A : Type) : Type := Plot -> Drawn T A.

Definition ret {A : Type} (a : A) : Draw A :=
  fun st => {| value := a; plot := st; calls := [] |}.

Definition bind {A B : Type} (m : Draw A) (k : A -> Draw B) : Draw B :=
  fun st =>
    let r := m st in
    let r' := k (value r) (plot r) in
    {| value := value r'; plot := plot r'; calls := calls r ++ calls r' |}.

Local Notation "x <- m ;; k" := (bind m (fun x => k))
  (at level 61, m at next level, right associativity).
Local Notation "m ;; k" := (bind m (fun _ => k))
  (at level 61, right associativity).

Definition call (c : Call T) : Draw unit :=
  fun st => {| value := tt; plot := st; calls := [c] |}.

Definition member {A : Type} (proj : Plot -> A) : Draw A :=
  fun st => {| value := proj st; plot := st; calls := [] |}.

Definition when (b : bool) (m : Draw unit) : Draw unit :=
  if b then m else ret tt.

(** m_fitNextPlot[i], read *)
Definition fit_flag (i : nat) : Draw bool :=
  member (fun st => nth i (m_fitNextPlot st) false).

(** m_fitNextPlot[i] = false *)
Definition clear_fit_flag (i : nat) : Draw unit :=
  fun st =>
    {| value := tt;
       plot :=
         {| m_filteredData := m_filteredData st; m_rawData := m_rawData st;
            m_dtMeanLine := m_dtMeanLine st;
            m_quasistaticSim := m_quasistaticSim st;
            m_dynamicSim := m_dynamicSim st;
            m_KvFit := m_KvFit st; m_KaFit := m_KaFit st;
            m_RMSE := m_RMSE st; m_RSquared := m_RSquared st;
            m_fitNextPlot := assign i false (m_fitNextPlot st);
            m_velocityLabel := m_velocityLabel st;
            m_accelerationLabel := m_accelerationLabel st;
            sums := sums st |};
       calls := [] |}.

(** ImPlot::BeginPlot(kChartTitles[i], plotSize, ImPlotFlags_None) *)
Definition begin_plot (i : nat) (plotSize : ImVec2.t) : Draw bool :=
  fun st => {| value := begins i; plot := st;
               calls := [BeginPlot i plotSize] |}.

(** The branch taken when the mutex is not acquired. *)
Definition loading (time : float) : Draw bool :=
  call (ImGui_Text (Spinner.glyph time)) ;; ret false.

(** plotSize.x != -1 *)
Definition forPicture (plotSize : ImVec2.t) : bool :=
  negb (PrimFloat.eqb (ImVec2.x plotSize) (-1)%float).

(** bool AnalyzerPlot::DisplayVoltageDomainPlots(ImVec2 plotSize), where
    [try_lock] is what lock.try_lock() returns and [time] what
    ImGui::GetTime() returns. *)
Definition DisplayVoltageDomainPlots (try_lock : bool) (time : float)
    (plotSize : ImVec2.t) : Draw bool :=
  if negb try_lock then loading time
  else
    f0 <- fit_flag 0 ;;
    when f0 (call SetNextAxesToFit) ;;
    b0 <- begin_plot 0 plotSize ;;
    when b0
      (call (SetupAxis ImAxis_X1 "Velocity-Portion Voltage"%string) ;;
       call (SetupAxis ImAxis_Y1 "Quasistatic Velocity"%string) ;;
       data <- member (fun st => m_filteredData st 0) ;;
       call SetNextMarkerStyle ;;
       call (PlotScatterG "Filtered Data"%string data) ;;
       call SetNextLineStyle ;;
       fit <- member (@m_KvFit T) ;;
       call (PlotLineG "Fit"%string [fst fit; snd fit]) ;;
       call EndPlot ;;
       f <- fit_flag 0 ;;
       when f (clear_fit_flag 0)) ;;
    f1 <- fit_flag 1 ;;
    when f1 (call SetNextAxesToFit) ;;
    when (forPicture plotSize) (call ImGui_SameLine) ;;
    b1 <- begin_plot 1 plotSize ;;
    when b1
      (call (SetupAxis ImAxis_X1 "Acceleration-Portion Voltage"%string) ;;
       call (SetupAxis ImAxis_Y1 "Dynamic Acceleration"%string) ;;
       data <- member (fun st => m_filteredData st 1) ;;
       call SetNextMarkerStyle ;;
       call (PlotScatterG "Filtered Data"%string data) ;;
       call SetNextLineStyle ;;
       fit <- member (@m_KaFit T) ;;
       call (PlotLineG "Fit"%string [fst fit; snd fit]) ;;
       call EndPlot ;;
       f <- fit_flag 1 ;;
       when f (clear_fit_flag 1)) ;;
    ret true.

(** static void PlotSimData(data) *)
Fixpoint PlotSimData (data : list (list Pt)) : Draw unit :=
  match data with
  | [] => ret tt
  | pts :: rest =>
      call SetNextLineStyle ;;
      call (PlotLineG "Simulation"%string pts) ;;
      PlotSimData rest
  end.

(** static void PlotRawAndFiltered(rawData, filteredData) *)
Definition PlotRawAndFiltered (rawData filteredData : list Pt) : Draw unit :=
  call SetNextMarkerStyle ;;
  call (PlotScatterG "Raw Data"%string rawData) ;;
  call SetNextMarkerStyle ;;
  call (PlotScatterG "Filtered Data"%string filteredData).

(** The body of the loop of DisplayTimeDomainPlots at chart [i]. *)
Definition time_chart (plotSize : ImVec2.t) (i : nat) : Draw unit :=
  let x := "Time (s)"%string in
  y <- member (if i mod 2 =? 0 then @m_velocityLabel T
               else @m_accelerationLabel T) ;;
  let isVelocity := (i =? 2) || (i =? 4) in
  filteredData <- member (fun st => m_filteredData st i) ;;
  rawData <- member (fun st => m_rawData st i) ;;
  f <- fit_flag i ;;
  when f (call SetNextAxesToFit) ;;
  when (forPicture plotSize && negb (i mod 4 =? 0)) (call ImGui_SameLine) ;;
  b <- begin_plot i plotSize ;;
  when b
    (call (SetupAxis ImAxis_X1 x) ;;
     call (SetupAxis ImAxis_Y1 y) ;;
     call SetupLegend ;;
     PlotRawAndFiltered rawData filteredData ;;
     when isVelocity
       (sim <- member (if i =? 2 then @m_quasistaticSim T
                       else @m_dynamicSim T) ;;
        PlotSimData sim) ;;
     f' <- fit_flag i ;;
     when f' (clear_fit_flag i) ;;
     call EndPlot).

(** for (size_t i = 2; i < 6; ++i) over the charts [l] still to come *)
Fixpoint time_charts (plotSize : ImVec2.t) (l : list nat) : Draw unit :=
  match l with
  | [] => ret tt
  | i :: rest => time_chart plotSize i ;; time_charts plotSize rest
  end.

(** bool AnalyzerPlot::DisplayTimeDomainPlots(ImVec2 plotSize) *)
Definition DisplayTimeDomainPlots (try_lock : bool) (time : float)
    (plotSize : ImVec2.t) : Draw bool :=
  if negb try_lock then loading time
  else
    time_charts plotSize (seq 2 4) ;;
    when (forPicture plotSize) (call ImGui_SameLine) ;;
    f6 <- fit_flag 6 ;;
    when f6 (call (SetNextAxisToFit ImAxis_X1)) ;;
    b6 <- begin_plot 6 plotSize ;;
    when b6
      (call (SetupAxisLimits ImAxis_Y1 0 50) ;;
       call (SetupAxis ImAxis_X1 "Time (s)"%string) ;;
       call (SetupAxis ImAxis_Y1 "Change in Time (ms)"%string) ;;
       data <- member (fun st => m_filteredData st 6) ;;
       call SetNextMarkerStyle ;;
       call (PlotScatterG "Timesteps"%string data) ;;
       call SetNextMarkerStyle ;;
       line <- member (@m_dtMeanLine T) ;;
       call (PlotLineG "Mean dt"%string line) ;;
       call EndPlot ;;
       f <- fit_flag 6 ;;
       when f (clear_fit_flag 6)) ;;
    ret true.

(** bool AnalyzerPlot::LoadPlots(): DisplayTimeDomainPlots() &&
    DisplayVoltageDomainPlots(), each with its own attempt at the mutex. *)
Definition LoadPlots (try_lock1 try_lock2 : bool) (time : float)
    : Draw bool :=
  t <- DisplayTimeDomainPlots try_lock1 time kDefaultPlotSize ;;
  if t then DisplayVoltageDomainPlots try_lock2 time kDefaultPlotSize
  else ret false.

(** void AnalyzerPlot::DisplayCombinedPlots() *)
Definition DisplayCombinedPlots (try_lock1 try_lock2 : bool) (time : float)
    : Draw unit :=
  let plotSize := ImVec2.mk kCombinedPlotSize kCombinedPlotSize in
  DisplayVoltageDomainPlots try_lock1 time plotSize ;;
  DisplayTimeDomainPlots try_lock2 time plotSize ;;
  ret tt.
End Display.

(** ** Util.h: ArrayConcat *)

(** std::copy_n(first, n, d + index) for the array [src] from [first]
    onwards and the array [dst] at [d]: element by element.  An element
    beyond the end of [dst] is not written (the code has no such write when
    the result has room for all the arrays). *)
Fixpoint copy_n {A : Type} (src : list A) (n : nat) (dst : list A)
    (index : nat) : list A :=
  match n, src with
  | S n', v :: src' => copy_n src' n' (assign index v dst) (S index)
  | _, _ => dst
  end.

(** ArrayConcat(arrays...): [result] is declared without an initializer and
    holds [unset] to begin with; each array in turn is copied to it at
    [index], and [index] advanced by the size of the array. *)
Definition ArrayConcat {A : Type} (unset : list A) (arrays : list (list A))
    : list A :=
  fst (fold_left
         (fun (acc : list A * nat) (array : list A) =>
            let (result, index) := acc in
            (copy_n array (length array) result index,
             index + length array))
         arrays (unset, 0)).

(** ** Vocabulary for the displayed frames *)

(** The point lists of the lines drawn under the name [name]. *)
Definition lines_named {T : Type} (name : String.string)
    (cs : list (Call T)) : list (list (ImPlotPoint T)) :=
  flat_map (fun c => match c with
                     | PlotLineG n pts =>
                         if String.eqb n name then [pts] else []
                     | _ => []
                     end) cs.

(** The scatter series drawn, each with its name. *)
Definition scatters {T : Type} (cs : list (Call T))
    : list (String.string * list (ImPlotPoint T)) :=
  flat_map (fun c => match c with
                     | PlotScatterG n pts => [(n, pts)]
                     | _ => []
                     end) cs.

(** The requests to fit axes among the calls. *)
Definition is_fit_request {T : Type} (c : Call T) : bool :=
  match c with
  | SetNextAxesToFit | SetNextAxisToFit _ => true
  | _ => false
  end.

Definition fit_requests {T : Type} (cs : list (Call T)) : nat :=
  length (filter is_fit_request cs).

(** The plot with the fit flag of chart [i] cleared if the chart began. *)
Definition drawn_once {T : Type} (begins : nat -> bool) (i : nat)
    (st : AnalyzerPlot T) : AnalyzerPlot T :=
  if begins i && nth i (m_fitNextPlot st) false
  then plot (clear_fit_flag i st) else st.

(** The plots [st] and [st'] differ at most in their fit flags. *)
Definition same_but_flags {T : Type} (st st' : AnalyzerPlot T) : Prop :=
  m_filteredData st' = m_filteredData st
  /\ m_rawData st' = m_rawData st
  /\ m_dtMeanLine st' = m_dtMeanLine st
  /\ m_quasistaticSim st' = m_quasistaticSim st
  /\ m_dynamicSim st' = m_dynamicSim st
  /\ m_KvFit st' = m_KvFit st /\ m_KaFit st' = m_KaFit st
  /\ m_RMSE st' = m_RMSE st /\ m_RSquared st' = m_RSquared st
  /\ m_velocityLabel st' = m_velocityLabel st
  /\ m_accelerationLabel st' = m_accelerationLabel st
  /\ sums st' = sums st.

(** The elapsed time the simulator carries after sample [k]: the differences
    of neighbouring timestamps, added up one by one from zero. *)
Definition elapsed {T : Type} `{Scalar T} (data : list (PreparedData T))
    (k : nat) : T :=
  fold_left
    (fun t i =>
       s_add t (s_sub (timestamp (at_ data i)) (timestamp (at_ data (i - 1)))))
    (seq 1 k) (s_of_Z 0).

(** ** Vocabulary for the metrics in binary64 *)

(** A double that is a number: a zero or a finite non-zero value. *)
Definition finite_sf (s : spec_float) : Prop :=
  match s with
  | S754_zero _ | S754_finite _ _ _ => True
  | _ => False
  end.

(** Of a (measured, predicted) pair: the measured velocity is finite and the
    predicted one compares equal to it. *)
Definition exactly_predicted (mp : float * float) : bool :=
  PrimFloat.is_finite (fst mp) && PrimFloat.eqb (snd mp) (fst mp).

(** Of a (measured, predicted) pair: one of the two is NaN. *)
Definition has_nan (mp : float * float) : bool :=
  PrimFloat.is_nan (fst mp) || PrimFloat.is_nan (snd mp).

(** Every member of the sample is finite. *)
Definition finite_sample (d : PreparedData float) : bool :=
  forallb PrimFloat.is_finite
    [timestamp d; voltage d; position d; velocity d; nextVelocity d; dt d;
     acceleration d; cos d].

(** ** Concrete data at the edges of binary64 *)

Module Edge.

(** The same run as raw and as filtered data, slow and fast. *)
Definition twice (run : list (PreparedData float)) : Storage float :=
  {| slow := run; fast := run |}.

(** A complete pass over [run] on a plot without data, at the stand-ins of
    [Demo]. *)
Definition pass (run : list (PreparedData float))
    : Ran (AnalyzerPlot float) :=
  Demo.run_SetData (twice run) (twice run) Demo.scenario_gains
                   Demo.starts_far kSimple Demo.never Demo.fresh.

(** Finite samples: the largest power of two as voltage, first forward and
    then backward, held for 4 s each. *)
Definition surge : list (PreparedData float) :=
  [ Demo.sample 0 0x1p1023 0 0 4; Demo.sample 4 (-0x1p1023) 0 0 4;
    Demo.sample 8 0 0 0 4 ]%float.

(** A run that the stand-in simulator predicts exactly and whose last
    velocity is 2^-537: its square is the smallest positive double. *)
Definition faint : list (PreparedData float) :=
  [ Demo.sample 0 0 0 0 1; Demo.sample 1 0x1p-537 0 0 1;
    Demo.sample 2 0 0 0x1p-537 1 ]%float.

(** A run at the steady velocity 1 under no voltage. *)
Definition steady : list (PreparedData float) :=
  [ Demo.sample 0 0 0 1 0.02; Demo.sample 0.02 0 0.02 1 0.02;
    Demo.sample 0.04 0 0.04 1 0.02 ]%float.

(** Two samples, at 0.2 s and at 0.9 s. *)
Definition leap : list (PreparedData float) :=
  [ Demo.sample 0.2 0 0 0 0.7; Demo.sample 0.9 0 0 0 0.7 ]%float.
End Edge.

(** * Properties *)

Unset Implicit Arguments.

(** ** General list facts *)

Lemma firstn_snoc {A : Type} (l : list A) (k : nat) (d : A) :
  k < length l -> firstn (S k) l = firstn k l ++ [nth k l d].
Proof.
  revert k; induction l as [|a l IH]; intros k Hk; simpl in Hk; [lia|].
  destruct k as [|k]; [reflexivity|].
  change (firstn (S (S k)) (a :: l)) with (a :: firstn (S k) l).
  rewrite IH by lia. reflexivity.
Qed.

Lemma filter_snoc {A : Type} (f : A -> bool) (l : list A) (a : A) :
  filter f (l ++ [a]) = filter f l ++ (if f a then [a] else []).
Proof. rewrite filter_app. reflexivity. Qed.

(** ** The segmented simulator *)

Section SimFacts.
Context {T : Type} `{Scalar T}.
Context {M : Type} `{MechanismModel T M}.

Local Abbreviation is_boundary startTimes :=
  (fun d : PreparedData T => is_start startTimes (timestamp d)).

Lemma at_S (data : list (PreparedData T)) (j : nat) :
  at_ data (S j) = nth j (tl data) sample0.
Proof. unfold at_. destruct data as [|a l]; [destruct j|]; reflexivity. Qed.

Lemma sim_body_boundary data startTimes i (s : @SimLoop T M) :
  is_start startTimes (timestamp (at_ data i)) = true ->
  sim_body data startTimes i s =
    {| sl_model := Reset (sl_model s) (position (at_ data i))
                         (velocity (at_ data i));
       sl_t := s_add (sl_t s)
                 (s_sub (timestamp (at_ data i)) (timestamp (at_ data (i - 1))));
       sl_tmp := [];
       sl_pts := sl_pts s ++ [sl_tmp s];
       sl_sums := sl_sums s |}.
Proof. intros E. unfold sim_body. rewrite E. reflexivity. Qed.

Lemma sim_body_step_tmp data startTimes i (s : @SimLoop T M) :
  is_start startTimes (timestamp (at_ data i)) = false ->
  sl_pts (sim_body data startTimes i s) = sl_pts s /\
  length (sl_tmp (sim_body data startTimes i s)) = S (length (sl_tmp s)).
Proof.
  intros E. unfold sim_body. rewrite E. simpl.
  rewrite length_app. simpl. split; [reflexivity | lia].
Qed.

(** After the iterations 1 .. k: one closed sequence per boundary sample met,
    and one point for the seed and for every other sample met. *)
Lemma sim_upto_shape data startTimes (model : M) g k :
  k <= length (tl data) ->
  let s := sim_upto data startTimes model g k in
  length (sl_pts s)
    = length (filter (is_boundary startTimes) (firstn k (tl data)))
  /\ length (concat (sl_pts s)) + length (sl_tmp s)
    = 1 + length (filter (fun d => negb (is_boundary startTimes d))
                         (firstn k (tl data))).
Proof.
  induction k as [|k IH]; intros Hk; cbn zeta.
  - simpl. split; reflexivity.
  - destruct IH as [IH1 IH2]; [lia|].
    rewrite (firstn_snoc (tl data) k sample0) by lia.
    rewrite !filter_snoc, !length_app, <- at_S.
    change (sim_upto data startTimes model g (S k))
      with (sim_body data startTimes (S k) (sim_upto data startTimes model g k)).
    destruct (is_start startTimes (timestamp (at_ data (S k)))) eqn:E.
    + rewrite (sim_body_boundary _ _ _ _ E). simpl.
      rewrite length_app, concat_app, length_app. simpl.
      rewrite app_nil_r. split; lia.
    + destruct (sim_body_step_tmp data startTimes (S k)
                  (sim_upto data startTimes model g k) E) as [P1 P2].
      rewrite P1, P2. simpl. split; lia.
Qed.

(** C10. The output of the segmented simulator does not depend on its stride
    argument: for a non-empty run, any two strides give the same sequences
    and the same accumulators; and the sequences hold, together, the seed
    point and one point for every later sample that is not at a boundary
    timestamp, whatever the stride. *)
Theorem PopulateTimeDomainSim_ignores_step
    (data : list (PreparedData T)) (startTimes : list T) (model : M)
    (g : Sums T) (s1 s2 : nat) :
  data <> [] ->
  PopulateTimeDomainSim data startTimes s1 model g
    = PopulateTimeDomainSim data startTimes s2 model g
  /\ length (concat (fst (PopulateTimeDomainSim data startTimes s1 model g)))
     = 1 + length (filter (fun d => negb (is_start startTimes (timestamp d)))
                          (tl data)).
Proof.
  intros _. split; [reflexivity|].
  unfold PopulateTimeDomainSim. cbn [fst].
  assert (L : length data - 1 = length (tl data))
    by (destruct data; simpl; lia).
  rewrite L.
  destruct (sim_upto_shape data startTimes model g (length (tl data)))
    as [_ P]; [lia|].
  rewrite firstn_all in P.
  rewrite concat_app, length_app. simpl. rewrite app_nil_r. exact P.
Qed.
End SimFacts.

Section SimSegments.
Context {T : Type} `{Scalar T}.
Context {M : Type} `{MechanismModel T M}.

Lemma sim_upto_S data startTimes (model : M) g k :
  sim_upto data startTimes model g (S k)
    = sim_body data startTimes (S k) (sim_upto data startTimes model g k).
Proof. reflexivity. Qed.

Lemma last_at (data : list (PreparedData T)) :
  last data sample0 = at_ data (length data - 1).
Proof.
  unfold at_. induction data as [|a l IH]; [reflexivity|].
  destruct l as [|b l]; [reflexivity|].
  change (last (a :: b :: l) sample0) with (last (b :: l) sample0).
  rewrite IH. simpl. rewrite Nat.sub_0_r. reflexivity.
Qed.

(** Closed sequences are never reopened: later iterations only append. *)
Lemma sl_pts_extends data startTimes (model : M) g k m :
  exists rest,
    sl_pts (sim_upto data startTimes model g (k + m))
      = sl_pts (sim_upto data startTimes model g k) ++ rest.
Proof.
  induction m as [|m [rest IH]].
  - exists []. rewrite Nat.add_0_r, app_nil_r. reflexivity.
  - rewrite Nat.add_succ_r, sim_upto_S. unfold sim_body.
    destruct (is_start startTimes (timestamp (at_ data (S (k + m))))).
    + eexists. simpl. rewrite IH, <- app_assoc. reflexivity.
    + exists rest. simpl. exact IH.
Qed.

(** C5. For a non-empty run the simulator returns one sequence more than
    there are samples after the first whose timestamp is a boundary
    timestamp.  A boundary at the last sample closes the open sequence and
    leaves an empty last sequence; two boundary samples in a row leave an
    empty sequence between them, which is part of the output. *)
Theorem PopulateTimeDomainSim_sequence_count
    (data : list (PreparedData T)) (startTimes : list T) (step : nat)
    (model : M) (g : Sums T) :
  data <> [] ->
  let boundary := fun d : PreparedData T => is_start startTimes (timestamp d) in
  let out := fst (PopulateTimeDomainSim data startTimes step model g) in
  length out = length (filter boundary (tl data)) + 1
  /\ (2 <= length data -> boundary (last data sample0) = true ->
      exists front, out = front ++ [[]])
  /\ (forall i, 1 <= i -> S i < length data ->
      boundary (at_ data i) = true -> boundary (at_ data (S i)) = true ->
      nth_error out (length (filter boundary (firstn i (tl data))))
        = Some []).
Proof.
  intros Hne boundary out.
  assert (L : length data - 1 = length (tl data))
    by (destruct data; simpl; lia).
  subst out. unfold PopulateTimeDomainSim. cbn [fst].
  split; [|split].
  - rewrite length_app, L.
    destruct (sim_upto_shape data startTimes model g (length (tl data)))
      as [P _]; [lia|].
    rewrite firstn_all in P. rewrite P. reflexivity.
  - intros H2 Hb. rewrite last_at in Hb.
    destruct (length data - 1) as [|k] eqn:E; [lia|].
    rewrite sim_upto_S, (sim_body_boundary _ _ _ _ Hb). simpl.
    eexists. reflexivity.
  - intros i H1 Hi Bi BSi.
    destruct i as [|j]; [lia|].
    assert (Hlen : S (S j) <= length (tl data)) by lia.
    destruct (sim_upto_shape data startTimes model g (S j)) as [P _];
      [lia|].
    fold boundary in P. rewrite <- P.
    replace (length data - 1) with (S (S j) + (length data - 1 - S (S j)))
      by lia.
    destruct (sl_pts_extends data startTimes model g (S (S j))
                (length data - 1 - S (S j))) as [rest E].
    rewrite E.
    assert (Etmp : sl_tmp (sim_upto data startTimes model g (S j)) = [])
      by (rewrite sim_upto_S, (sim_body_boundary _ _ _ _ Bi); reflexivity).
    rewrite (sim_upto_S _ _ _ _ (S j)), (sim_body_boundary _ _ _ _ BSi).
    cbn [sl_pts]. rewrite Etmp.
    generalize (sl_pts (sim_upto data startTimes model g (S j))) as X.
    intros X. rewrite <- !app_assoc.
    rewrite nth_error_app2 by lia.
    rewrite Nat.sub_diag. reflexivity.
Qed.

Lemma at_redrive_lt i v t (data : list (PreparedData T)) j :
  j < i -> at_ (redrive i v t data) j = at_ data j.
Proof.
  intros Hj. unfold at_, redrive.
  destruct (Nat.lt_ge_cases j (length data)) as [Hl|Hl].
  - rewrite app_nth1 by (rewrite length_firstn; lia).
    rewrite nth_firstn.
    destruct (j <? i) eqn:E; [reflexivity|].
    apply Nat.ltb_ge in E. lia.
  - rewrite (nth_overflow data) by lia.
    apply nth_overflow.
    rewrite length_app, length_firstn, skipn_all2 by lia.
    simpl. lia.
Qed.

Lemma at_redrive_eq i v t (data : list (PreparedData T)) :
  i < length data ->
  at_ (redrive i v t data) i = with_drive (at_ data i) v t.
Proof.
  intros Hi. unfold at_, redrive.
  rewrite app_nth2 by (rewrite length_firstn; lia).
  rewrite length_firstn, Nat.min_l, Nat.sub_diag by lia.
  rewrite <- (firstn_skipn i data) at 2.
  rewrite app_nth2 by (rewrite length_firstn; lia).
  rewrite length_firstn, Nat.min_l, Nat.sub_diag by lia.
  destruct (skipn i data) as [|d r] eqn:E; [|reflexivity].
  apply (f_equal (@length _)) in E. rewrite length_skipn in E.
  simpl in E. lia.
Qed.

(** The loop variables after iteration [k] read, of the samples, only the
    timestamp, position and velocity of samples 0 .. k and the voltage and dt
    of samples 0 .. k - 1. *)
Lemma sim_upto_reads data data' startTimes (model : M) g k :
  (forall j, j < k -> at_ data' j = at_ data j) ->
  timestamp (at_ data' k) = timestamp (at_ data k) ->
  position (at_ data' k) = position (at_ data k) ->
  velocity (at_ data' k) = velocity (at_ data k) ->
  sim_upto data' startTimes model g k = sim_upto data startTimes model g k.
Proof.
  revert data'. induction k as [|k IH]; intros data' Hlt Ht Hp Hv.
  - simpl. unfold sim_init. rewrite Ht, Hp, Hv. reflexivity.
  - rewrite !sim_upto_S.
    rewrite IH; try (rewrite Hlt by lia; reflexivity);
      [|intros j Hj; apply Hlt; lia].
    unfold sim_body. rewrite Ht, Hp, Hv.
    replace (S k - 1) with k by lia.
    rewrite !(Hlt k) by lia.
    rewrite ?(Hlt 0) by lia. reflexivity.
Qed.

(** C4. At every sample after the first whose timestamp is not a boundary
    timestamp, the model is advanced with the voltage and the dt of the
    sample before it; the voltage and dt of the sample itself are not read:
    replacing them leaves the loop variables after that iteration as they
    are. *)
Theorem PopulateTimeDomainSim_zero_order_hold
    (data : list (PreparedData T)) (startTimes : list T) (model : M)
    (g : Sums T) (i : nat) :
  1 <= i -> i < length data ->
  is_start startTimes (timestamp (at_ data i)) = false ->
  sl_model (sim_upto data startTimes model g i)
    = Update (sl_model (sim_upto data startTimes model g (i - 1)))
             (voltage (at_ data (i - 1))) (dt (at_ data (i - 1)))
  /\ forall v t,
       sim_upto (redrive i v t data) startTimes model g i
         = sim_upto data startTimes model g i.
Proof.
  intros H1 Hi Hb. split.
  - destruct i as [|k]; [lia|].
    rewrite sim_upto_S. unfold sim_body. rewrite Hb.
    replace (S k - 1) with k by lia. reflexivity.
  - intros v t. apply sim_upto_reads.
    + intros j Hj. apply at_redrive_lt; assumption.
    + rewrite at_redrive_eq by assumption. reflexivity.
    + rewrite at_redrive_eq by assumption. reflexivity.
    + rewrite at_redrive_eq by assumption. reflexivity.
Qed.
End SimSegments.

Section SimSums.
Context {T : Type} `{Scalar T}.
Context {M : Type} `{MechanismModel T M}.

(** The model the loop carries does not depend on the accumulators. *)
Lemma sim_model_any_sums data startTimes (model : M) g g' k :
  sl_model (sim_upto data startTimes model g k)
  = sl_model (sim_upto data startTimes model g' k).
Proof.
  induction k as [|k IH]; [reflexivity|].
  rewrite !sim_upto_S. unfold sim_body.
  destruct (is_start startTimes (timestamp (at_ data (S k))));
    cbn [sl_model]; rewrite IH; reflexivity.
Qed.

Lemma accumulate_app (g : Sums T) l1 l2 :
  accumulate g (l1 ++ l2) = accumulate (accumulate g l1) l2.
Proof. unfold accumulate. apply fold_left_app. Qed.

Lemma accumulate_count (g : Sums T) l :
  timeSeriesPoints (accumulate g l) = timeSeriesPoints g + length l.
Proof.
  revert g; induction l as [|mp l IH]; intros g; [simpl; lia|].
  change (accumulate g (mp :: l))
    with (accumulate (accumulate g [mp]) l).
  rewrite IH. simpl. lia.
Qed.

Lemma contributions_S data startTimes (model : M) k :
  contributions data startTimes model (S k)
  = contributions data startTimes model k
    ++ (if is_start startTimes (timestamp (at_ data (S k))) then []
        else [(velocity (at_ data (S k)),
               GetVelocity
                 (sl_model (sim_upto data startTimes model sums0 (S k))))]).
Proof.
  unfold contributions. rewrite seq_S, flat_map_app. simpl.
  rewrite app_nil_r. reflexivity.
Qed.

(** The accumulators after the iterations 1 .. k are the totals over the
    contributing samples met. *)
Lemma sim_upto_sums data startTimes (model : M) g k :
  sl_sums (sim_upto data startTimes model g k)
  = accumulate g (contributions data startTimes model k).
Proof.
  induction k as [|k IH]; [reflexivity|].
  rewrite contributions_S, accumulate_app, <- IH.
  rewrite (sim_model_any_sums data startTimes model sums0 g (S k)).
  rewrite !sim_upto_S. unfold sim_body.
  destruct (is_start startTimes (timestamp (at_ data (S k))));
    reflexivity.
Qed.

Lemma PopulateTimeDomainSim_sums data startTimes step (model : M) g :
  snd (PopulateTimeDomainSim data startTimes step model g)
  = accumulate g (contributions data startTimes model (length data - 1)).
Proof. unfold PopulateTimeDomainSim. cbn [snd]. apply sim_upto_sums. Qed.
End SimSums.

(** ** The simulator on concrete runs *)

Lemma PopulateTimeDomainSim_ignores_step_witness :
  Demo.run4 <> [] /\
  (PopulateTimeDomainSim Demo.run4 Demo.starts4 1 0%float Demo.no_sums
     = PopulateTimeDomainSim Demo.run4 Demo.starts4 512 0%float Demo.no_sums
   /\ length (concat (fst (PopulateTimeDomainSim Demo.run4 Demo.starts4 1
                             0%float Demo.no_sums)))
      = 1 + length (filter (fun d => negb (is_start Demo.starts4 (timestamp d)))
                           (tl Demo.run4))).
Proof.
  split; [discriminate|].
  apply (PopulateTimeDomainSim_ignores_step
           Demo.run4 Demo.starts4 0%float Demo.no_sums 1 512).
  discriminate.
Defined.

Lemma PopulateTimeDomainSim_sequence_count_witness :
  Demo.run4 <> [] /\
  let out := fst (PopulateTimeDomainSim Demo.run4 Demo.starts_twice 1 0%float
                    Demo.no_sums) in
  length out = 4
  /\ (exists front, out = front ++ [[]])
  /\ nth_error out 1 = Some [].
Proof.
  assert (Hne : Demo.run4 <> []) by discriminate.
  split; [exact Hne|].
  destruct (PopulateTimeDomainSim_sequence_count
              Demo.run4 Demo.starts_twice 1 0%float Demo.no_sums Hne)
    as (E1 & E2 & E3).
  split; [exact E1|]. split.
  - apply E2; [simpl; lia | vm_compute; reflexivity].
  - apply (E3 1); [lia | simpl; lia | vm_compute; reflexivity
                  | vm_compute; reflexivity].
Defined.

Lemma PopulateTimeDomainSim_zero_order_hold_witness :
  (1 <= 1 /\ 1 < length Demo.run4 /\
   is_start Demo.starts4 (timestamp (at_ Demo.run4 1)) = false) /\
  sl_model (sim_upto Demo.run4 Demo.starts4 0%float Demo.no_sums 1)
    = Update (sl_model (sim_upto Demo.run4 Demo.starts4 0%float Demo.no_sums 0))
             (voltage (at_ Demo.run4 0)) (dt (at_ Demo.run4 0)).
Proof.
  assert (H1 : 1 <= 1) by lia.
  assert (H2 : 1 < length Demo.run4) by (simpl; lia).
  assert (H3 : is_start Demo.starts4 (timestamp (at_ Demo.run4 1)) = false)
    by (vm_compute; reflexivity).
  split; [auto|].
  apply (PopulateTimeDomainSim_zero_order_hold
           Demo.run4 Demo.starts4 0%float Demo.no_sums 1 H1 H2 H3).
Defined.

(** The sequences for [run4] when samples 1, 2 and 3 are all at start times:
    the seed alone, then three empty sequences. *)
Example sim_three_boundaries :
  fst (PopulateTimeDomainSim Demo.run4 Demo.starts_twice 1 0%float
         Demo.no_sums)
  = [[(0, 0)]; []; []; []]%float.
Proof. vm_compute. reflexivity. Qed.

(** ** Voltage decomposition on the example scenario *)

(** C2, as the code has it.  For the slow run of the scenario with Ks = 0.5,
    Kv = 0.5, Ka = 0 and a mechanism that is neither elevator nor arm,
    Vportion of sample 0 is 0.5: std::copysign(Ks, 0.0) is +Ks, so the
    static-friction term is subtracted in full at velocity 0; the point the
    iteration appends to the first scatter series is (0.5, 0), also as the
    first point of that series after a whole pass. *)
Theorem scenario_Vportion :
  slow_Vportion kSimple Demo.scenario_gains (at_ Demo.scenario_slow 0)
    = 0.5%float
  /\ (forall startTimes mn mx (st : AnalyzerPlot float),
        m_filteredData
          (slow_body kSimple Demo.scenario_gains startTimes
                     Demo.scenario_slow mn mx 0 st) 0
        = m_filteredData st 0 ++ [(0.5, 0)%float])
  /\ nth_error
       (m_filteredData
          (state (Demo.run_SetData Demo.store_scenario Demo.store_scenario
                    Demo.scenario_gains Demo.starts4 kSimple Demo.never
                    Demo.fresh)) 0) 0
     = Some (0.5, 0)%float.
Proof.
  split; [vm_compute; reflexivity|].
  split; [|vm_compute; reflexivity].
  intros startTimes mn mx st.
  unfold slow_body, with_filtered, with_KvFit, dt_point, emits_dt.
  cbn [m_filteredData Nat.ltb Nat.leb andb emplace_back Nat.eqb].
  do 2 f_equal.
Qed.

(** C2 as stated fails: Vportion of sample 0 is not 1.0. *)
Lemma scenario_Vportion_not_one :
  slow_Vportion kSimple Demo.scenario_gains (at_ Demo.scenario_slow 0)
    <> 1%float.
Proof.
  intros E.
  apply (f_equal (fun x => PrimFloat.eqb x 1%float)) in E.
  vm_compute in E. discriminate E.
Qed.

(** ** The strided loops *)

Section StrideIndices.
Variables n step : nat.

Lemma stride_indices_fuel fuel fuel' i :
  1 <= step -> n - i <= fuel -> n - i <= fuel' ->
  stride_indices n step fuel i = stride_indices n step fuel' i.
Proof.
  intros Hs. revert fuel' i; induction fuel as [|f IH]; intros fuel' i H1 H2.
  - destruct fuel' as [|f']; [reflexivity|]. simpl.
    destruct (i <? n) eqn:E; [|reflexivity].
    apply Nat.ltb_lt in E. lia.
  - destruct fuel' as [|f']; simpl.
    + destruct (i <? n) eqn:E; [|reflexivity].
      apply Nat.ltb_lt in E. lia.
    + destruct (i <? n) eqn:E; [|reflexivity].
      apply Nat.ltb_lt in E. f_equal. apply IH; lia.
Qed.

Lemma stride_indices_In fuel i x :
  In x (stride_indices n step fuel i) ->
  x < n /\ exists j, x = i + j * step.
Proof.
  revert i; induction fuel as [|f IH]; intros i; simpl; [tauto|].
  destruct (i <? n) eqn:E; simpl; [|tauto].
  apply Nat.ltb_lt in E. intros [<- | Hin].
  - split; [assumption|]. exists 0. lia.
  - destruct (IH _ Hin) as [Hlt [j ->]]. split; [assumption|].
    exists (S j). lia.
Qed.

Lemma stride_indices_complete fuel i j :
  1 <= step -> n - i <= fuel -> i + j * step < n ->
  In (i + j * step) (stride_indices n step fuel i).
Proof.
  intros Hs. revert fuel i; induction j as [|j IH]; intros fuel i Hf Hlt.
  - destruct fuel as [|f]; [lia|]. simpl.
    destruct (i <? n) eqn:E; [left; lia|].
    apply Nat.ltb_ge in E. lia.
  - destruct fuel as [|f]; [lia|]. cbn [stride_indices].
    destruct (i <? n) eqn:E; [|apply Nat.ltb_ge in E; nia].
    right. replace (i + S j * step) with (i + step + j * step) by lia.
    apply IH; [nia | lia].
Qed.

(** The visited indices are the multiples of the step below [n]. *)
Lemma visited_spec x :
  1 <= step ->
  In x (visited n step) <-> x < n /\ x mod step = 0.
Proof.
  intros Hs. unfold visited. split.
  - intros Hin. destruct (stride_indices_In _ _ _ Hin) as [Hlt [j ->]].
    split; [assumption|]. simpl. apply Nat.Div0.mod_mul.
  - intros [Hlt Hm].
    assert (E : x = 0 + (x / step) * step).
    { pose proof (Nat.div_mod_eq x step). nia. }
    rewrite E. apply stride_indices_complete; lia.
Qed.

(** The last visited index is below [n]: [m] visits need (m - 1) * step < n. *)
Lemma stride_indices_length fuel i :
  1 <= step ->
  length (stride_indices n step fuel i) = 0
  \/ i + (length (stride_indices n step fuel i) - 1) * step < n.
Proof.
  intros Hs. revert i; induction fuel as [|f IH]; intros i; simpl; [auto|].
  destruct (i <? n) eqn:E; simpl; [|auto].
  apply Nat.ltb_lt in E. right.
  destruct (IH (i + step)) as [Z | L].
  - rewrite Z. simpl. lia.
  - destruct (length (stride_indices n step f (i + step))); simpl in *; nia.
Qed.

(** The first visited index is 0 and no other is. *)
Lemma visited_nonzero :
  1 <= step ->
  length (filter (fun i => 0 <? i) (visited n step))
    = length (visited n step) - 1.
Proof.
  intros Hs. unfold visited. generalize n at 2 4 as m.
  intros [|m]; [reflexivity|].
  simpl. destruct (0 <? n) eqn:E; [|reflexivity]. simpl.
  rewrite Nat.sub_0_r.
  assert (G : forall x, In x (stride_indices n step m step) -> (0 <? x) = true).
  { intros x Hin. destruct (stride_indices_In _ _ _ Hin) as [_ [j ->]].
    apply Nat.ltb_lt. lia. }
  revert G. generalize (stride_indices n step m step) as l.
  induction l as [|a l IH]; intros G; [reflexivity|].
  simpl. rewrite (G a) by (left; reflexivity). simpl.
  rewrite IH; [reflexivity|]. intros x Hx. apply G. right. exact Hx.
Qed.
End StrideIndices.

Section StridedLoopFacts.
Variable St : Type.
Variable abort : nat -> bool.
Variable body : nat -> St -> St.
Variables n step : nat.

Lemma completed_le k m : completed abort k m <= m.
Proof.
  revert k; induction m as [|m IH]; intros k; simpl; [lia|].
  destruct (abort k); [lia|]. specialize (IH (S k)). lia.
Qed.

(** A strided loop runs the body along the visited indices, up to the
    iteration at which the flag is seen set. *)
Lemma stride_loop_spec fuel i k (st : St) :
  let idx := stride_indices n step fuel i in
  let j := completed abort k (length idx) in
  stride_loop abort body n step fuel i k st
  = {| returned := j <? length idx;
       reads := k + j + (if j <? length idx then 1 else 0);
       state := run_body body (firstn j idx) st |}.
Proof.
  revert i k st; induction fuel as [|f IH]; intros i k st; cbn zeta.
  - simpl. f_equal. lia.
  - simpl. destruct (i <? n) eqn:E; simpl.
    + destruct (abort k) eqn:A; simpl.
      * f_equal. lia.
      * rewrite IH. cbn zeta.
        set (idx := stride_indices n step f (i + step)).
        set (j := completed abort (S k) (length idx)).
        change (S j <? S (length idx))
          with (j <? length idx).
        f_equal. destruct (j <? length idx); lia.
    + f_equal. lia.
Qed.

(** With a step of at least 1 the fuel [n] is never used up: more fuel gives
    the same run of the loop. *)
Lemma stride_loop_fuel extra k (st : St) :
  1 <= step ->
  stride_loop abort body n step (n + extra) 0 k st
  = for_stride abort body n step k st.
Proof.
  intros Hs. unfold for_stride. rewrite !stride_loop_spec. cbn zeta.
  rewrite (stride_indices_fuel n step (n + extra) n 0) by lia. reflexivity.
Qed.

(** The empty loop needs no fuel either. *)
Lemma stride_loop_total extra k (st : St) :
  n = 0 \/ 1 <= step ->
  stride_loop abort body n step (n + extra) 0 k st
  = for_stride abort body n step k st.
Proof.
  intros [-> | Hs]; [|apply stride_loop_fuel; exact Hs].
  unfold for_stride. destruct extra; reflexivity.
Qed.
End StridedLoopFacts.

Lemma run_body_app {S : Type} (body : nat -> S -> S) (l1 l2 : list nat) (st : S) :
  run_body body (l1 ++ l2) st = run_body body l2 (run_body body l1 st).
Proof. unfold run_body. apply fold_left_app. Qed.

Lemma run_body_preserves {S A : Type} (proj : S -> A) (body : nat -> S -> S)
    (idx : list nat) (st : S) :
  (forall i s, proj (body i s) = proj s) ->
  proj (run_body body idx st) = proj st.
Proof.
  intros P. revert st; induction idx as [|i l IH]; intros st; [reflexivity|].
  simpl. rewrite IH. apply P.
Qed.

Lemma for_stride_state {S : Type} abort (body : nat -> S -> S) n step k st :
  state (for_stride abort body n step k st)
  = run_body body
      (firstn (completed abort k (length (visited n step))) (visited n step))
      st.
Proof. unfold for_stride. rewrite stride_loop_spec. reflexivity. Qed.

Lemma for_stride_returned {S : Type} abort (body : nat -> S -> S) n step k st :
  returned (for_stride abort body n step k st)
  = (completed abort k (length (visited n step)) <? length (visited n step)).
Proof. unfold for_stride. rewrite stride_loop_spec. reflexivity. Qed.

(** A loop that ends without returning has run the body at every visited
    index. *)
Lemma for_stride_whole {S : Type} abort (body : nat -> S -> S) n step k st :
  returned (for_stride abort body n step k st) = false ->
  state (for_stride abort body n step k st)
  = run_body body (visited n step) st.
Proof.
  rewrite for_stride_returned, for_stride_state. intros E.
  apply Nat.ltb_ge in E.
  pose proof (completed_le abort k (length (visited n step))).
  rewrite firstn_all2 by lia. reflexivity.
Qed.

Lemma for_stride_preserves {S A : Type} (proj : S -> A) abort
    (body : nat -> S -> S) n step k st :
  (forall i s, proj (body i s) = proj s) ->
  proj (state (for_stride abort body n step k st)) = proj st.
Proof. intros P. rewrite for_stride_state. apply run_body_preserves, P. Qed.

Lemma completed_never k m : completed (fun _ => false) k m = m.
Proof. revert k; induction m as [|m IH]; intros k; simpl; auto. Qed.

Lemma for_stride_never {S : Type} (body : nat -> S -> S) n step k st :
  returned (for_stride (fun _ => false) body n step k st) = false.
Proof. rewrite for_stride_returned, completed_never. apply Nat.ltb_irrefl. Qed.

Lemma prefix_of_refl {A : Type} (l : list A) : prefix_of l l.
Proof. exists []. symmetry. apply app_nil_r. Qed.

Lemma prefix_of_trans {A : Type} (l1 l2 l3 : list A) :
  prefix_of l1 l2 -> prefix_of l2 l3 -> prefix_of l1 l3.
Proof.
  intros [r1 ->] [r2 ->]. exists (r1 ++ r2). symmetry. apply app_assoc.
Qed.

Lemma prefix_of_app {A : Type} (l r : list A) : prefix_of l (l ++ r).
Proof. exists r. reflexivity. Qed.

(** ** The recomputation passes *)

Section PassFacts.
Context {T : Type} `{Scalar T}.
Variable kMaxSize : nat.
Variable GetAbbreviation : string -> string.
Variable GetMeanTimeDelta : Storage T -> T.
Context {SimpleMotorSim ElevatorSim ArmSim : Type}.
Context `{MechanismModel T SimpleMotorSim}.
Context `{MechanismModel T ElevatorSim}.
Context `{MechanismModel T ArmSim}.
Variable mkSimpleMotorSim : T -> T -> T -> SimpleMotorSim.
Variable mkElevatorSim : T -> T -> T -> T -> ElevatorSim.
Variable mkArmSim : T -> T -> T -> T -> ArmSim.

Local Abbreviation Plot := (AnalyzerPlot T).
Local Abbreviation set_data :=
  (SetData kMaxSize GetAbbreviation GetMeanTimeDelta
           mkSimpleMotorSim mkElevatorSim mkArmSim).
Local Abbreviation set_raw_data := (SetRawData kMaxSize GetAbbreviation).
Local Abbreviation finish :=
  (finish_SetData kMaxSize GetMeanTimeDelta
                  mkSimpleMotorSim mkElevatorSim mkArmSim).
Local Abbreviation no_sums :=
  {| simSquaredErrorSum := zero; squaredVariationSum := zero;
     timeSeriesPoints := 0 |}.

(** What the bodies of the loops leave alone. *)
Ltac frame := intros; reflexivity.

Lemma slow_loop_frame {A : Type} (proj : Plot -> A) fd ff stt ty abort k st :
  (forall l mn mx i s, proj (slow_body ty ff stt l mn mx i s) = proj s) ->
  proj (state (slow_loop kMaxSize fd ff stt ty abort k st)) = proj st.
Proof. intros P. unfold slow_loop. apply for_stride_preserves. intros; apply P. Qed.

Lemma fast_loop_frame {A : Type} (proj : Plot -> A) fd ff stt ty abort k st :
  (forall l mn mx i s, proj (fast_body ty ff stt l mn mx i s) = proj s) ->
  proj (state (fast_loop kMaxSize fd ff stt ty abort k st)) = proj st.
Proof. intros P. unfold fast_loop. apply for_stride_preserves. intros; apply P. Qed.

Lemma SetRawTimeData_frame {A : Type} (proj : Plot -> A) rs rf abort k st :
  (forall cv ca l i s, proj (raw_body cv ca l i s) = proj s) ->
  proj (state (SetRawTimeData kMaxSize rs rf abort k st)) = proj st.
Proof.
  intros P. unfold SetRawTimeData.
  destruct (returned (for_stride abort (raw_body 2 3 rs) (length rs)
                        (stride kMaxSize (length rs)) k st)).
  - apply for_stride_preserves. intros; apply P.
  - rewrite for_stride_preserves by (intros; apply P).
    apply for_stride_preserves. intros; apply P.
Qed.

(** The bodies only append to the filtered series. *)
Lemma emplace_back_prefix c (p : ImPlotPoint T) f c' :
  prefix_of (f c') (emplace_back c p f c').
Proof.
  unfold emplace_back. destruct (c' =? c);
    [apply prefix_of_app | apply prefix_of_refl].
Qed.

Lemma dt_point_prefix stt (d : PreparedData T) i f c' :
  prefix_of (f c') (dt_point stt d i f c').
Proof.
  unfold dt_point. destruct (emits_dt stt d i);
    [apply emplace_back_prefix | apply prefix_of_refl].
Qed.

Lemma slow_body_prefix ty ff stt l mn mx i (s : Plot) c :
  prefix_of (m_filteredData s c)
            (m_filteredData (slow_body ty ff stt l mn mx i s) c).
Proof.
  unfold slow_body, with_filtered, with_KvFit. cbn [m_filteredData].
  eapply prefix_of_trans; [|apply dt_point_prefix].
  eapply prefix_of_trans; [|apply emplace_back_prefix].
  eapply prefix_of_trans; [|apply emplace_back_prefix].
  apply emplace_back_prefix.
Qed.

Lemma fast_body_prefix ty ff stt l mn mx i (s : Plot) c :
  prefix_of (m_filteredData s c)
            (m_filteredData (fast_body ty ff stt l mn mx i s) c).
Proof.
  unfold fast_body, with_filtered, with_KaFit. cbn [m_filteredData].
  eapply prefix_of_trans; [|apply dt_point_prefix].
  eapply prefix_of_trans; [|apply emplace_back_prefix].
  eapply prefix_of_trans; [|apply emplace_back_prefix].
  apply emplace_back_prefix.
Qed.

Lemma raw_body_prefix cv ca l i (s : Plot) c :
  prefix_of (m_rawData s c) (m_rawData (raw_body cv ca l i s) c).
Proof.
  unfold raw_body, with_raw. cbn [m_rawData].
  eapply prefix_of_trans; [|apply emplace_back_prefix].
  apply emplace_back_prefix.
Qed.

Lemma run_body_prefix {A : Type} (series : Plot -> list A)
    (body : nat -> Plot -> Plot) idx (st : Plot) :
  (forall i s, prefix_of (series s) (series (body i s))) ->
  prefix_of (series st) (series (run_body body idx st)).
Proof.
  intros P. revert st; induction idx as [|i l IH]; intros st;
    [apply prefix_of_refl|].
  simpl. eapply prefix_of_trans; [apply P | apply IH].
Qed.

(** A loop only appends. *)
Lemma for_stride_extends {A : Type} (series : Plot -> list A) abort
    (body : nat -> Plot -> Plot) n step k (st : Plot) :
  (forall i s, prefix_of (series s) (series (body i s))) ->
  prefix_of (series st) (series (state (for_stride abort body n step k st))).
Proof. intros P. rewrite for_stride_state. apply run_body_prefix, P. Qed.

(** Stopping a loop early leaves initial segments of what the whole loop
    appends. *)
Lemma for_stride_prefix {A : Type} (series : Plot -> list A) abort
    (body : nat -> Plot -> Plot) n step k k' (st : Plot) :
  (forall i s, prefix_of (series s) (series (body i s))) ->
  prefix_of
    (series (state (for_stride abort body n step k st)))
    (series (state (for_stride (fun _ => false) body n step k' st))).
Proof.
  intros P. rewrite !for_stride_state, completed_never, firstn_all.
  set (j := completed abort k (length (visited n step))).
  rewrite <- (firstn_skipn j (visited n step)) at 2.
  rewrite run_body_app. apply run_body_prefix, P.
Qed.

(** A loop that ends without returning leaves the state that the loop leaves
    when the flag is never seen set. *)
Lemma for_stride_as_never {S : Type} abort (body : nat -> S -> S)
    n step k k' (st : S) :
  returned (for_stride abort body n step k st) = false ->
  state (for_stride abort body n step k st)
  = state (for_stride (fun _ => false) body n step k' st).
Proof.
  intros R. rewrite (for_stride_whole _ _ _ _ _ _ R).
  symmetry. apply for_stride_whole, for_stride_never.
Qed.

(** A loop leaves the fit line as it found it or sets it to the one line of
    the run. *)
Lemma slow_loop_KvFit fd ff stt ty abort k (st : Plot) :
  let fslow := slow fd in
  m_KvFit (state (slow_loop kMaxSize fd ff stt ty abort k st)) = m_KvFit st
  \/ m_KvFit (state (slow_loop kMaxSize fd ff stt ty abort k st))
     = fit_line (gain ff 1) (velocity (min_element (@velocity T) fslow))
                (velocity (max_element (@velocity T) fslow)).
Proof.
  cbn zeta. unfold slow_loop. rewrite for_stride_state.
  generalize (firstn
                (completed abort k
                   (length (visited (length (slow fd))
                                    (stride kMaxSize (length (slow fd))))))
                (visited (length (slow fd))
                         (stride kMaxSize (length (slow fd))))) as idx.
  intros idx. revert st. induction idx as [|i idx IH]; intros st;
    [left; reflexivity|].
  right. simpl. destruct (IH (slow_body ty ff stt (slow fd)
                                (velocity (min_element (@velocity T) (slow fd)))
                                (velocity (max_element (@velocity T) (slow fd)))
                                i st)) as [E | E];
    rewrite E; reflexivity.
Qed.

Lemma fast_loop_KaFit fd ff stt ty abort k (st : Plot) :
  let ffast := fast fd in
  m_KaFit (state (fast_loop kMaxSize fd ff stt ty abort k st)) = m_KaFit st
  \/ m_KaFit (state (fast_loop kMaxSize fd ff stt ty abort k st))
     = fit_line (gain ff 2)
                (acceleration (min_element (@acceleration T) ffast))
                (acceleration (max_element (@acceleration T) ffast)).
Proof.
  cbn zeta. unfold fast_loop. rewrite for_stride_state.
  generalize (firstn
                (completed abort k
                   (length (visited (length (fast fd))
                                    (stride kMaxSize (length (fast fd))))))
                (visited (length (fast fd))
                         (stride kMaxSize (length (fast fd))))) as idx.
  intros idx. revert st. induction idx as [|i idx IH]; intros st;
    [left; reflexivity|].
  right. simpl.
  destruct (IH (fast_body ty ff stt (fast fd)
                  (acceleration (min_element (@acceleration T) (fast fd)))
                  (acceleration (max_element (@acceleration T) (fast fd)))
                  i st)) as [E | E];
    rewrite E; reflexivity.
Qed.

Lemma finish_filtered rd fd ff stt ty abort k (st : Plot) :
  m_filteredData (state (finish rd fd ff stt ty abort k st))
  = m_filteredData st.
Proof.
  unfold finish_SetData. cbn [state FitPlots m_filteredData].
  rewrite (SetRawTimeData_frame (@m_filteredData T)) by frame.
  reflexivity.
Qed.

(** The filtered series after a pass in which the flag is never seen set. *)
Lemma SetData_never rd fd unit ff stt ty (st : Plot) :
  m_filteredData (state (set_data rd fd unit ff stt ty (fun _ => false) st))
  = m_filteredData
      (state (fast_loop kMaxSize fd ff stt ty (fun _ => false)
                (reads (slow_loop kMaxSize fd ff stt ty (fun _ => false) 0
                          (ResetData (SetGraphLabels GetAbbreviation unit st))))
                (state (slow_loop kMaxSize fd ff stt ty (fun _ => false) 0
                          (ResetData (SetGraphLabels GetAbbreviation unit st)))))).
Proof.
  unfold SetData. cbn zeta.
  unfold slow_loop at 1. rewrite for_stride_never.
  unfold fast_loop at 1. rewrite for_stride_never.
  apply finish_filtered.
Qed.

(** The two loops of SetRawTimeData: stopping early leaves initial segments
    of the raw series of the whole function. *)
Lemma SetRawTimeData_prefix rs rf abort k k' (st : Plot) c :
  prefix_of
    (m_rawData (state (SetRawTimeData kMaxSize rs rf abort k st)) c)
    (m_rawData
       (state (SetRawTimeData kMaxSize rs rf (fun _ => false) k' st)) c).
Proof.
  unfold SetRawTimeData. rewrite for_stride_never.
  set (b1 := raw_body 2 3 rs). set (b2 := raw_body 4 5 rf).
  set (n1 := length rs). set (n2 := length rf).
  set (s1 := stride kMaxSize n1). set (s2 := stride kMaxSize n2).
  assert (P1 : forall i s, prefix_of (m_rawData s c) (m_rawData (b1 i s) c))
    by (intros; apply raw_body_prefix).
  assert (P2 : forall i s, prefix_of (m_rawData s c) (m_rawData (b2 i s) c))
    by (intros; apply raw_body_prefix).
  destruct (returned (for_stride abort b1 n1 s1 k st)) eqn:R.
  - eapply prefix_of_trans.
    + apply (for_stride_prefix (fun s => m_rawData s c) abort b1 n1 s1 k k' st P1).
    + apply (for_stride_extends (fun s => m_rawData s c)), P2.
  - rewrite (for_stride_as_never abort b1 n1 s1 k k' st R).
    apply (for_stride_prefix (fun s => m_rawData s c)), P2.
Qed.

(** C1, as the code has it.  A pass that leaves SetData through the [return]
    of one of its loops has already cleared the plot: the mean line, both
    simulations, every raw series and the accumulators are empty or zero,
    whatever they held before; each fit line is zero or already the line of
    the new data; every filtered series holds the points of the iterations
    that ran before the flag was seen, an initial segment of what the whole
    pass over the new data appends.  Only m_RMSE and m_RSquared keep the
    values they had before the call.  The same holds for SetRawData, whose
    filtered series are then all empty and whose raw series are initial
    segments of those of the whole pass. *)
Theorem SetData_abort_publishes_partial_pass
    (rawData filteredData : Storage T) (unit : string)
    (ffGains startTimes : list T) (type : AnalysisType)
    (abort : nat -> bool) (st : Plot) :
  let cleared (s : Plot) :=
    m_dtMeanLine s = [] /\ m_quasistaticSim s = [] /\ m_dynamicSim s = []
    /\ sums s = no_sums
    /\ m_RMSE s = m_RMSE st /\ m_RSquared s = m_RSquared st in
  let no_line := ((zero, zero), (zero, zero)) in
  (let r := set_data rawData filteredData unit ffGains startTimes type
                     abort st in
   returned r = true ->
   cleared (state r)
   /\ (forall c, m_rawData (state r) c = [])
   /\ (forall c,
        prefix_of
          (m_filteredData (state r) c)
          (m_filteredData
             (state (set_data rawData filteredData unit ffGains startTimes
                              type (fun _ => false) st)) c))
   /\ (m_KvFit (state r) = no_line
       \/ m_KvFit (state r)
          = fit_line (gain ffGains 1)
              (velocity (min_element (@velocity T) (slow filteredData)))
              (velocity (max_element (@velocity T) (slow filteredData))))
   /\ (m_KaFit (state r) = no_line
       \/ m_KaFit (state r)
          = fit_line (gain ffGains 2)
              (acceleration (min_element (@acceleration T) (fast filteredData)))
              (acceleration (max_element (@acceleration T) (fast filteredData)))))
  /\
  (let r := set_raw_data rawData unit abort st in
   returned r = true ->
   cleared (state r)
   /\ (forall c, m_filteredData (state r) c = [])
   /\ (forall c,
        prefix_of
          (m_rawData (state r) c)
          (m_rawData (state (set_raw_data rawData unit (fun _ => false) st))
                     c))).
Proof.
  cbn zeta. split.
  - pose proof (SetData_never rawData filteredData unit ffGains startTimes
                  type st) as N.
    revert N.
    generalize (state (set_data rawData filteredData unit ffGains startTimes
                                type (fun _ => false) st)) as whole.
    intros whole N.
    unfold SetData. cbn zeta.
    set (st0 := ResetData (SetGraphLabels GetAbbreviation unit st)) in *.
    set (r1 := slow_loop kMaxSize filteredData ffGains startTimes type abort 0 st0).
    set (r2 := fast_loop kMaxSize filteredData ffGains startTimes type abort
                         (reads r1) (state r1)).
    assert (PS : forall c i s l mn mx,
               prefix_of (m_filteredData s c)
                 (m_filteredData
                    (slow_body type ffGains startTimes l mn mx i s) c))
      by (intros; apply slow_body_prefix).
    assert (PF : forall c i s l mn mx,
               prefix_of (m_filteredData s c)
                 (m_filteredData
                    (fast_body type ffGains startTimes l mn mx i s) c))
      by (intros; apply fast_body_prefix).
    destruct (returned r1) eqn:R1; [|destruct (returned r2) eqn:R2].
    + intros _. subst r1.
      split; [|split; [|split; [|split]]].
      * repeat (split; [rewrite slow_loop_frame by frame; reflexivity|]).
        rewrite slow_loop_frame by frame; reflexivity.
      * intros c. rewrite (slow_loop_frame (fun s => m_rawData s c)) by frame.
        reflexivity.
      * intros c. rewrite N.
        eapply prefix_of_trans.
        -- unfold slow_loop.
           apply (for_stride_prefix (fun s => m_filteredData s c) abort
                    _ _ _ 0 0 st0).
           intros; apply PS.
        -- unfold fast_loop.
           apply (for_stride_extends (fun s => m_filteredData s c)).
           intros; apply PF.
      * apply slow_loop_KvFit.
      * left. rewrite slow_loop_frame by frame. reflexivity.
    + intros _. subst r2.
      assert (W : state r1
                  = state (slow_loop kMaxSize filteredData ffGains startTimes
                             type (fun _ => false) 0 st0))
        by (apply for_stride_as_never; exact R1).
      split; [|split; [|split; [|split]]].
      * subst r1.
        repeat (split; [rewrite fast_loop_frame by frame;
                        rewrite slow_loop_frame by frame; reflexivity|]).
        rewrite fast_loop_frame by frame.
        rewrite slow_loop_frame by frame; reflexivity.
      * intros c. rewrite (fast_loop_frame (fun s => m_rawData s c)) by frame.
        subst r1.
        rewrite (slow_loop_frame (fun s => m_rawData s c)) by frame.
        reflexivity.
      * intros c. rewrite N, W. unfold fast_loop.
        apply (for_stride_prefix (fun s => m_filteredData s c)).
        intros; apply PF.
      * rewrite fast_loop_frame by frame. apply slow_loop_KvFit.
      * destruct (fast_loop_KaFit filteredData ffGains startTimes type abort
                    (reads r1) (state r1)) as [E | E]; [left | right; exact E].
        rewrite E. subst r1. rewrite slow_loop_frame by frame. reflexivity.
    + unfold finish_SetData. cbn [returned]. discriminate.
  - unfold SetRawData. intros _.
    split; [|split].
    + repeat (split; [rewrite SetRawTimeData_frame by frame; reflexivity|]).
      rewrite SetRawTimeData_frame by frame; reflexivity.
    + intros c.
      rewrite (SetRawTimeData_frame (fun s => m_filteredData s c)) by frame.
      reflexivity.
    + intros c. apply SetRawTimeData_prefix.
Qed.

(** *** The timestep series *)

Lemma emits_dt_iff stt (d : PreparedData T) i :
  emits_dt stt d i = true
  <-> 0 < i /\ s_ltb zero (dt d) = true
      /\ forall s, In s stt -> s_eqb s (timestamp d) = false.
Proof.
  unfold emits_dt, is_start.
  rewrite !andb_true_iff, negb_true_iff, Nat.ltb_lt.
  split.
  - intros [[Hi Hd] Hn]. repeat split; try assumption.
    intros s Hs. destruct (s_eqb s (timestamp d)) eqn:E; [|reflexivity].
    assert (X : existsb (fun s => s_eqb s (timestamp d)) stt = true)
      by (apply existsb_exists; exists s; auto).
    congruence.
  - intros (Hi & Hd & Hn). repeat split; try assumption.
    destruct (existsb (fun s => s_eqb s (timestamp d)) stt) eqn:E;
      [|reflexivity].
    apply existsb_exists in E. destruct E as [s [Hs E]].
    rewrite (Hn s Hs) in E. discriminate.
Qed.

Lemma dt_point_6 stt (d : PreparedData T) i f :
  dt_point stt d i f 6
  = f 6 ++ (if emits_dt stt d i then [(timestamp d, to_ms (dt d))] else []).
Proof.
  unfold dt_point. destruct (emits_dt stt d i).
  - reflexivity.
  - symmetry. apply app_nil_r.
Qed.

Lemma slow_run_dt ty ff stt l mn mx idx (st : Plot) :
  m_filteredData (run_body (slow_body ty ff stt l mn mx) idx st) 6
  = m_filteredData st 6 ++ dt_series stt l idx.
Proof.
  revert st; induction idx as [|i idx IH]; intros st.
  - simpl. symmetry. apply app_nil_r.
  - simpl. rewrite IH. unfold slow_body, with_filtered, with_KvFit.
    cbn [m_filteredData]. rewrite dt_point_6.
    unfold emplace_back. cbn [Nat.eqb]. rewrite <- app_assoc. reflexivity.
Qed.

Lemma fast_run_dt ty ff stt l mn mx idx (st : Plot) :
  m_filteredData (run_body (fast_body ty ff stt l mn mx) idx st) 6
  = m_filteredData st 6 ++ dt_series stt l idx.
Proof.
  revert st; induction idx as [|i idx IH]; intros st.
  - simpl. symmetry. apply app_nil_r.
  - simpl. rewrite IH. unfold fast_body, with_filtered, with_KaFit.
    cbn [m_filteredData]. rewrite dt_point_6.
    unfold emplace_back. cbn [Nat.eqb]. rewrite <- app_assoc. reflexivity.
Qed.

(** A pass that does not return early has run both loops to their end. *)
Lemma SetData_completed rd fd unit ff stt ty abort (st : Plot) :
  returned (set_data rd fd unit ff stt ty abort st) = false ->
  let st0 := ResetData (SetGraphLabels GetAbbreviation unit st) in
  let r1 := slow_loop kMaxSize fd ff stt ty abort 0 st0 in
  let r2 := fast_loop kMaxSize fd ff stt ty abort (reads r1) (state r1) in
  returned r1 = false /\ returned r2 = false
  /\ set_data rd fd unit ff stt ty abort st
     = finish rd fd ff stt ty abort (reads r2) (state r2).
Proof.
  unfold SetData. cbn zeta.
  destruct (returned (slow_loop kMaxSize fd ff stt ty abort 0 _)) eqn:R1;
    [intros E; rewrite E in R1; discriminate|].
  destruct (returned (fast_loop kMaxSize fd ff stt ty abort _ _)) eqn:R2;
    [intros E; rewrite E in R2; discriminate|].
  intros _. repeat split.
Qed.

(** C9, as the code has it.  After a pass that was not aborted, the timestep
    series holds, in order, one point for each sample of the slow run and
    then of the fast run that the strided loop visits and that is not the
    first of its run, has dt > 0 and has a timestamp equal to no start time;
    such a sample adds the point (timestamp, dt in ms).  The visited samples
    are those whose index is a multiple of the run's stride; a sample the
    stride skips adds no point. *)
Theorem SetData_dt_series
    (rawData filteredData : Storage T) (unit : string)
    (ffGains startTimes : list T) (type : AnalysisType)
    (abort : nat -> bool) (st : Plot) :
  returned (set_data rawData filteredData unit ffGains startTimes type
                     abort st) = false ->
  let fslow := slow filteredData in
  let ffast := fast filteredData in
  m_filteredData
    (state (set_data rawData filteredData unit ffGains startTimes type
                     abort st)) 6
  = dt_series startTimes fslow
      (visited (length fslow) (stride kMaxSize (length fslow)))
    ++ dt_series startTimes ffast
         (visited (length ffast) (stride kMaxSize (length ffast)))
  /\ (forall d i,
        emits_dt startTimes d i = true
        <-> 0 < i /\ s_ltb zero (dt d) = true
            /\ forall s, In s startTimes -> s_eqb s (timestamp d) = false)
  /\ (forall n x, 1 <= stride kMaxSize n ->
        In x (visited n (stride kMaxSize n))
        <-> x < n /\ x mod stride kMaxSize n = 0).
Proof.
  intros R. cbn zeta.
  destruct (SetData_completed _ _ _ _ _ _ _ _ R) as (R1 & R2 & E).
  split; [|split].
  - rewrite E, finish_filtered.
    unfold fast_loop in R2 |- *. rewrite (for_stride_whole _ _ _ _ _ _ R2).
    rewrite fast_run_dt.
    unfold slow_loop in R1 |- *. rewrite (for_stride_whole _ _ _ _ _ _ R1).
    rewrite slow_run_dt. reflexivity.
  - intros d i. apply emits_dt_iff.
  - intros n x Hs. apply visited_spec, Hs.
Qed.

(** *** The size of the series *)

Lemma length_filter_le {A : Type} (f : A -> bool) (l : list A) :
  length (filter f l) <= length l.
Proof.
  induction l as [|a l IH]; simpl; [lia|]. destruct (f a); simpl; lia.
Qed.

Lemma filter_firstn_le {A : Type} (f : A -> bool) (l : list A) j :
  length (filter f (firstn j l)) <= length (filter f l).
Proof.
  rewrite <- (firstn_skipn j l) at 2. rewrite filter_app, length_app. lia.
Qed.

Lemma run_body_grows {S A : Type} (series : S -> list A)
    (body : nat -> S -> S) (w : nat -> bool) idx (st : S) :
  (forall i s, length (series (body i s))
               <= length (series s) + (if w i then 1 else 0)) ->
  length (series (run_body body idx st))
  <= length (series st) + length (filter w idx).
Proof.
  intros G. revert st; induction idx as [|i l IH]; intros st; simpl; [lia|].
  specialize (IH (body i st)). specialize (G i st).
  destruct (w i); simpl; lia.
Qed.

Lemma emplace_back_length c (p : ImPlotPoint T) f c' :
  length (emplace_back c p f c') = length (f c') + (if c' =? c then 1 else 0).
Proof.
  unfold emplace_back. destruct (c' =? c); [|lia].
  rewrite length_app. reflexivity.
Qed.

Lemma dt_point_length stt (d : PreparedData T) i f c' :
  length (dt_point stt d i f c')
  <= length (f c') + (if (c' =? 6) && (0 <? i) then 1 else 0).
Proof.
  unfold dt_point, emits_dt.
  destruct (0 <? i); cbn [andb].
  - destruct (s_ltb zero (dt d) && negb (is_start stt (timestamp d))).
    + rewrite emplace_back_length, andb_true_r. lia.
    + lia.
  - lia.
Qed.

Lemma slow_body_grows ty ff stt l mn mx c i (s : Plot) :
  length (m_filteredData (slow_body ty ff stt l mn mx i s) c)
  <= length (m_filteredData s c) + (if slow_adds c i then 1 else 0).
Proof.
  unfold slow_body, with_filtered, with_KvFit. cbn [m_filteredData].
  eapply Nat.le_trans; [apply dt_point_length|].
  rewrite !emplace_back_length.
  do 7 (destruct c as [|c]; [cbn; lia|]). cbn. lia.
Qed.

Lemma fast_body_grows ty ff stt l mn mx c i (s : Plot) :
  length (m_filteredData (fast_body ty ff stt l mn mx i s) c)
  <= length (m_filteredData s c) + (if fast_adds c i then 1 else 0).
Proof.
  unfold fast_body, with_filtered, with_KaFit. cbn [m_filteredData].
  eapply Nat.le_trans; [apply dt_point_length|].
  rewrite !emplace_back_length.
  do 7 (destruct c as [|c]; [cbn; lia|]). cbn. lia.
Qed.

Lemma raw_body_grows_23 l c i (s : Plot) :
  length (m_rawData (raw_body 2 3 l i s) c)
  <= length (m_rawData s c) + (if raw_adds 2 3 c i then 1 else 0).
Proof.
  unfold raw_body, with_raw, raw_adds. cbn [m_rawData].
  rewrite !emplace_back_length.
  do 4 (destruct c as [|c]; [cbn; lia|]). cbn. lia.
Qed.

Lemma raw_body_grows_45 l c i (s : Plot) :
  length (m_rawData (raw_body 4 5 l i s) c)
  <= length (m_rawData s c) + (if raw_adds 4 5 c i then 1 else 0).
Proof.
  unfold raw_body, with_raw, raw_adds. cbn [m_rawData].
  rewrite !emplace_back_length.
  do 6 (destruct c as [|c]; [cbn; lia|]). cbn. lia.
Qed.

Lemma slow_loop_grows fd ff stt ty abort k (st : Plot) c :
  length (m_filteredData (state (slow_loop kMaxSize fd ff stt ty abort k st)) c)
  <= length (m_filteredData st c)
     + length (filter (slow_adds c)
                 (visited (length (slow fd))
                          (stride kMaxSize (length (slow fd))))).
Proof.
  unfold slow_loop. rewrite for_stride_state.
  eapply Nat.le_trans.
  - apply (run_body_grows (fun s => m_filteredData s c) _ (slow_adds c)).
    intros. apply slow_body_grows.
  - apply Nat.add_le_mono_l, filter_firstn_le.
Qed.

Lemma fast_loop_grows fd ff stt ty abort k (st : Plot) c :
  length (m_filteredData (state (fast_loop kMaxSize fd ff stt ty abort k st)) c)
  <= length (m_filteredData st c)
     + length (filter (fast_adds c)
                 (visited (length (fast fd))
                          (stride kMaxSize (length (fast fd))))).
Proof.
  unfold fast_loop. rewrite for_stride_state.
  eapply Nat.le_trans.
  - apply (run_body_grows (fun s => m_filteredData s c) _ (fast_adds c)).
    intros. apply fast_body_grows.
  - apply Nat.add_le_mono_l, filter_firstn_le.
Qed.

Lemma SetRawTimeData_grows rs rf abort k (st : Plot) c :
  length (m_rawData (state (SetRawTimeData kMaxSize rs rf abort k st)) c)
  <= length (m_rawData st c)
     + length (filter (raw_adds 2 3 c)
                 (visited (length rs) (stride kMaxSize (length rs))))
     + length (filter (raw_adds 4 5 c)
                 (visited (length rf) (stride kMaxSize (length rf)))).
Proof.
  unfold SetRawTimeData.
  set (r := for_stride abort (raw_body 2 3 rs) (length rs)
              (stride kMaxSize (length rs)) k st).
  assert (G : length (m_rawData (state r) c)
              <= length (m_rawData st c)
                 + length (filter (raw_adds 2 3 c)
                             (visited (length rs)
                                      (stride kMaxSize (length rs))))).
  { subst r. rewrite for_stride_state.
    eapply Nat.le_trans.
    - apply (run_body_grows (fun s => m_rawData s c) _ (raw_adds 2 3 c)).
      intros. apply raw_body_grows_23.
    - apply Nat.add_le_mono_l, filter_firstn_le. }
  destruct (returned r); [lia|].
  rewrite for_stride_state.
  eapply Nat.le_trans.
  - apply (run_body_grows (fun s => m_rawData s c) _ (raw_adds 4 5 c)).
    intros. apply raw_body_grows_45.
  - pose proof (filter_firstn_le (raw_adds 4 5 c)
                  (visited (length rf) (stride kMaxSize (length rf)))
                  (completed abort (reads r)
                     (length (visited (length rf)
                                      (stride kMaxSize (length rf)))))).
    lia.
Qed.

Section Budget.
Hypothesis budget_pos : 1 <= kMaxSize.
(** What the budget needs of the stride: stride * kMaxSize >= 4 * size. *)
Hypothesis stride_covers : forall n, 4 * n <= stride kMaxSize n * kMaxSize.

Lemma stride_covers_pos n : 1 <= n -> 1 <= stride kMaxSize n.
Proof. intros Hn. specialize (stride_covers n). nia. Qed.

(** A strided loop makes at most (kMaxSize - 1) / 4 + 1 iterations, of
    which all but the first are at an index above 0. *)
Lemma visited_count n :
  length (visited n (stride kMaxSize n)) <= (kMaxSize - 1) / 4 + 1
  /\ length (filter (fun i => 0 <? i) (visited n (stride kMaxSize n)))
     <= (kMaxSize - 1) / 4.
Proof.
  destruct n as [|n']; [simpl; lia|].
  set (n := S n').
  assert (Hs : 1 <= stride kMaxSize n) by (apply stride_covers_pos; lia).
  rewrite visited_nonzero by exact Hs.
  pose proof (stride_covers n) as C.
  pose proof (Nat.div_mod_eq (kMaxSize - 1) 4) as D.
  pose proof (Nat.mod_upper_bound (kMaxSize - 1) 4) as U.
  destruct (stride_indices_length n (stride kMaxSize n) n 0 Hs) as [Z | L];
    unfold visited.
  - rewrite Z. lia.
  - set (m := length (stride_indices n (stride kMaxSize n) n 0)) in *.
    assert (B : 4 * (m - 1) < kMaxSize) by nia.
    lia.
Qed.

Lemma filtered_budget c n n' :
  length (filter (slow_adds c) (visited n (stride kMaxSize n)))
  + length (filter (fast_adds c) (visited n' (stride kMaxSize n')))
  <= kMaxSize.
Proof.
  destruct (visited_count n) as [A1 A2], (visited_count n') as [B1 B2].
  pose proof (length_filter_le (slow_adds c) (visited n (stride kMaxSize n))).
  pose proof (length_filter_le (fast_adds c) (visited n' (stride kMaxSize n'))).
  pose proof (Nat.div_mod_eq (kMaxSize - 1) 4) as D.
  assert (Z : forall l, length (filter (fun _ : nat => false) l) = 0)
    by (induction l; simpl; auto).
  do 6 (destruct c as [|c]; [rewrite ?Z; lia|]).
  destruct c as [|c].
  - change (slow_adds 6) with (fun i => 0 <? i).
    change (fast_adds 6) with (fun i => 0 <? i). lia.
  - rewrite !Z. lia.
Qed.

Lemma raw_budget c n n' :
  length (filter (raw_adds 2 3 c) (visited n (stride kMaxSize n)))
  + length (filter (raw_adds 4 5 c) (visited n' (stride kMaxSize n')))
  <= kMaxSize.
Proof.
  destruct (visited_count n) as [A1 _], (visited_count n') as [B1 _].
  pose proof (length_filter_le (raw_adds 2 3 c) (visited n (stride kMaxSize n))).
  pose proof (length_filter_le (raw_adds 4 5 c) (visited n' (stride kMaxSize n'))).
  pose proof (Nat.div_mod_eq (kMaxSize - 1) 4) as D.
  assert (Z : forall l, length (filter (fun _ : nat => false) l) = 0)
    by (induction l; simpl; auto).
  do 6 (destruct c as [|c]; [rewrite ?Z; lia|]).
  rewrite !Z. lia.
Qed.

(** After SetData and after SetRawData, aborted or not, no filtered and no
    raw series is longer than kMaxSize. *)
Lemma series_within_budget rd fd unit ff stt ty abort (st : Plot) c :
  (length (m_filteredData (state (set_data rd fd unit ff stt ty abort st)) c)
     <= kMaxSize
   /\ length (m_rawData (state (set_data rd fd unit ff stt ty abort st)) c)
     <= kMaxSize)
  /\ (length (m_filteredData (state (set_raw_data rd unit abort st)) c)
        <= kMaxSize
      /\ length (m_rawData (state (set_raw_data rd unit abort st)) c)
        <= kMaxSize).
Proof.
  split.
  - unfold SetData. cbn zeta.
    set (st0 := ResetData (SetGraphLabels GetAbbreviation unit st)).
    set (r1 := slow_loop kMaxSize fd ff stt ty abort 0 st0).
    set (r2 := fast_loop kMaxSize fd ff stt ty abort (reads r1) (state r1)).
    pose proof (slow_loop_grows fd ff stt ty abort 0 st0 c) as G1.
    pose proof (fast_loop_grows fd ff stt ty abort (reads r1) (state r1) c)
      as G2.
    fold r1 in G1. fold r2 in G2.
    change (length (m_filteredData st0 c)) with 0 in G1.
    pose proof (filtered_budget c (length (slow fd)) (length (fast fd))) as B.
    assert (Raw1 : m_rawData (state r1) c = [])
      by (subst r1;
          rewrite (slow_loop_frame (fun s => m_rawData s c)) by frame;
          reflexivity).
    assert (Raw2 : m_rawData (state r2) c = [])
      by (subst r2;
          rewrite (fast_loop_frame (fun s => m_rawData s c)) by frame;
          exact Raw1).
    destruct (returned r1); [|destruct (returned r2)].
    + rewrite Raw1. simpl. lia.
    + rewrite Raw2. simpl. lia.
    + rewrite finish_filtered. split; [lia|].
      unfold finish_SetData. cbn [state FitPlots m_rawData].
      eapply Nat.le_trans; [apply SetRawTimeData_grows|].
      cbn [m_rawData]. rewrite Raw2.
      pose proof (raw_budget c (length (slow rd)) (length (fast rd))).
      simpl. lia.
  - unfold SetRawData. split.
    + rewrite (SetRawTimeData_frame (fun s => m_filteredData s c)) by frame.
      simpl. lia.
    + eapply Nat.le_trans; [apply SetRawTimeData_grows|].
      pose proof (raw_budget c (length (slow rd)) (length (fast rd))).
      simpl. lia.
Qed.
End Budget.

(** *** The metrics *)

Lemma simulate_sums ty ff stt step data g :
  snd (simulate mkSimpleMotorSim mkElevatorSim mkArmSim ty ff stt step data g)
  = accumulate g
      (sim_contributions mkSimpleMotorSim mkElevatorSim mkArmSim ty ff stt data).
Proof.
  unfold simulate, sim_contributions.
  destruct ty; apply PopulateTimeDomainSim_sums.
Qed.

Lemma SetData_never_returned rd fd unit ff stt ty (st : Plot) :
  returned (set_data rd fd unit ff stt ty (fun _ => false) st) = false.
Proof.
  unfold SetData. cbn zeta.
  unfold slow_loop at 1. rewrite for_stride_never.
  unfold fast_loop at 1. rewrite for_stride_never.
  reflexivity.
Qed.

(** After a pass that was not aborted, the accumulators hold the totals over
    the contributing samples of the raw slow run and then of the raw fast
    run, and the two metrics are computed from them. *)
Lemma SetData_metrics rd fd unit ff stt ty abort (st : Plot) :
  returned (set_data rd fd unit ff stt ty abort st) = false ->
  let s := state (set_data rd fd unit ff stt ty abort st) in
  sums s
  = accumulate sums0
      (sim_contributions mkSimpleMotorSim mkElevatorSim mkArmSim ty ff stt
                         (slow rd)
       ++ sim_contributions mkSimpleMotorSim mkElevatorSim mkArmSim ty ff stt
                            (fast rd))
  /\ m_RMSE s = rmse (sums s)
  /\ m_RSquared s = r_squared (sums s).
Proof.
  intros R. cbn zeta.
  destruct (SetData_completed _ _ _ _ _ _ _ _ R) as (_ & _ & E).
  rewrite E. unfold finish_SetData. cbn [state FitPlots sums m_RMSE m_RSquared].
  split; [|split; reflexivity].
  rewrite !simulate_sums, accumulate_app. do 2 f_equal.
  rewrite SetRawTimeData_frame by frame. cbn [sums].
  rewrite fast_loop_frame by frame.
  rewrite slow_loop_frame by frame.
  reflexivity.
Qed.

(** C3, as the code has it.  SetData has no test for a zero total of squared
    measured velocity.  After a pass that was not aborted and left that total
    at zero, m_RSquared has been assigned 1 - m_RMSE / sqrt(0 / count) like
    in every other pass: the division by the zero square root is carried
    out. *)
Theorem SetData_r_squared_unguarded
    (rawData filteredData : Storage T) (unit : string)
    (ffGains startTimes : list T) (type : AnalysisType)
    (abort : nat -> bool) (st : Plot) :
  let s := state (set_data rawData filteredData unit ffGains startTimes type
                           abort st) in
  returned (set_data rawData filteredData unit ffGains startTimes type
                     abort st) = false ->
  squaredVariationSum (sums s) = s_of_Z 0 ->
  m_RSquared s
  = s_sub (s_of_Z 1)
      (s_div (m_RMSE s)
         (s_sqrt (s_div (s_of_Z 0)
                        (s_of_Z (Z.of_nat (timeSeriesPoints (sums s))))))).
Proof.
  cbn zeta. intros R Z.
  destruct (SetData_metrics _ _ _ _ _ _ _ _ R) as (_ & E1 & E2).
  rewrite E2, E1. unfold r_squared. rewrite Z. reflexivity.
Qed.
End PassFacts.

(** ** An aborted pass on concrete data *)

(** C1 as stated fails: the pass returns at its third flag read, and the
    plot is not what it was before the call. *)
Lemma SetData_abort_changes_state :
  returned Demo.aborted = true /\ state Demo.aborted <> Demo.shown.
Proof.
  split; [vm_compute; reflexivity|].
  intros E. apply (f_equal (fun s => length (m_dtMeanLine s))) in E.
  vm_compute in E. discriminate E.
Qed.

Lemma SetData_abort_publishes_partial_pass_witness :
  returned Demo.aborted = true /\
  (m_dtMeanLine (state Demo.aborted) = []
   /\ m_RMSE (state Demo.aborted) = m_RMSE Demo.shown
   /\ prefix_of
        (m_filteredData (state Demo.aborted) 0)
        (m_filteredData
           (state (Demo.run_SetData Demo.store4 Demo.store4 Demo.scenario_gains
                     Demo.starts4 kSimple (fun _ => false) Demo.shown)) 0)).
Proof.
  assert (R : returned Demo.aborted = true) by (vm_compute; reflexivity).
  split; [exact R|].
  destruct (SetData_abort_publishes_partial_pass
              Demo.kMaxSize Demo.GetAbbreviation Demo.GetMeanTimeDelta
              Demo.mkSim3 Demo.mkSim4 Demo.mkSim4
              Demo.store4 Demo.store4 "Meters"%string Demo.scenario_gains
              Demo.starts4 kSimple (Demo.set_from 2) Demo.shown) as [P _].
  destruct (P R) as ((L & _ & _ & _ & E & _) & _ & F & _).
  split; [exact L|]. split; [exact E|]. exact (F 0).
Defined.

(** The aborted pass leaves two of the four points of the first scatter
    series and no mean line. *)
Example aborted_series :
  length (m_filteredData (state Demo.aborted) 0) = 2
  /\ length (m_filteredData Demo.shown 0) = 4
  /\ m_dtMeanLine (state Demo.aborted) = []
  /\ length (m_dtMeanLine Demo.shown) = 2.
Proof. vm_compute. repeat split. Qed.

(** ** The timestep series on concrete data *)

Lemma SetData_dt_series_witness :
  returned (Demo.run_SetData Demo.store4 Demo.store4 Demo.scenario_gains
              Demo.starts4 kSimple Demo.never Demo.fresh) = false /\
  m_filteredData Demo.shown 6
  = dt_series Demo.starts4 Demo.run4
      (visited 4 (stride (T := float) Demo.kMaxSize 4))
    ++ dt_series Demo.starts4 Demo.run4
         (visited 4 (stride (T := float) Demo.kMaxSize 4)).
Proof.
  assert (R : returned (Demo.run_SetData Demo.store4 Demo.store4
                          Demo.scenario_gains Demo.starts4 kSimple Demo.never
                          Demo.fresh) = false)
    by (vm_compute; reflexivity).
  split; [exact R|].
  exact (proj1 (SetData_dt_series
                  Demo.kMaxSize Demo.GetAbbreviation Demo.GetMeanTimeDelta
                  Demo.mkSim3 Demo.mkSim4 Demo.mkSim4
                  Demo.store4 Demo.store4 "Meters"%string Demo.scenario_gains
                  Demo.starts4 kSimple Demo.never Demo.fresh R)).
Defined.

(** C9 as stated fails for a run longer than a quarter of the budget.  In a
    complete pass over 513 samples the stride is 2; sample 1 is not the first
    of its run, has dt > 0 and a timestamp equal to no start time, and the
    timestep series holds no point for it. *)
Lemma dt_series_skips_sample :
  returned Demo.shown_long = false
  /\ stride (T := float) Demo.kMaxSize (length Demo.long_run) = 2
  /\ (0 < 1
      /\ s_ltb zero (dt (at_ Demo.long_run 1)) = true
      /\ forall s, In s Demo.starts_far ->
                   s_eqb s (timestamp (at_ Demo.long_run 1)) = false)
  /\ ~ In (timestamp (at_ Demo.long_run 1),
           to_ms (dt (at_ Demo.long_run 1)))
          (m_filteredData (state Demo.shown_long) 6).
Proof.
  split; [vm_compute; reflexivity|].
  split; [vm_compute; reflexivity|].
  split.
  - apply (proj1 (emits_dt_iff Demo.starts_far (at_ Demo.long_run 1) 1)).
    vm_compute. reflexivity.
  - intros Hin.
    assert (X : existsb (fun q => PrimFloat.eqb (fst q) 0.02%float)
                  (m_filteredData (state Demo.shown_long) 6) = true).
    { apply existsb_exists. eexists. split; [exact Hin|].
      vm_compute. reflexivity. }
    vm_compute in X. discriminate X.
Qed.

(** ** The stride on the real numbers *)

Section RealStride.
Variable kMaxSize : nat.
Hypothesis budget_pos : 1 <= kMaxSize.

Local Open Scope R_scope.

(** On the reals the step is the integer ceiling of 4 * size / kMaxSize. *)
Lemma stride_R_eq (n : nat) :
  stride (T := R) kMaxSize n = ((4 * n + kMaxSize - 1) / kMaxSize)%nat.
Proof.
  unfold stride. cbn [s_ceil s_mul s_div s_of_Z Scalar_R].
  set (z := Z.of_nat ((4 * n + kMaxSize - 1) / kMaxSize)%nat).
  replace ((4 * n + kMaxSize - 1) / kMaxSize)%nat with (Z.to_nat z)
    by (subst z; apply Nat2Z.id).
  f_equal. apply Zceil_eq.
  pose proof (Nat.div_mod_eq (4 * n + kMaxSize - 1) kMaxSize) as D.
  pose proof (Nat.mod_upper_bound (4 * n + kMaxSize - 1) kMaxSize) as U.
  set (q := ((4 * n + kMaxSize - 1) / kMaxSize)%nat) in *.
  set (r := ((4 * n + kMaxSize - 1) mod kMaxSize)%nat) in *.
  assert (Hk : 0 < INR kMaxSize) by (apply lt_0_INR; lia).
  assert (Lo : INR kMaxSize * INR q - INR kMaxSize < 4 * INR n).
  { assert (X : (kMaxSize * q < 4 * n + kMaxSize)%nat) by lia.
    apply lt_INR in X. rewrite plus_INR, !mult_INR in X.
    simpl in X. lra. }
  assert (Hi : 4 * INR n <= INR kMaxSize * INR q).
  { assert (X : (4 * n <= kMaxSize * q)%nat) by lia.
    apply le_INR in X. rewrite !mult_INR in X. simpl in X. lra. }
  subst z. rewrite <- !INR_IZR_INZ.
  replace (INR n * 1 / INR kMaxSize * 4) with (4 * INR n / INR kMaxSize)
    by (field; lra).
  split.
  - apply (Rmult_lt_reg_r (INR kMaxSize)); [exact Hk|].
    replace (4 * INR n / INR kMaxSize * INR kMaxSize) with (4 * INR n)
      by (field; lra).
    lra.
  - apply (Rmult_le_reg_r (INR kMaxSize)); [exact Hk|].
    replace (4 * INR n / INR kMaxSize * INR kMaxSize) with (4 * INR n)
      by (field; lra).
    lra.
Qed.

Lemma stride_R_covers (n : nat) :
  (4 * n <= stride (T := R) kMaxSize n * kMaxSize)%nat.
Proof.
  rewrite stride_R_eq.
  pose proof (Nat.div_mod_eq (4 * n + kMaxSize - 1) kMaxSize) as D.
  pose proof (Nat.mod_upper_bound (4 * n + kMaxSize - 1) kMaxSize) as U.
  nia.
Qed.
End RealStride.

(** ** The stride and the size of the series *)

Section RealBudget.
Variable kMaxSize : nat.
Variable GetAbbreviation : string -> string.
Variable GetMeanTimeDelta : Storage R -> R.
Context {SimpleMotorSim ElevatorSim ArmSim : Type}.
Context `{MechanismModel R SimpleMotorSim}.
Context `{MechanismModel R ElevatorSim}.
Context `{MechanismModel R ArmSim}.
Variable mkSimpleMotorSim : R -> R -> R -> SimpleMotorSim.
Variable mkElevatorSim : R -> R -> R -> R -> ElevatorSim.
Variable mkArmSim : R -> R -> R -> R -> ArmSim.

Local Abbreviation set_data :=
  (SetData kMaxSize GetAbbreviation GetMeanTimeDelta
           mkSimpleMotorSim mkElevatorSim mkArmSim).
Local Abbreviation set_raw_data := (SetRawData kMaxSize GetAbbreviation).

(** C8, as the code has it.  With the arithmetic read on the reals and a
    budget kMaxSize of at least 1: the stride of every non-empty run is at
    least 1 (that of the empty run is 0, and its loop has no iteration); and
    after SetData and after SetRawData, aborted or not and whatever the run
    lengths, no filtered series and no raw series holds more than kMaxSize
    points. *)
Theorem stride_and_series_within_budget :
  1 <= kMaxSize ->
  (forall n, 1 <= n -> 1 <= stride (T := R) kMaxSize n)
  /\ stride (T := R) kMaxSize 0 = 0
  /\ forall rawData filteredData unit ffGains startTimes type abort st c,
       (length (m_filteredData
                  (state (set_data rawData filteredData unit ffGains
                                   startTimes type abort st)) c) <= kMaxSize
        /\ length (m_rawData
                     (state (set_data rawData filteredData unit ffGains
                                      startTimes type abort st)) c)
           <= kMaxSize)
       /\ (length (m_filteredData
                     (state (set_raw_data rawData unit abort st)) c)
             <= kMaxSize
           /\ length (m_rawData
                        (state (set_raw_data rawData unit abort st)) c)
              <= kMaxSize).
Proof.
  intros Hk. split; [|split].
  - intros n Hn. pose proof (stride_R_covers kMaxSize Hk n). nia.
  - rewrite stride_R_eq by exact Hk.
    apply Nat.div_small. lia.
  - intros. apply series_within_budget;
      [exact Hk | apply stride_R_covers; exact Hk].
Qed.
End RealBudget.

Lemma stride_and_series_within_budget_witness :
  1 <= Demo.kMaxSize /\
  (1 <= stride (T := R) Demo.kMaxSize 513
   /\ length (m_filteredData
                (state (Demo.run_SetData_R Demo.store_steady Demo.store_steady
                          [0; 0; 0]%R kSimple Demo.never Demo.fresh_R)) 6)
      <= Demo.kMaxSize).
Proof.
  assert (Hk : 1 <= Demo.kMaxSize) by (unfold Demo.kMaxSize; lia).
  split; [exact Hk|].
  destruct (stride_and_series_within_budget
              Demo.kMaxSize Demo.GetAbbreviation Demo.GetMeanTimeDelta
              Demo.mkSim3 Demo.mkSim4 Demo.mkSim4 Hk) as (S1 & _ & B).
  split.
  - apply S1. lia.
  - apply (B Demo.store_steady Demo.store_steady "Meters"%string
             [0; 0; 0]%R [] kSimple Demo.never Demo.fresh_R 6).
Defined.

(** C8 as stated fails at the empty run: its stride is 0, on the reals and
    in binary64 alike. *)
Lemma stride_of_empty_run :
  ~ 1 <= stride (T := R) Demo.kMaxSize (length (@nil (PreparedData R)))
  /\ ~ 1 <= stride (T := float) Demo.kMaxSize
                   (length (@nil (PreparedData float))).
Proof.
  split.
  - simpl length. rewrite stride_R_eq by (unfold Demo.kMaxSize; lia).
    rewrite Nat.div_small by (unfold Demo.kMaxSize; lia). lia.
  - vm_compute. intros X. inversion X.
Qed.

(** In binary64 with the budget 2048, at the run lengths 1, 2048, 2049 and
    20480: the stride, and the number of samples the loop visits. *)
Example stride_at_sizes :
  map (fun n => (stride (T := float) Demo.kMaxSize n,
                 length (visited n (stride (T := float) Demo.kMaxSize n))))
      [1; Demo.kMaxSize; S Demo.kMaxSize; 10 * Demo.kMaxSize]
  = [(1, 1); (4, 512); (5, 410); (40, 512)].
Proof. vm_compute. reflexivity. Qed.

(** ** The metrics on concrete data *)

Lemma SetData_r_squared_unguarded_witness :
  (returned Demo.shown_still = false
   /\ squaredVariationSum (sums (state Demo.shown_still)) = s_of_Z 0) /\
  m_RSquared (state Demo.shown_still)
  = s_sub (s_of_Z 1)
      (s_div (m_RMSE (state Demo.shown_still))
         (s_sqrt
            (s_div (s_of_Z 0)
               (s_of_Z (Z.of_nat
                          (timeSeriesPoints (sums (state Demo.shown_still)))))))).
Proof.
  assert (R : returned Demo.shown_still = false) by (vm_compute; reflexivity).
  assert (Z : squaredVariationSum (sums (state Demo.shown_still)) = s_of_Z 0)
    by (vm_compute; reflexivity).
  split; [split; [exact R | exact Z]|].
  exact (SetData_r_squared_unguarded
           Demo.kMaxSize Demo.GetAbbreviation Demo.GetMeanTimeDelta
           Demo.mkSim3 Demo.mkSim4 Demo.mkSim4
           Demo.store_still Demo.store_still "Meters"%string
           Demo.scenario_gains Demo.starts_far kSimple Demo.never Demo.fresh
           R Z).
Defined.

(** C3 as stated fails.  After a complete pass over a run at rest, with four
    contributing samples, the total of squared measured velocity is zero and
    m_RSquared is NaN: nothing marks it as not computable. *)
Lemma zero_variance_r_squared_is_nan :
  returned Demo.shown_still = false
  /\ timeSeriesPoints (sums (state Demo.shown_still)) = 4
  /\ squaredVariationSum (sums (state Demo.shown_still)) = 0%float
  /\ PrimFloat.is_nan (m_RSquared (state Demo.shown_still)) = true.
Proof. vm_compute. repeat split. Qed.

(** ** The arithmetic of binary64

    Facts about the primitive floats, from their specification. *)

Lemma is_nan_Prim2SF (x : float) :
  PrimFloat.is_nan x = true <-> Prim2SF x = S754_nan.
Proof.
  unfold PrimFloat.is_nan. rewrite FloatAxioms.eqb_spec. unfold SFeqb.
  destruct (Prim2SF x) as [s|s| |s m e]; cbn.
  - split; discriminate.
  - destruct s; cbn; split; discriminate.
  - split; reflexivity.
  - destruct s; cbn; rewrite Z.compare_refl, Pos.compare_cont_refl; cbn;
      split; discriminate.
Qed.

Lemma Prim2SF_zero : Prim2SF 0%float = S754_zero false.
Proof. reflexivity. Qed.

(** A square root is NaN or not below zero. *)
Lemma sqrt_nan_or_nonneg (x : float) :
  PrimFloat.is_nan (PrimFloat.sqrt x) = true
  \/ (0 <=? PrimFloat.sqrt x)%float = true.
Proof.
  rewrite is_nan_Prim2SF, FloatAxioms.leb_spec, sqrt_spec, Prim2SF_zero.
  unfold SF64sqrt, SFsqrt.
  destruct (Prim2SF x) as [s|[|]| |[|] m e]; cbn; auto.
  destruct (SFsqrt_core_binary prec emax (Z.pos m) e) as [[mz ez] lz].
  unfold binary_round_aux.
  destruct (shr_fexp prec emax mz ez lz) as [mrs' e'].
  destruct (shr_fexp prec emax _ e' loc_Exact) as [mrs'' e''].
  destruct (shr_m mrs''); auto.
  destruct (e'' <=? emax - prec)%Z; auto.
Qed.

Lemma is_finite_Prim2SF (x : float) :
  PrimFloat.is_finite x = true -> finite_sf (Prim2SF x).
Proof.
  unfold PrimFloat.is_finite, PrimFloat.is_nan, PrimFloat.is_infinity.
  rewrite !FloatAxioms.eqb_spec, abs_spec.
  change (Prim2SF infinity) with (S754_infinity false).
  destruct (Prim2SF x) as [s|s| |s m e]; cbn; auto.
  - destruct s; cbn; discriminate.
  - discriminate.
Qed.

(** A number with d binary digits is at least 2^(d-1). *)
Lemma digits2_pos_le (p : positive) :
  (2 ^ (Z.pos (digits2_pos p) - 1) <= Z.pos p)%Z.
Proof.
  induction p as [p IH|p IH|]; cbn [digits2_pos].
  - rewrite Pos2Z.inj_succ.
    replace (Z.succ (Z.pos (digits2_pos p)) - 1)%Z
      with (Z.succ (Z.pos (digits2_pos p) - 1)) by lia.
    rewrite Z.pow_succ_r by lia. lia.
  - rewrite Pos2Z.inj_succ.
    replace (Z.succ (Z.pos (digits2_pos p)) - 1)%Z
      with (Z.succ (Z.pos (digits2_pos p) - 1)) by lia.
    rewrite Z.pow_succ_r by lia. lia.
  - reflexivity.
Qed.

Lemma shr_1_m (mrs : shr_record) :
  (0 <= shr_m mrs)%Z -> shr_m (shr_1 mrs) = (shr_m mrs / 2)%Z.
Proof.
  destruct mrs as [m r s]. cbn [shr_m]. intros Hm. unfold shr_1.
  destruct m as [|[p|p|]|p]; cbn [shr_m]; try lia;
    first [ reflexivity
          | apply Z.div_unique with (r := 1%Z); lia
          | apply Z.div_unique with (r := 0%Z); lia ].
Qed.

Lemma iter_shr_1_m (q : positive) (mrs : shr_record) :
  (0 <= shr_m mrs)%Z ->
  shr_m (iter_pos shr_1 q mrs) = (shr_m mrs / 2 ^ Z.pos q)%Z.
Proof.
  revert mrs; induction q as [q IH|q IH|]; intros mrs Hm; cbn [iter_pos].
  - assert (H1 : (0 <= shr_m (shr_1 mrs))%Z)
      by (rewrite shr_1_m by lia; apply Z.div_pos; lia).
    assert (H2 : (0 <= shr_m (iter_pos shr_1 q (shr_1 mrs)))%Z)
      by (rewrite IH by lia; apply Z.div_pos; lia).
    rewrite IH, IH, shr_1_m by lia.
    rewrite !Z.div_div by lia. f_equal.
    rewrite (Pos2Z.inj_xI q).
    replace (2 * Z.pos q + 1)%Z with (1 + Z.pos q + Z.pos q)%Z by lia.
    rewrite !Z.pow_add_r by lia. change (2 ^ 1)%Z with 2%Z. ring.
  - assert (H2 : (0 <= shr_m (iter_pos shr_1 q mrs))%Z)
      by (rewrite IH by lia; apply Z.div_pos; lia).
    rewrite IH, IH by lia.
    rewrite !Z.div_div by lia. f_equal.
    rewrite (Pos2Z.inj_xO q).
    replace (2 * Z.pos q)%Z with (Z.pos q + Z.pos q)%Z by lia.
    rewrite !Z.pow_add_r by lia. ring.
  - rewrite shr_1_m by lia. reflexivity.
Qed.

(** Shifting a positive mantissa to its rounding exponent leaves it
    positive. *)
Lemma shr_fexp_pos (m e : Z) (l : location) :
  (0 < m)%Z -> (SpecFloat.emin prec emax <= e)%Z ->
  (0 < shr_m (fst (shr_fexp prec emax m e l)))%Z
  /\ (SpecFloat.emin prec emax <= snd (shr_fexp prec emax m e l))%Z.
Proof.
  intros Hm He. unfold shr_fexp, shr.
  assert (R : shr_m (shr_record_of_loc m l) = m)
    by (destruct l as [|[| |]]; reflexivity).
  destruct m as [|p|p]; try lia. cbn [Zdigits2].
  pose proof (digits2_pos_le p) as D.
  set (d := Z.pos (digits2_pos p)) in *.
  unfold fexp.
  destruct (Z.max (d + e - prec) (SpecFloat.emin prec emax) - e)%Z
    as [|q|q] eqn:N;
    cbn [fst snd]; try (rewrite R; lia).
  rewrite iter_shr_1_m by (rewrite R; lia). rewrite R.
  split; [|lia].
  assert (Q : Z.pos q = (d - prec)%Z) by lia.
  apply Z.div_str_pos. split; [lia|].
  eapply Z.le_trans; [|exact D].
  apply Z.pow_le_mono_r; [lia|]. rewrite Q. change prec with 53%Z. lia.
Qed.

Lemma binary_round_aux_pos (mx ex : Z) (lx : location) :
  (0 < mx)%Z -> (SpecFloat.emin prec emax <= ex)%Z ->
  match binary_round_aux prec emax false mx ex lx with
  | S754_finite false _ _ | S754_infinity false => True
  | _ => False
  end.
Proof.
  intros Hm He. unfold binary_round_aux.
  destruct (shr_fexp_pos mx ex lx Hm He) as [P1 E1].
  destruct (shr_fexp prec emax mx ex lx) as [mrs' e']. cbn [fst snd] in *.
  assert (P : (0 < round_nearest_even (shr_m mrs')
                                      (loc_of_shr_record mrs'))%Z).
  { unfold round_nearest_even.
    destruct (loc_of_shr_record mrs') as [|[| |]]; try lia.
    destruct (Z.even (shr_m mrs')); lia. }
  destruct (shr_fexp_pos _ e' loc_Exact P E1) as [P2 _].
  destruct (shr_fexp prec emax _ e' loc_Exact) as [mrs'' e''].
  cbn [fst] in P2.
  destruct (shr_m mrs''); try lia.
  destruct (e'' <=? emax - prec)%Z; exact I.
Qed.

Lemma binary_round_pos (p : positive) :
  match binary_round prec emax false p 0 with
  | S754_finite false _ _ | S754_infinity false => True
  | _ => False
  end.
Proof.
  unfold binary_round, shl_align.
  destruct (fexp prec emax (Z.pos (digits2_pos p) + 0) - 0)%Z
    as [|q|q] eqn:N.
  - apply binary_round_aux_pos; [lia|]. vm_compute. discriminate.
  - apply binary_round_aux_pos; [lia|]. vm_compute. discriminate.
  - apply binary_round_aux_pos; [lia|]. unfold fexp in *. lia.
Qed.

(** A count from 1 to 2^63 - 1 converts to a double above zero. *)
Lemma count_as_double_positive (n : nat) :
  1 <= n -> (Z.of_nat n < 2 ^ 63)%Z ->
  (0 <? F64.of_Z (Z.of_nat n))%float = true.
Proof.
  intros L U. unfold F64.of_Z.
  destruct (Z.of_nat n) as [|p|p] eqn:E; try lia.
  rewrite FloatAxioms.ltb_spec, of_uint63_spec, Prim2SF_zero.
  rewrite Uint63.of_Z_spec.
  rewrite Z.mod_small by (change Uint63.wB with (2 ^ 63)%Z; lia).
  cbn [binary_normalize].
  pose proof (binary_round_pos p) as B.
  destruct (binary_round prec emax false p 0) as [s|s| |s m e];
    try contradiction; destruct s; try contradiction; reflexivity.
Qed.

Lemma zero_div_pos (c : float) :
  (0 <? c)%float = true -> (0 / c)%float = 0%float.
Proof.
  rewrite FloatAxioms.ltb_spec, Prim2SF_zero. intros L.
  apply Prim2SF_inj. rewrite div_spec, Prim2SF_zero.
  unfold SF64div, SFdiv. unfold SFltb in L.
  destruct (Prim2SF c) as [s|s| |s m e]; cbn in *; try discriminate.
  - destruct s; [discriminate|reflexivity].
  - destruct s; [discriminate|reflexivity].
Qed.

Lemma SFeqb_finite_eq s1 m1 e1 s2 m2 e2 :
  SFeqb (S754_finite s1 m1 e1) (S754_finite s2 m2 e2) = true ->
  s1 = s2 /\ m1 = m2 /\ e1 = e2.
Proof.
  unfold SFeqb, SFcompare.
  destruct s1, s2; try discriminate;
    destruct (Z.compare e1 e2) eqn:E; try discriminate;
    destruct (Pos.compare_cont Eq m1 m2) eqn:M; try discriminate;
    intros _; apply Z.compare_eq in E; apply Pos.compare_eq in M;
    repeat split; assumption.
Qed.

(** The difference of a finite double and a double that compares equal to
    it is a zero. *)
Lemma sub_equal_is_zero (m p : float) :
  PrimFloat.is_finite m = true -> (p =? m)%float = true ->
  exists s, Prim2SF (m - p)%float = S754_zero s.
Proof.
  intros F E. apply is_finite_Prim2SF in F.
  rewrite FloatAxioms.eqb_spec in E. rewrite sub_spec.
  unfold SF64sub, SFsub.
  destruct (Prim2SF m) as [sm|sm| |sm mm em]; cbn in F; try contradiction;
    destruct (Prim2SF p) as [sp|sp| |sp mp ep];
    try (unfold SFeqb in E; cbn in E; discriminate);
    try (unfold SFeqb in E; cbn in E; destruct sp; discriminate);
    try (unfold SFeqb in E; cbn in E; destruct sm; discriminate).
  - destruct sm, sp; eauto.
  - destruct (SFeqb_finite_eq _ _ _ _ _ _ E) as (-> & -> & ->).
    rewrite Z.min_id, Z.sub_diag. cbn. eauto.
Qed.

Lemma square_error_exact (mp : float * float) :
  exactly_predicted mp = true ->
  ((fst mp - snd mp) * (fst mp - snd mp))%float = 0%float.
Proof.
  unfold exactly_predicted. intros E. apply andb_prop in E.
  destruct E as [F E].
  destruct (sub_equal_is_zero _ _ F E) as [s Z].
  apply Prim2SF_inj. rewrite mul_spec, Z. destruct s; reflexivity.
Qed.

(** A zero over a double above zero, taken from 1, leaves 1. *)
Lemma one_minus_zero_quotient (x d : float) :
  (x =? 0)%float = true -> (0 <? d)%float = true ->
  (1 - x / d)%float = 1%float.
Proof.
  rewrite FloatAxioms.eqb_spec, FloatAxioms.ltb_spec, Prim2SF_zero.
  intros X D.
  apply Prim2SF_inj. rewrite sub_spec, div_spec.
  unfold SF64sub, SF64div, SFeqb, SFltb in *.
  destruct (Prim2SF x) as [sx|sx| |sx mx ex]; cbn in X; try discriminate;
    try (destruct sx; discriminate).
  destruct (Prim2SF d) as [sd|sd| |sd md ed]; cbn in D; try discriminate;
    destruct sd; try discriminate; destruct sx; reflexivity.
Qed.

(** NaN goes through the operations of the metrics. *)
Lemma nan_sub (x y : float) :
  PrimFloat.is_nan x || PrimFloat.is_nan y = true ->
  PrimFloat.is_nan (x - y)%float = true.
Proof.
  intros E. apply orb_prop in E. rewrite is_nan_Prim2SF, sub_spec.
  destruct E as [E|E]; apply is_nan_Prim2SF in E; rewrite E;
    [reflexivity|].
  unfold SF64sub, SFsub. destruct (Prim2SF x); reflexivity.
Qed.

Lemma nan_square (x : float) :
  PrimFloat.is_nan x = true -> PrimFloat.is_nan (x * x)%float = true.
Proof.
  rewrite !is_nan_Prim2SF, mul_spec. intros E. rewrite E. reflexivity.
Qed.

Lemma nan_add (x y : float) :
  PrimFloat.is_nan x || PrimFloat.is_nan y = true ->
  PrimFloat.is_nan (x + y)%float = true.
Proof.
  intros E. apply orb_prop in E. rewrite is_nan_Prim2SF, add_spec.
  destruct E as [E|E]; apply is_nan_Prim2SF in E; rewrite E;
    [reflexivity|].
  unfold SF64add, SFadd. destruct (Prim2SF x); reflexivity.
Qed.

Lemma nan_div (x y : float) :
  PrimFloat.is_nan x = true -> PrimFloat.is_nan (x / y)%float = true.
Proof.
  rewrite !is_nan_Prim2SF, div_spec. intros E. rewrite E. reflexivity.
Qed.

Lemma nan_sqrt (x : float) :
  PrimFloat.is_nan x = true -> PrimFloat.is_nan (PrimFloat.sqrt x) = true.
Proof.
  rewrite !is_nan_Prim2SF, sqrt_spec. intros E. rewrite E. reflexivity.
Qed.

(** ** The metrics in binary64 *)

Section Binary64Metrics.
Variable kMaxSize : nat.
Variable GetAbbreviation : string -> string.
Variable GetMeanTimeDelta : Storage float -> float.
Context {SimpleMotorSim ElevatorSim ArmSim : Type}.
Context `{MechanismModel float SimpleMotorSim}.
Context `{MechanismModel float ElevatorSim}.
Context `{MechanismModel float ArmSim}.
Variable mkSimpleMotorSim : float -> float -> float -> SimpleMotorSim.
Variable mkElevatorSim : float -> float -> float -> float -> ElevatorSim.
Variable mkArmSim : float -> float -> float -> float -> ArmSim.

Local Abbreviation set_data :=
  (SetData kMaxSize GetAbbreviation GetMeanTimeDelta
           mkSimpleMotorSim mkElevatorSim mkArmSim).
Local Abbreviation pairs_of type ffGains startTimes rawData :=
  (sim_contributions mkSimpleMotorSim mkElevatorSim mkArmSim type ffGains
                     startTimes (slow rawData)
   ++ sim_contributions mkSimpleMotorSim mkElevatorSim mkArmSim type ffGains
                        startTimes (fast rawData)).

(** Pairs that are predicted exactly leave a total squared error of zero at
    zero. *)
Lemma accumulate_exact (g : Sums float) (l : list (float * float)) :
  forallb exactly_predicted l = true ->
  simSquaredErrorSum g = 0%float ->
  simSquaredErrorSum (accumulate g l) = 0%float.
Proof.
  revert g; induction l as [|mp l IH]; intros g F Z; [exact Z|].
  cbn [forallb] in F. apply andb_prop in F. destruct F as [F1 F2].
  change (accumulate g (mp :: l)) with (accumulate (accumulate g [mp]) l).
  apply IH; [exact F2|].
  cbn. unfold s_pow2. cbn [s_sub s_mul Scalar_float].
  rewrite (square_error_exact mp F1), Z. reflexivity.
Qed.

(** A total squared error that is NaN stays NaN, and a pair of which one
    velocity is NaN makes it NaN. *)
Lemma accumulate_keeps_nan (g : Sums float) (l : list (float * float)) :
  PrimFloat.is_nan (simSquaredErrorSum g) = true ->
  PrimFloat.is_nan (simSquaredErrorSum (accumulate g l)) = true.
Proof.
  revert g; induction l as [|mp l IH]; intros g N; [exact N|].
  change (accumulate g (mp :: l)) with (accumulate (accumulate g [mp]) l).
  apply IH. cbn. apply nan_add. rewrite N. reflexivity.
Qed.

Lemma accumulate_nan (g : Sums float) (l : list (float * float)) :
  existsb has_nan l = true ->
  PrimFloat.is_nan (simSquaredErrorSum (accumulate g l)) = true.
Proof.
  revert g; induction l as [|mp l IH]; intros g E; [discriminate|].
  change (accumulate g (mp :: l)) with (accumulate (accumulate g [mp]) l).
  cbn [existsb] in E. apply orb_prop in E. destruct E as [E|E].
  - apply accumulate_keeps_nan. cbn. apply nan_add.
    unfold s_pow2. cbn [s_sub s_mul Scalar_float].
    rewrite (nan_square _ (nan_sub _ _ E)). apply orb_true_r.
  - apply IH, E.
Qed.

(** C6.  After a pass that was not aborted the accumulators hold the totals
    over the contributing samples of both raw runs, and m_RMSE is the square
    root, in binary64, of the total squared error over their count.  It is
    never negative, but it can be NaN: whatever the input, m_RMSE is NaN or
    not below 0, and it is NaN as soon as the measured or the predicted
    velocity of one contributing sample is NaN.  With at least one
    contributing sample, and no more than an int counts, m_RMSE is exactly 0
    when at every contributing sample the measured velocity is finite and the
    predicted velocity equals it. *)
Theorem SetData_rmse
    (rawData filteredData : Storage float) (unit : string)
    (ffGains startTimes : list float) (type : AnalysisType)
    (abort : nat -> bool) (st : AnalyzerPlot float) :
  returned (set_data rawData filteredData unit ffGains startTimes type
                     abort st) = false ->
  let s := state (set_data rawData filteredData unit ffGains startTimes type
                           abort st) in
  let pairs := pairs_of type ffGains startTimes rawData in
  sums s = accumulate sums0 pairs
  /\ m_RMSE s
     = PrimFloat.sqrt
         (simSquaredErrorSum (sums s)
          / F64.of_Z (Z.of_nat (timeSeriesPoints (sums s))))%float
  /\ (PrimFloat.is_nan (m_RMSE s) = true
      \/ (0 <=? m_RMSE s)%float = true)
  /\ (existsb has_nan pairs = true -> PrimFloat.is_nan (m_RMSE s) = true)
  /\ (1 <= length pairs -> (Z.of_nat (length pairs) < 2 ^ 31)%Z ->
      forallb exactly_predicted pairs = true ->
      m_RMSE s = 0%float).
Proof.
  intros Rt. cbn zeta.
  destruct (SetData_metrics kMaxSize GetAbbreviation GetMeanTimeDelta
              mkSimpleMotorSim mkElevatorSim mkArmSim
              rawData filteredData unit ffGains startTimes type abort st Rt)
    as (E & E1 & _).
  split; [exact E|]. split; [exact E1|].
  split; [rewrite E1; apply sqrt_nan_or_nonneg|].
  split.
  { intros N. rewrite E1. unfold rmse. cbn [s_sqrt s_div Scalar_float].
    apply nan_sqrt, nan_div. rewrite E. apply accumulate_nan, N. }
  intros L U F. rewrite E1. unfold rmse. cbn [s_sqrt s_div s_of_Z Scalar_float].
  rewrite E, accumulate_count.
  rewrite (accumulate_exact sums0 _ F) by reflexivity.
  cbn [timeSeriesPoints sums0 Nat.add].
  rewrite zero_div_pos by (apply count_as_double_positive; lia).
  reflexivity.
Qed.

(** C7.  After a pass that was not aborted, m_RSquared is, in binary64,
    1 - m_RMSE / sqrt(total squared measured velocity / count).  If m_RMSE
    equals 0 and that square root, as computed, is above 0, m_RSquared is
    exactly 1.  (That the total is not zero is not enough: see
    [tiny_variance_r_squared_is_nan].) *)
Theorem SetData_r_squared
    (rawData filteredData : Storage float) (unit : string)
    (ffGains startTimes : list float) (type : AnalysisType)
    (abort : nat -> bool) (st : AnalyzerPlot float) :
  returned (set_data rawData filteredData unit ffGains startTimes type
                     abort st) = false ->
  let s := state (set_data rawData filteredData unit ffGains startTimes type
                           abort st) in
  let root :=
    PrimFloat.sqrt
      (squaredVariationSum (sums s)
       / F64.of_Z (Z.of_nat (timeSeriesPoints (sums s))))%float in
  m_RSquared s = (1 - m_RMSE s / root)%float
  /\ ((m_RMSE s =? 0)%float = true -> (0 <? root)%float = true ->
      m_RSquared s = 1%float).
Proof.
  intros Rt. cbn zeta.
  destruct (SetData_metrics kMaxSize GetAbbreviation GetMeanTimeDelta
              mkSimpleMotorSim mkElevatorSim mkArmSim
              rawData filteredData unit ffGains startTimes type abort st Rt)
    as (_ & E1 & E2).
  assert (E3 : m_RSquared
                 (state (set_data rawData filteredData unit ffGains
                                  startTimes type abort st))
               = (1 - m_RMSE
                        (state (set_data rawData filteredData unit ffGains
                                         startTimes type abort st))
                      / PrimFloat.sqrt
                          (squaredVariationSum
                             (sums (state (set_data rawData filteredData unit
                                             ffGains startTimes type abort
                                             st)))
                           / F64.of_Z
                               (Z.of_nat
                                  (timeSeriesPoints
                                     (sums (state (set_data rawData
                                                     filteredData unit ffGains
                                                     startTimes type abort
                                                     st)))))))%float)
    by (rewrite E2, E1; reflexivity).
  split; [exact E3|].
  intros Z P. rewrite E3. apply one_minus_zero_quotient; assumption.
Qed.
End Binary64Metrics.

(** ** The metrics on concrete data, in binary64 *)

(** C6 as stated fails.  A complete pass over a run of finite samples, with
    four contributing samples: the stand-in simulator integrates the first
    voltage to +infinity and the second to infinity - infinity, the squared
    error is NaN, and m_RMSE is NaN, which is not at or above 0. *)
Lemma rmse_of_finite_run_is_nan :
  forallb finite_sample Edge.surge = true
  /\ returned (Edge.pass Edge.surge) = false
  /\ timeSeriesPoints (sums (state (Edge.pass Edge.surge))) = 4
  /\ PrimFloat.is_nan (m_RMSE (state (Edge.pass Edge.surge))) = true
  /\ (0 <=? m_RMSE (state (Edge.pass Edge.surge)))%float = false.
Proof. vm_compute. repeat split. Qed.

(** C7 as stated fails.  A complete pass over a run that is predicted
    exactly, with four contributing samples: m_RMSE is 0 and the total
    squared measured velocity is 2^-1073, not zero, but a quarter of it
    rounds to zero and m_RSquared is NaN, not 1. *)
Lemma tiny_variance_r_squared_is_nan :
  returned (Edge.pass Edge.faint) = false
  /\ timeSeriesPoints (sums (state (Edge.pass Edge.faint))) = 4
  /\ m_RMSE (state (Edge.pass Edge.faint)) = 0%float
  /\ (squaredVariationSum (sums (state (Edge.pass Edge.faint))) =? 0)%float
     = false
  /\ squaredVariationSum (sums (state (Edge.pass Edge.faint)))
     = 0x1p-1073%float
  /\ PrimFloat.is_nan (m_RSquared (state (Edge.pass Edge.faint))) = true.
Proof. vm_compute. repeat split. Qed.

Lemma steady_pass_completed : returned (Edge.pass Edge.steady) = false.
Proof.
  apply (SetData_never_returned
           Demo.kMaxSize Demo.GetAbbreviation Demo.GetMeanTimeDelta
           Demo.mkSim3 Demo.mkSim4 Demo.mkSim4).
Qed.

Lemma SetData_rmse_witness :
  (returned (Edge.pass Edge.steady) = false
   /\ forallb exactly_predicted
        (sim_contributions Demo.mkSim3 Demo.mkSim4 Demo.mkSim4 kSimple
           Demo.scenario_gains Demo.starts_far Edge.steady
         ++ sim_contributions Demo.mkSim3 Demo.mkSim4 Demo.mkSim4 kSimple
              Demo.scenario_gains Demo.starts_far Edge.steady) = true) /\
  m_RMSE (state (Edge.pass Edge.steady)) = 0%float.
Proof.
  assert (F : forallb exactly_predicted
                (sim_contributions Demo.mkSim3 Demo.mkSim4 Demo.mkSim4 kSimple
                   Demo.scenario_gains Demo.starts_far Edge.steady
                 ++ sim_contributions Demo.mkSim3 Demo.mkSim4 Demo.mkSim4
                      kSimple Demo.scenario_gains Demo.starts_far Edge.steady)
              = true)
    by (vm_compute; reflexivity).
  split; [split; [exact steady_pass_completed | exact F]|].
  destruct (SetData_rmse
              Demo.kMaxSize Demo.GetAbbreviation Demo.GetMeanTimeDelta
              Demo.mkSim3 Demo.mkSim4 Demo.mkSim4
              (Edge.twice Edge.steady) (Edge.twice Edge.steady)
              "Meters"%string Demo.scenario_gains Demo.starts_far kSimple
              Demo.never Demo.fresh steady_pass_completed)
    as (_ & _ & _ & _ & Z).
  apply Z; [vm_compute; lia | vm_compute; reflexivity | exact F].
Defined.

Lemma SetData_r_squared_witness :
  (returned (Edge.pass Edge.steady) = false
   /\ (m_RMSE (state (Edge.pass Edge.steady)) =? 0)%float = true
   /\ (0 <? PrimFloat.sqrt
              (squaredVariationSum (sums (state (Edge.pass Edge.steady)))
               / F64.of_Z
                   (Z.of_nat
                      (timeSeriesPoints
                         (sums (state (Edge.pass Edge.steady)))))))%float
      = true) /\
  m_RSquared (state (Edge.pass Edge.steady)) = 1%float.
Proof.
  assert (Z : (m_RMSE (state (Edge.pass Edge.steady)) =? 0)%float = true)
    by (vm_compute; reflexivity).
  assert (P : (0 <? PrimFloat.sqrt
                      (squaredVariationSum
                         (sums (state (Edge.pass Edge.steady)))
                       / F64.of_Z
                           (Z.of_nat
                              (timeSeriesPoints
                                 (sums (state (Edge.pass Edge.steady)))))))%float
              = true)
    by (vm_compute; reflexivity).
  split; [split; [exact steady_pass_completed | split; [exact Z | exact P]]|].
  exact (proj2 (SetData_r_squared
                  Demo.kMaxSize Demo.GetAbbreviation Demo.GetMeanTimeDelta
                  Demo.mkSim3 Demo.mkSim4 Demo.mkSim4
                  (Edge.twice Edge.steady) (Edge.twice Edge.steady)
                  "Meters"%string Demo.scenario_gains Demo.starts_far kSimple
                  Demo.never Demo.fresh steady_pass_completed) Z P).
Defined.

(** ** A complete pass on the reals *)

Lemma shown_steady_completed : returned Demo.shown_steady = false.
Proof.
  apply (SetData_never_returned
           Demo.kMaxSize Demo.GetAbbreviation Demo.GetMeanTimeDelta
           Demo.mkSim3 Demo.mkSim4 Demo.mkSim4).
Qed.

(** * Further properties of the passes *)

(** ** How the abort flag is read *)

Lemma completed_clear abort k m i :
  i < completed abort k m -> abort (k + i) = false.
Proof.
  revert k i; induction m as [|m IH]; intros k i; simpl; [lia|].
  destruct (abort k) eqn:A; [lia|].
  destruct i as [|i]; intros Hi.
  - rewrite Nat.add_0_r. exact A.
  - replace (k + S i) with (S k + i) by lia. apply IH. lia.
Qed.

Lemma completed_set abort k m :
  completed abort k m < m -> abort (k + completed abort k m) = true.
Proof.
  revert k; induction m as [|m IH]; intros k; simpl; [lia|].
  destruct (abort k) eqn:A; intros Hlt.
  - rewrite Nat.add_0_r. exact A.
  - replace (k + S (completed abort (S k) m))
      with (S k + completed abort (S k) m) by lia.
    apply IH. lia.
Qed.

(** One strided loop: it reads the flag once per iteration it starts; every
    read but the one it returns at saw the flag clear. *)
Lemma for_stride_polls {St : Type} abort (body : nat -> St -> St) n step k st :
  let r := for_stride abort body n step k st in
  k <= reads r
  /\ reads r <= k + length (visited n step)
  /\ (returned r = false ->
      clear_between abort k (reads r)
      /\ reads r = k + length (visited n step))
  /\ (returned r = true ->
      k < reads r /\ clear_between abort k (reads r - 1)
      /\ abort (reads r - 1) = true).
Proof.
  cbn zeta. unfold for_stride. rewrite stride_loop_spec. cbn zeta.
  fold (visited n step).
  set (len := length (visited n step)).
  set (j := completed abort k len).
  pose proof (completed_le abort k len) as Hle. fold j in Hle.
  cbn [reads returned].
  destruct (j <? len) eqn:E.
  - apply Nat.ltb_lt in E. split; [lia|]. split; [lia|].
    split; [discriminate|]. intros _. split; [lia|].
    replace (k + j + 1 - 1) with (k + j) by lia. split.
    + intros i H1 H2. replace i with (k + (i - k)) by lia.
      apply (completed_clear abort k len). fold j. lia.
    + apply completed_set. exact E.
  - apply Nat.ltb_ge in E. split; [lia|]. split; [lia|].
    split; [|discriminate]. intros _. split; [|lia].
    intros i H1 H2. replace i with (k + (i - k)) by lia.
    apply (completed_clear abort k len). fold j. lia.
Qed.

Lemma clear_between_join abort a b c :
  clear_between abort a b -> clear_between abort b c ->
  clear_between abort a c.
Proof.
  intros H1 H2 i Ha Hc. destruct (Nat.lt_ge_cases i b); [apply H1 | apply H2]; lia.
Qed.

Lemma clear_between_shrink abort a b c :
  c <= b -> clear_between abort a b -> clear_between abort a c.
Proof. intros Hc H1 i Ha Hi. apply H1; lia. Qed.

Section Polling.
Context {T : Type} `{Scalar T}.
Variable kMaxSize : nat.
Variable GetAbbreviation : string -> string.
Variable GetMeanTimeDelta : Storage T -> T.
Context {SimpleMotorSim ElevatorSim ArmSim : Type}.
Context `{MechanismModel T SimpleMotorSim}.
Context `{MechanismModel T ElevatorSim}.
Context `{MechanismModel T ArmSim}.
Variable mkSimpleMotorSim : T -> T -> T -> SimpleMotorSim.
Variable mkElevatorSim : T -> T -> T -> T -> ElevatorSim.
Variable mkArmSim : T -> T -> T -> T -> ArmSim.

Local Abbreviation Plot := (AnalyzerPlot T).
Local Abbreviation set_data :=
  (SetData kMaxSize GetAbbreviation GetMeanTimeDelta
           mkSimpleMotorSim mkElevatorSim mkArmSim).
Local Abbreviation count l :=
  (length (visited (length l) (stride kMaxSize (length l)))).

(** The two loops of SetRawTimeData, read as one. *)
Lemma SetRawTimeData_polls rs rf abort k (st : Plot) :
  let r := SetRawTimeData kMaxSize rs rf abort k st in
  k <= reads r
  /\ reads r <= k + count rs + count rf
  /\ (returned r = false ->
      clear_between abort k (reads r)
      /\ reads r = k + count rs + count rf)
  /\ (returned r = true ->
      k < reads r /\ clear_between abort k (reads r - 1)
      /\ abort (reads r - 1) = true).
Proof.
  cbn zeta. unfold SetRawTimeData.
  set (r1 := for_stride abort (raw_body 2 3 rs) (length rs)
               (stride kMaxSize (length rs)) k st).
  destruct (for_stride_polls abort (raw_body 2 3 rs) (length rs)
              (stride kMaxSize (length rs)) k st) as (A1 & A2 & A3 & A4).
  fold r1 in A1, A2, A3, A4.
  destruct (returned r1) eqn:R1.
  - destruct (A4 eq_refl) as (B1 & B2 & B3).
    split; [exact A1|]. split; [lia|]. split; [congruence|].
    intros _. auto.
  - destruct (A3 eq_refl) as (B1 & B2).
    destruct (for_stride_polls abort (raw_body 4 5 rf) (length rf)
                (stride kMaxSize (length rf)) (reads r1) (state r1))
      as (C1 & C2 & C3 & C4).
    split; [lia|]. split; [lia|]. split.
    + intros R. destruct (C3 R) as (D1 & D2). split; [|lia].
      eapply clear_between_join; eassumption.
    + intros R. destruct (C4 R) as (D1 & D2 & D3).
      split; [lia|]. split; [|exact D3].
      eapply clear_between_join; [|exact D2].
      eapply clear_between_shrink; [|exact B1]. lia.
Qed.

(** SetData reads the abort flag once at the head of every iteration of its
    four strided loops and nowhere else: the number of reads never exceeds
    the number of iterations the loops make when the flag stays clear, and
    equals it when the flag is never seen set.  Every read but the last saw
    the flag clear, so no iteration starts after the flag has been seen set;
    a call that left through [return] saw it set at its last read. *)
Theorem SetData_polls_once_per_iteration
    (rawData filteredData : Storage T) (unit : string)
    (ffGains startTimes : list T) (type : AnalysisType)
    (abort : nat -> bool) (st : Plot) :
  let r := set_data rawData filteredData unit ffGains startTimes type
                    abort st in
  reads r <= iterations kMaxSize rawData filteredData
  /\ clear_between abort 0 (reads r - 1)
  /\ (returned r = true -> 1 <= reads r /\ abort (reads r - 1) = true)
  /\ ((forall i, abort i = false) ->
      returned r = false
      /\ reads r = iterations kMaxSize rawData filteredData).
Proof.
  cbn zeta. unfold SetData, iterations. cbn zeta.
  set (st0 := ResetData (SetGraphLabels GetAbbreviation unit st)).
  unfold slow_loop, fast_loop.
  set (bs := slow_body _ _ _ _ _ _).
  set (bf := fast_body _ _ _ _ _ _).
  set (ns := length (slow filteredData)). set (nf := length (fast filteredData)).
  destruct (for_stride_polls abort bs ns (stride kMaxSize ns) 0 st0)
    as (A1 & A2 & A3 & A4).
  set (r1 := for_stride abort bs ns (stride kMaxSize ns) 0 st0) in *.
  destruct (for_stride_polls abort bf nf (stride kMaxSize nf)
              (reads r1) (state r1)) as (B1 & B2 & B3 & B4).
  set (r2 := for_stride abort bf nf (stride kMaxSize nf) (reads r1) (state r1))
    in *.
  destruct (returned r1) eqn:R1.
  { destruct (A4 eq_refl) as (X1 & X2 & X3).
    split; [lia|]. split; [exact X2|]. split; [intros _; split; [lia | exact X3]|].
    intros N. rewrite N in X3. discriminate. }
  destruct (A3 eq_refl) as (X1 & X2).
  destruct (returned r2) eqn:R2.
  { destruct (B4 eq_refl) as (Y1 & Y2 & Y3).
    split; [lia|]. split.
    - eapply clear_between_join; [|exact Y2].
      eapply clear_between_shrink; [|exact X1]. lia.
    - split; [intros _; split; [lia | exact Y3]|].
      intros N. rewrite N in Y3. discriminate. }
  destruct (B3 eq_refl) as (Y1 & Y2).
  unfold finish_SetData. cbn [reads returned].
  match goal with
  | |- context [SetRawTimeData kMaxSize ?rs ?rf abort ?k ?s] =>
      destruct (SetRawTimeData_polls rs rf abort k s) as (C1 & C2 & C3 & C4);
      set (r3 := SetRawTimeData kMaxSize rs rf abort k s) in *
  end.
  assert (X02 : clear_between abort 0 (reads r2))
    by (eapply clear_between_join; eassumption).
  split; [lia|]. split.
  - destruct (returned r3) eqn:R3.
    + destruct (C4 eq_refl) as (Z1 & Z2 & Z3).
      eapply clear_between_join; [|exact Z2].
      eapply clear_between_shrink; [|exact X02]. lia.
    + destruct (C3 eq_refl) as (Z1 & Z2).
      eapply clear_between_shrink; [|eapply clear_between_join; eassumption].
      lia.
  - split; [discriminate|].
    intros N. split; [reflexivity|].
    destruct (returned r3) eqn:R3.
    + destruct (C4 eq_refl) as (Z1 & Z2 & Z3). rewrite N in Z3. discriminate.
    + destruct (C3 eq_refl) as (Z1 & Z2). lia.
Qed.
End Polling.

(** ** What a pass keeps of the plot it starts from *)

Lemma run_body_rel {St : Type} (R : St -> St -> Prop) (body : nat -> St -> St)
    idx (s s' : St) :
  (forall i a b, R a b -> R (body i a) (body i b)) ->
  R s s' -> R (run_body body idx s) (run_body body idx s').
Proof.
  intros P. revert s s'; induction idx as [|i l IH]; intros s s' E;
    [exact E|].
  simpl. apply IH, P, E.
Qed.

(** Which iterations a strided loop runs depends on the flag alone, not on
    the state. *)
Lemma for_stride_rel {St : Type} (R : St -> St -> Prop) abort
    (body : nat -> St -> St) n step k (s s' : St) :
  (forall i a b, R a b -> R (body i a) (body i b)) ->
  R s s' ->
  returned (for_stride abort body n step k s)
    = returned (for_stride abort body n step k s')
  /\ reads (for_stride abort body n step k s)
    = reads (for_stride abort body n step k s')
  /\ R (state (for_stride abort body n step k s))
       (state (for_stride abort body n step k s')).
Proof.
  intros P E. unfold for_stride. rewrite !stride_loop_spec. cbn zeta.
  cbn [returned reads state]. repeat split. apply run_body_rel; assumption.
Qed.

Lemma map_true_length (l l' : list bool) :
  length l = length l' ->
  map (fun _ => true) l = map (fun _ => true) l'.
Proof.
  revert l'; induction l as [|a l IH]; intros [|b l'] E; simpl in *;
    try discriminate; [reflexivity|].
  f_equal. apply IH. lia.
Qed.

Lemma map_true_repeat (l : list bool) :
  map (fun _ => true) l = repeat true (length l).
Proof. induction l as [|a l IH]; simpl; [reflexivity|]. f_equal. exact IH. Qed.

Section PassMore.
Context {T : Type} `{Scalar T}.
Variable kMaxSize : nat.
Variable GetAbbreviation : string -> string.
Variable GetMeanTimeDelta : Storage T -> T.
Context {SimpleMotorSim ElevatorSim ArmSim : Type}.
Context `{MechanismModel T SimpleMotorSim}.
Context `{MechanismModel T ElevatorSim}.
Context `{MechanismModel T ArmSim}.
Variable mkSimpleMotorSim : T -> T -> T -> SimpleMotorSim.
Variable mkElevatorSim : T -> T -> T -> T -> ElevatorSim.
Variable mkArmSim : T -> T -> T -> T -> ArmSim.

Local Abbreviation Plot := (AnalyzerPlot T).
Local Abbreviation set_data :=
  (SetData kMaxSize GetAbbreviation GetMeanTimeDelta
           mkSimpleMotorSim mkElevatorSim mkArmSim).
Local Abbreviation set_raw_data := (SetRawData kMaxSize GetAbbreviation).
Local Abbreviation finish :=
  (finish_SetData kMaxSize GetMeanTimeDelta
                  mkSimpleMotorSim mkElevatorSim mkArmSim).
Local Abbreviation sim :=
  (simulate mkSimpleMotorSim mkElevatorSim mkArmSim).

Ltac kept := intros; reflexivity.

Lemma slow_body_rel ty ff stt l mn mx i (a b : Plot) :
  same_but_metrics a b ->
  same_but_metrics (slow_body ty ff stt l mn mx i a)
                   (slow_body ty ff stt l mn mx i b).
Proof.
  intros (E1 & E2 & E3 & E4 & E5 & E6 & E7 & E8 & E9 & E10 & E11).
  unfold same_but_metrics, slow_body, with_filtered, with_KvFit.
  cbn [m_filteredData m_rawData m_dtMeanLine m_quasistaticSim m_dynamicSim
       m_KvFit m_KaFit m_fitNextPlot m_velocityLabel m_accelerationLabel sums].
  rewrite E1. repeat (split; [assumption || reflexivity|]). assumption.
Qed.

Lemma fast_body_rel ty ff stt l mn mx i (a b : Plot) :
  same_but_metrics a b ->
  same_but_metrics (fast_body ty ff stt l mn mx i a)
                   (fast_body ty ff stt l mn mx i b).
Proof.
  intros (E1 & E2 & E3 & E4 & E5 & E6 & E7 & E8 & E9 & E10 & E11).
  unfold same_but_metrics, fast_body, with_filtered, with_KaFit.
  cbn [m_filteredData m_rawData m_dtMeanLine m_quasistaticSim m_dynamicSim
       m_KvFit m_KaFit m_fitNextPlot m_velocityLabel m_accelerationLabel sums].
  rewrite E1. repeat (split; [assumption || reflexivity|]). assumption.
Qed.

Lemma raw_body_rel cv ca l i (a b : Plot) :
  same_but_metrics a b ->
  same_but_metrics (raw_body cv ca l i a) (raw_body cv ca l i b).
Proof.
  intros (E1 & E2 & E3 & E4 & E5 & E6 & E7 & E8 & E9 & E10 & E11).
  unfold same_but_metrics, raw_body, with_raw.
  cbn [m_filteredData m_rawData m_dtMeanLine m_quasistaticSim m_dynamicSim
       m_KvFit m_KaFit m_fitNextPlot m_velocityLabel m_accelerationLabel sums].
  rewrite E2. repeat (split; [assumption || reflexivity|]). assumption.
Qed.

Lemma SetRawTimeData_rel rs rf abort k (a b : Plot) :
  same_but_metrics a b ->
  returned (SetRawTimeData kMaxSize rs rf abort k a)
    = returned (SetRawTimeData kMaxSize rs rf abort k b)
  /\ reads (SetRawTimeData kMaxSize rs rf abort k a)
    = reads (SetRawTimeData kMaxSize rs rf abort k b)
  /\ same_but_metrics (state (SetRawTimeData kMaxSize rs rf abort k a))
                      (state (SetRawTimeData kMaxSize rs rf abort k b)).
Proof.
  intros E. unfold SetRawTimeData.
  destruct (for_stride_rel same_but_metrics abort (raw_body 2 3 rs)
              (length rs) (stride kMaxSize (length rs)) k a b
              (raw_body_rel 2 3 rs) E) as (R1 & R2 & R3).
  rewrite <- R1.
  destruct (returned (for_stride abort (raw_body 2 3 rs) (length rs)
                        (stride kMaxSize (length rs)) k a)) eqn:Ra.
  - split; [congruence | split; [exact R2 | exact R3]].
  - rewrite <- R2. apply for_stride_rel; [apply raw_body_rel | exact R3].
Qed.

(** Once both loops of SetData have ended, what follows overwrites the
    metrics: two plots that differ in them alone end up the same. *)
Lemma finish_rel rd fd ff stt ty abort k (a b : Plot) :
  same_but_metrics a b ->
  finish rd fd ff stt ty abort k a = finish rd fd ff stt ty abort k b.
Proof.
  intros E. unfold finish_SetData. cbn zeta.
  destruct E as (E1 & E2 & E3 & E4 & E5 & E6 & E7 & E8 & E9 & E10 & E11).
  lazymatch goal with
  | |- ?L = ?R =>
      lazymatch L with
      | context [SetRawTimeData kMaxSize ?rs ?rf abort k ?sa] =>
          lazymatch R with
          | context [SetRawTimeData kMaxSize rs rf abort k ?sb] =>
              destruct (SetRawTimeData_rel rs rf abort k sa sb)
                as (_ & R2 & R3);
              [ unfold same_but_metrics;
                cbn [m_filteredData m_rawData m_dtMeanLine m_quasistaticSim
                     m_dynamicSim m_KvFit m_KaFit m_fitNextPlot
                     m_velocityLabel m_accelerationLabel sums];
                rewrite E3;
                repeat (split; [assumption || reflexivity|]); assumption
              | set (ra := SetRawTimeData kMaxSize rs rf abort k sa) in *;
                set (rb := SetRawTimeData kMaxSize rs rf abort k sb) in * ]
          end
      end
  end.
  destruct R3 as (F1 & F2 & F3 & F4 & F5 & F6 & F7 & F8 & F9 & F10 & F11).
  unfold FitPlots.
  cbn [m_filteredData m_rawData m_dtMeanLine m_quasistaticSim m_dynamicSim
       m_KvFit m_KaFit m_fitNextPlot m_velocityLabel m_accelerationLabel sums
       m_RMSE m_RSquared].
  rewrite R2, F1, F2, F3, F6, F7, F8, F9, F10, F11. reflexivity.
Qed.

Lemma reset_rel unit (st st' : Plot) :
  length (m_fitNextPlot st) = length (m_fitNextPlot st') ->
  same_but_metrics (ResetData (SetGraphLabels GetAbbreviation unit st))
                   (ResetData (SetGraphLabels GetAbbreviation unit st')).
Proof.
  intros L. unfold same_but_metrics, ResetData, SetGraphLabels, FitPlots.
  cbn [m_filteredData m_rawData m_dtMeanLine m_quasistaticSim m_dynamicSim
       m_KvFit m_KaFit m_fitNextPlot m_velocityLabel m_accelerationLabel sums].
  rewrite (map_true_length _ _ L).
  repeat (split; [reflexivity|]). reflexivity.
Qed.

(** A pass takes nothing from the plot it starts on but m_RMSE and
    m_RSquared (and the number of fit flags, which is fixed in the class).
    Run on two plots, the same call with the same readings of the flag makes
    the same reads, returns at the same place and leaves plots that differ at
    most in the two metrics; when it is not aborted it overwrites those too,
    and the two plots are equal. *)
Theorem SetData_forgets_previous_plot
    (rawData filteredData : Storage T) (unit : string)
    (ffGains startTimes : list T) (type : AnalysisType)
    (abort : nat -> bool) (st st' : Plot) :
  length (m_fitNextPlot st) = length (m_fitNextPlot st') ->
  let r := set_data rawData filteredData unit ffGains startTimes type
                    abort st in
  let r' := set_data rawData filteredData unit ffGains startTimes type
                     abort st' in
  returned r = returned r' /\ reads r = reads r'
  /\ same_but_metrics (state r) (state r')
  /\ (returned r = false -> state r = state r').
Proof.
  intros L. cbn zeta. unfold SetData. cbn zeta.
  pose proof (reset_rel unit st st' L) as E0.
  set (s0 := ResetData (SetGraphLabels GetAbbreviation unit st)) in *.
  set (s0' := ResetData (SetGraphLabels GetAbbreviation unit st')) in *.
  unfold slow_loop, fast_loop.
  set (bs := slow_body _ _ _ _ _ _). set (bf := fast_body _ _ _ _ _ _).
  set (ns := length (slow filteredData)). set (nf := length (fast filteredData)).
  destruct (for_stride_rel same_but_metrics abort bs ns (stride kMaxSize ns)
              0 s0 s0') as (A1 & A2 & A3);
    [intros; apply slow_body_rel; assumption | exact E0 |].
  rewrite <- A1, <- A2.
  set (r1 := for_stride abort bs ns (stride kMaxSize ns) 0 s0) in *.
  set (r1' := for_stride abort bs ns (stride kMaxSize ns) 0 s0') in *.
  destruct (returned r1) eqn:R1.
  { split; [congruence|]. split; [exact A2|]. split; [exact A3|].
    intros X. congruence. }
  destruct (for_stride_rel same_but_metrics abort bf nf (stride kMaxSize nf)
              (reads r1) (state r1) (state r1')) as (B1 & B2 & B3);
    [intros; apply fast_body_rel; assumption | exact A3 |].
  rewrite <- B1, <- B2.
  set (r2 := for_stride abort bf nf (stride kMaxSize nf) (reads r1) (state r1))
    in *.
  set (r2' := for_stride abort bf nf (stride kMaxSize nf) (reads r1) (state r1'))
    in *.
  destruct (returned r2) eqn:R2.
  { split; [congruence|]. split; [exact B2|]. split; [exact B3|].
    intros X. congruence. }
  rewrite (finish_rel rawData filteredData ffGains startTimes type abort
             (reads r2) (state r2) (state r2') B3).
  split; [reflexivity|]. split; [reflexivity|]. split; [|reflexivity].
  unfold same_but_metrics. repeat (split; [reflexivity|]). reflexivity.
Qed.
End PassMore.

(** ** The count of contributing samples *)

Section SimCount.
Context {T : Type} `{Scalar T}.
Context {M : Type} `{MechanismModel T M}.

Lemma contributions_length data startTimes (model : M) k :
  k <= length (tl data) ->
  length (contributions data startTimes model k)
  = length (filter (fun d => negb (is_start startTimes (timestamp d)))
                   (firstn k (tl data))).
Proof.
  induction k as [|k IH]; intros Hk; [reflexivity|].
  rewrite contributions_S, length_app, IH by lia.
  rewrite (firstn_snoc (tl data) k sample0) by lia.
  rewrite filter_snoc, length_app, <- at_S.
  destruct (is_start startTimes (timestamp (at_ data (S k)))); reflexivity.
Qed.

(** The simulator adds one to the count for every point it emits after the
    seed. *)
Lemma PopulateTimeDomainSim_count data startTimes step (model : M) g :
  timeSeriesPoints (snd (PopulateTimeDomainSim data startTimes step model g))
    + 1
  = timeSeriesPoints g
    + length (concat (fst (PopulateTimeDomainSim data startTimes step
                             model g))).
Proof.
  rewrite PopulateTimeDomainSim_sums, accumulate_count.
  unfold PopulateTimeDomainSim. cbn [fst].
  assert (L : length data - 1 = length (tl data))
    by (destruct data; simpl; lia).
  rewrite L, contributions_length by lia.
  destruct (sim_upto_shape data startTimes model g (length (tl data)))
    as [_ P]; [lia|].
  rewrite concat_app, length_app. simpl. rewrite app_nil_r. lia.
Qed.
End SimCount.

(** ** What the passes leave in the plot *)

Lemma run_body_keeps {St : Type} (P : St -> Prop) (body : nat -> St -> St)
    idx (s : St) :
  (forall i a, P a -> P (body i a)) -> P s -> P (run_body body idx s).
Proof.
  intros K. revert s; induction idx as [|i l IH]; intros s E; [exact E|].
  simpl. apply IH, K, E.
Qed.

Lemma for_stride_keeps {St : Type} (P : St -> Prop) abort
    (body : nat -> St -> St) n step k (s : St) :
  (forall i a, P a -> P (body i a)) -> P s ->
  P (state (for_stride abort body n step k s)).
Proof. intros K E. rewrite for_stride_state. apply run_body_keeps; assumption. Qed.

Section PassOutputs.
Context {T : Type} `{Scalar T}.
Variable kMaxSize : nat.
Variable GetAbbreviation : string -> string.
Variable GetMeanTimeDelta : Storage T -> T.
Context {SimpleMotorSim ElevatorSim ArmSim : Type}.
Context `{MechanismModel T SimpleMotorSim}.
Context `{MechanismModel T ElevatorSim}.
Context `{MechanismModel T ArmSim}.
Variable mkSimpleMotorSim : T -> T -> T -> SimpleMotorSim.
Variable mkElevatorSim : T -> T -> T -> T -> ElevatorSim.
Variable mkArmSim : T -> T -> T -> T -> ArmSim.

Local Abbreviation Plot := (AnalyzerPlot T).
Local Abbreviation set_data :=
  (SetData kMaxSize GetAbbreviation GetMeanTimeDelta
           mkSimpleMotorSim mkElevatorSim mkArmSim).
Local Abbreviation set_raw_data := (SetRawData kMaxSize GetAbbreviation).
Local Abbreviation finish :=
  (finish_SetData kMaxSize GetMeanTimeDelta
                  mkSimpleMotorSim mkElevatorSim mkArmSim).
Local Abbreviation sim :=
  (simulate mkSimpleMotorSim mkElevatorSim mkArmSim).
Local Abbreviation reset unit st :=
  (ResetData (SetGraphLabels GetAbbreviation unit st)).

Ltac kept := intros; reflexivity.

(** The series after one iteration of each loop. *)
Lemma slow_body_series ty ff stt l mn mx i (s : Plot) :
  let d := at_ l i in
  let f := m_filteredData s in
  let f' := m_filteredData (slow_body ty ff stt l mn mx i s) in
  f' 0 = f 0 ++ [(slow_Vportion ty ff d, velocity d)]
  /\ f' 2 = f 2 ++ [(timestamp d, velocity d)]
  /\ f' 3 = f 3 ++ [(timestamp d, acceleration d)]
  /\ f' 1 = f 1 /\ f' 4 = f 4 /\ f' 5 = f 5
  /\ m_rawData (slow_body ty ff stt l mn mx i s) = m_rawData s.
Proof.
  cbn zeta. unfold slow_body, with_filtered, with_KvFit, dt_point.
  cbn [m_filteredData m_rawData].
  destruct (emits_dt stt (at_ l i) i); repeat split.
Qed.

Lemma fast_body_series ty ff stt l mn mx i (s : Plot) :
  let d := at_ l i in
  let f := m_filteredData s in
  let f' := m_filteredData (fast_body ty ff stt l mn mx i s) in
  f' 1 = f 1 ++ [(fast_Vportion ty ff d, acceleration d)]
  /\ f' 4 = f 4 ++ [(timestamp d, velocity d)]
  /\ f' 5 = f 5 ++ [(timestamp d, acceleration d)]
  /\ f' 0 = f 0 /\ f' 2 = f 2 /\ f' 3 = f 3
  /\ m_rawData (fast_body ty ff stt l mn mx i s) = m_rawData s.
Proof.
  cbn zeta. unfold fast_body, with_filtered, with_KaFit, dt_point.
  cbn [m_filteredData m_rawData].
  destruct (emits_dt stt (at_ l i) i); repeat split.
Qed.

Lemma raw_body_series_23 l i (s : Plot) :
  let d := at_ l i in
  let g := m_rawData s in
  let g' := m_rawData (raw_body 2 3 l i s) in
  g' 2 = g 2 ++ [(timestamp d, velocity d)]
  /\ g' 3 = g 3 ++ [(timestamp d, acceleration d)]
  /\ g' 4 = g 4 /\ g' 5 = g 5
  /\ m_filteredData (raw_body 2 3 l i s) = m_filteredData s.
Proof. cbn zeta. repeat split. Qed.

Lemma raw_body_series_45 l i (s : Plot) :
  let d := at_ l i in
  let g := m_rawData s in
  let g' := m_rawData (raw_body 4 5 l i s) in
  g' 4 = g 4 ++ [(timestamp d, velocity d)]
  /\ g' 5 = g 5 ++ [(timestamp d, acceleration d)]
  /\ g' 2 = g 2 /\ g' 3 = g 3
  /\ m_filteredData (raw_body 4 5 l i s) = m_filteredData s.
Proof. cbn zeta. repeat split. Qed.

Lemma slow_body_aligned ty ff stt l mn mx i (s : Plot) :
  aligned s -> aligned (slow_body ty ff stt l mn mx i s).
Proof.
  intros (A1 & A2 & A3 & A4 & A5 & A6).
  destruct (slow_body_series ty ff stt l mn mx i s)
    as (E0 & E2 & E3 & E1 & E4 & E5 & ER).
  unfold aligned. rewrite E0, E1, E2, E3, E4, E5, ER, !map_app.
  repeat split; try assumption;
    (apply f_equal2; [assumption | reflexivity]).
Qed.

Lemma fast_body_aligned ty ff stt l mn mx i (s : Plot) :
  aligned s -> aligned (fast_body ty ff stt l mn mx i s).
Proof.
  intros (A1 & A2 & A3 & A4 & A5 & A6).
  destruct (fast_body_series ty ff stt l mn mx i s)
    as (E1 & E4 & E5 & E0 & E2 & E3 & ER).
  unfold aligned. rewrite E0, E1, E2, E3, E4, E5, ER, !map_app.
  repeat split; try assumption;
    (apply f_equal2; [assumption | reflexivity]).
Qed.

Lemma raw_body_aligned_23 l i (s : Plot) :
  aligned s -> aligned (raw_body 2 3 l i s).
Proof.
  intros (A1 & A2 & A3 & A4 & A5 & A6).
  destruct (raw_body_series_23 l i s) as (E2 & E3 & E4 & E5 & EF).
  unfold aligned. rewrite E2, E3, E4, E5, EF, !map_app.
  repeat split; try assumption;
    (apply f_equal2; [assumption | reflexivity]).
Qed.

Lemma raw_body_aligned_45 l i (s : Plot) :
  aligned s -> aligned (raw_body 4 5 l i s).
Proof.
  intros (A1 & A2 & A3 & A4 & A5 & A6).
  destruct (raw_body_series_45 l i s) as (E4 & E5 & E2 & E3 & EF).
  unfold aligned. rewrite E2, E3, E4, E5, EF, !map_app.
  repeat split; try assumption;
    (apply f_equal2; [assumption | reflexivity]).
Qed.

Lemma SetRawTimeData_aligned rs rf abort k (s : Plot) :
  aligned s -> aligned (state (SetRawTimeData kMaxSize rs rf abort k s)).
Proof.
  intros A. unfold SetRawTimeData.
  pose proof (for_stride_keeps aligned abort (raw_body 2 3 rs) (length rs)
                (stride kMaxSize (length rs)) k s
                (raw_body_aligned_23 rs) A) as A'.
  destruct (returned (for_stride abort (raw_body 2 3 rs) (length rs)
                        (stride kMaxSize (length rs)) k s)); [exact A'|].
  apply for_stride_keeps; [apply raw_body_aligned_45 | exact A'].
Qed.

Lemma reset_aligned unit (st : Plot) : aligned (reset unit st).
Proof. unfold aligned. repeat split. Qed.

(** After SetData and after SetRawData, aborted at any iteration or not, the
    series that the loops fill together hold their points side by side:
    the k-th points of charts 0 and 2 have the same velocity, those of
    charts 2 and 3 the same timestamp, those of charts 1 and 5 the same
    acceleration, those of charts 4 and 5 the same timestamp, and the raw
    series of charts 2 and 3, and of charts 4 and 5, the same timestamps. *)
Theorem passes_keep_series_aligned
    (rawData filteredData : Storage T) (unit : string)
    (ffGains startTimes : list T) (type : AnalysisType)
    (abort : nat -> bool) (st : Plot) :
  aligned (state (set_data rawData filteredData unit ffGains startTimes type
                           abort st))
  /\ aligned (state (set_raw_data rawData unit abort st)).
Proof.
  split.
  - unfold SetData. cbn zeta.
    pose proof (reset_aligned unit st) as A0.
    unfold slow_loop, fast_loop.
    set (bs := slow_body _ _ _ _ _ _). set (bf := fast_body _ _ _ _ _ _).
    set (ns := length (slow filteredData)).
    set (nf := length (fast filteredData)).
    pose proof (for_stride_keeps aligned abort bs ns (stride kMaxSize ns) 0
                  (reset unit st)
                  (fun i a => slow_body_aligned _ _ _ _ _ _ i a) A0) as A1.
    set (r1 := for_stride abort bs ns (stride kMaxSize ns) 0 (reset unit st))
      in *.
    destruct (returned r1); [exact A1|].
    pose proof (for_stride_keeps aligned abort bf nf (stride kMaxSize nf)
                  (reads r1) (state r1)
                  (fun i a => fast_body_aligned _ _ _ _ _ _ i a) A1) as A2.
    set (r2 := for_stride abort bf nf (stride kMaxSize nf) (reads r1)
                 (state r1)) in *.
    destruct (returned r2); [exact A2|].
    unfold finish_SetData. cbn [state]. unfold FitPlots, aligned.
    cbn [m_filteredData m_rawData].
    apply SetRawTimeData_aligned. exact A2.
  - unfold SetRawData. apply SetRawTimeData_aligned, reset_aligned.
Qed.

(** *** Flags and labels *)

(** Every pass, aborted or not, leaves every fit flag set and the two axis
    labels written for the unit it was given: the labels are assigned
    before the loops and the flags by ResetData, and no loop touches
    them. *)
Theorem passes_set_flags_and_labels
    (rawData filteredData : Storage T) (unit : string)
    (ffGains startTimes : list T) (type : AnalysisType)
    (abort : nat -> bool) (st : Plot) :
  let told (s : Plot) :=
    m_fitNextPlot s = repeat true (length (m_fitNextPlot st))
    /\ m_velocityLabel s
       = String.append "Velocity ("
           (String.append (GetAbbreviation unit) " / s)")
    /\ m_accelerationLabel s
       = String.append "Acceleration ("
           (String.append (GetAbbreviation unit) " / s^2)") in
  told (state (set_data rawData filteredData unit ffGains startTimes type
                        abort st))
  /\ told (state (set_raw_data rawData unit abort st)).
Proof.
  cbn zeta.
  assert (T0 : forall s : Plot,
             m_fitNextPlot s = m_fitNextPlot (reset unit st) ->
             m_velocityLabel s = m_velocityLabel (reset unit st) ->
             m_accelerationLabel s = m_accelerationLabel (reset unit st) ->
             m_fitNextPlot s = repeat true (length (m_fitNextPlot st))
             /\ m_velocityLabel s
                = String.append "Velocity ("
                    (String.append (GetAbbreviation unit) " / s)")
             /\ m_accelerationLabel s
                = String.append "Acceleration ("
                    (String.append (GetAbbreviation unit) " / s^2)")).
  { intros s E1 E2 E3. rewrite E1, E2, E3. cbn.
    rewrite map_true_repeat. repeat split. }
  split.
  - unfold SetData. cbn zeta.
    set (r1 := slow_loop kMaxSize filteredData ffGains startTimes type abort 0
                 (reset unit st)).
    set (r2 := fast_loop kMaxSize filteredData ffGains startTimes type abort
                 (reads r1) (state r1)).
    assert (F1 : m_fitNextPlot (state r1) = m_fitNextPlot (reset unit st)
                 /\ m_velocityLabel (state r1)
                    = m_velocityLabel (reset unit st)
                 /\ m_accelerationLabel (state r1)
                    = m_accelerationLabel (reset unit st))
      by (subst r1; repeat split; apply slow_loop_frame; kept).
    assert (F2 : m_fitNextPlot (state r2) = m_fitNextPlot (state r1)
                 /\ m_velocityLabel (state r2) = m_velocityLabel (state r1)
                 /\ m_accelerationLabel (state r2)
                    = m_accelerationLabel (state r1))
      by (subst r2; repeat split; apply fast_loop_frame; kept).
    destruct F1 as (A1 & A2 & A3), F2 as (B1 & B2 & B3).
    destruct (returned r1); [apply T0; assumption|].
    destruct (returned r2); [apply T0; congruence|].
    unfold finish_SetData. cbn [state]. unfold FitPlots.
    cbn [m_fitNextPlot m_velocityLabel m_accelerationLabel].
    rewrite (SetRawTimeData_frame kMaxSize (@m_fitNextPlot T)) by kept.
    rewrite (SetRawTimeData_frame kMaxSize (@m_velocityLabel T)) by kept.
    rewrite (SetRawTimeData_frame kMaxSize (@m_accelerationLabel T)) by kept.
    cbn [m_fitNextPlot m_velocityLabel m_accelerationLabel].
    rewrite B1, B2, B3, A1, A2, A3. cbn.
    rewrite map_map, map_true_repeat. repeat split.
  - unfold SetRawData. apply T0; apply SetRawTimeData_frame; kept.
Qed.

(** *** An abort seen in the raw-data loops *)

Lemma finish_same_but_raw rd fd ff stt ty abort abort' k k' (st : Plot) :
  same_but_raw (state (finish rd fd ff stt ty abort k st))
               (state (finish rd fd ff stt ty abort' k' st)).
Proof.
  unfold same_but_raw, finish_SetData. cbn [state]. unfold FitPlots.
  cbn [m_filteredData m_rawData m_dtMeanLine m_quasistaticSim m_dynamicSim
       m_KvFit m_KaFit m_fitNextPlot m_velocityLabel m_accelerationLabel sums
       m_RMSE m_RSquared].
  rewrite !(SetRawTimeData_frame kMaxSize (@m_filteredData T)) by kept.
  rewrite !(SetRawTimeData_frame kMaxSize (@m_dtMeanLine T)) by kept.
  rewrite !(SetRawTimeData_frame kMaxSize (@m_KvFit T)) by kept.
  rewrite !(SetRawTimeData_frame kMaxSize (@m_KaFit T)) by kept.
  rewrite !(SetRawTimeData_frame kMaxSize (@m_fitNextPlot T)) by kept.
  rewrite !(SetRawTimeData_frame kMaxSize (@m_velocityLabel T)) by kept.
  rewrite !(SetRawTimeData_frame kMaxSize (@m_accelerationLabel T)) by kept.
  rewrite !(SetRawTimeData_frame kMaxSize (@sums T)) by kept.
  repeat (split; [reflexivity|]). reflexivity.
Qed.

Lemma finish_raw_prefix rd fd ff stt ty abort k k' (st : Plot) c :
  prefix_of
    (m_rawData (state (finish rd fd ff stt ty abort k st)) c)
    (m_rawData (state (finish rd fd ff stt ty (fun _ => false) k' st)) c).
Proof.
  unfold finish_SetData. cbn [state]. unfold FitPlots. cbn [m_rawData].
  apply SetRawTimeData_prefix.
Qed.

(** SetData does not look at why SetRawTimeData came back.  When the flag
    is first seen set inside the raw-data loops, SetData still runs both
    simulations over the whole raw runs and assigns the metrics: the call
    leaves the plot of the pass in which the flag is never set, except that
    its raw series stop short (they are initial segments of the full
    ones). *)
Theorem SetData_ignores_abort_in_raw_loops
    (rawData filteredData : Storage T) (unit : string)
    (ffGains startTimes : list T) (type : AnalysisType)
    (abort : nat -> bool) (st : Plot) :
  returned (set_data rawData filteredData unit ffGains startTimes type
                     abort st) = false ->
  let s := state (set_data rawData filteredData unit ffGains startTimes type
                           abort st) in
  let w := state (set_data rawData filteredData unit ffGains startTimes type
                           (fun _ => false) st) in
  same_but_raw s w
  /\ forall c, prefix_of (m_rawData s c) (m_rawData w c).
Proof.
  intros R. cbn zeta.
  destruct (SetData_completed kMaxSize GetAbbreviation GetMeanTimeDelta
              mkSimpleMotorSim mkElevatorSim mkArmSim
              _ _ _ _ _ _ _ _ R) as (R1 & R2 & E).
  destruct (SetData_completed kMaxSize GetAbbreviation GetMeanTimeDelta
              mkSimpleMotorSim mkElevatorSim mkArmSim
              rawData filteredData unit ffGains startTimes type
              (fun _ => false) st
              (SetData_never_returned kMaxSize GetAbbreviation
                 GetMeanTimeDelta mkSimpleMotorSim mkElevatorSim mkArmSim
                 _ _ _ _ _ _ _)) as (_ & _ & E').
  rewrite E, E'. clear E E'.
  unfold slow_loop, fast_loop in *.
  set (bs := slow_body _ _ _ _ _ _) in *.
  set (bf := fast_body _ _ _ _ _ _) in *.
  set (ns := length (slow filteredData)) in *.
  set (nf := length (fast filteredData)) in *.
  rewrite (for_stride_as_never abort bs ns (stride kMaxSize ns) 0 0
             (reset unit st) R1) in R2 |- *.
  set (s1 := state (for_stride (fun _ => false) bs ns (stride kMaxSize ns) 0
                      (reset unit st))) in *.
  rewrite (for_stride_as_never abort bf nf (stride kMaxSize nf) _
             (reads (for_stride (fun _ => false) bs ns (stride kMaxSize ns) 0
                       (reset unit st)))
             s1 R2).
  split; [apply finish_same_but_raw|].
  intros c. apply finish_raw_prefix.
Qed.


(** *** The content of the scatter series *)

Lemma slow_run_series ty ff stt l mn mx idx (s : Plot) :
  let f := m_filteredData s in
  let f' := m_filteredData (run_body (slow_body ty ff stt l mn mx) idx s) in
  f' 0 = f 0 ++ sample_points (slow_Vportion ty ff) (@velocity T) l idx
  /\ f' 2 = f 2 ++ sample_points (@timestamp T) (@velocity T) l idx
  /\ f' 3 = f 3 ++ sample_points (@timestamp T) (@acceleration T) l idx
  /\ f' 1 = f 1 /\ f' 4 = f 4 /\ f' 5 = f 5.
Proof.
  cbn zeta. revert s; induction idx as [|i idx IH]; intros s.
  - simpl. rewrite !app_nil_r. repeat split.
  - simpl run_body. destruct (IH (slow_body ty ff stt l mn mx i s))
      as (I0 & I2 & I3 & I1 & I4 & I5).
    destruct (slow_body_series ty ff stt l mn mx i s)
      as (E0 & E2 & E3 & E1 & E4 & E5 & _).
    change (run_body (slow_body ty ff stt l mn mx) (i :: idx) s)
      with (run_body (slow_body ty ff stt l mn mx) idx
              (slow_body ty ff stt l mn mx i s)).
    rewrite I0, I2, I3, I1, I4, I5, E0, E2, E3, E1, E4, E5.
    unfold sample_points. simpl map. rewrite <- !app_assoc.
    repeat split.
Qed.

Lemma fast_run_series ty ff stt l mn mx idx (s : Plot) :
  let f := m_filteredData s in
  let f' := m_filteredData (run_body (fast_body ty ff stt l mn mx) idx s) in
  f' 1 = f 1 ++ sample_points (fast_Vportion ty ff) (@acceleration T) l idx
  /\ f' 4 = f 4 ++ sample_points (@timestamp T) (@velocity T) l idx
  /\ f' 5 = f 5 ++ sample_points (@timestamp T) (@acceleration T) l idx
  /\ f' 0 = f 0 /\ f' 2 = f 2 /\ f' 3 = f 3.
Proof.
  cbn zeta. revert s; induction idx as [|i idx IH]; intros s.
  - simpl. rewrite !app_nil_r. repeat split.
  - destruct (IH (fast_body ty ff stt l mn mx i s))
      as (I1 & I4 & I5 & I0 & I2 & I3).
    destruct (fast_body_series ty ff stt l mn mx i s)
      as (E1 & E4 & E5 & E0 & E2 & E3 & _).
    change (run_body (fast_body ty ff stt l mn mx) (i :: idx) s)
      with (run_body (fast_body ty ff stt l mn mx) idx
              (fast_body ty ff stt l mn mx i s)).
    rewrite I0, I2, I3, I1, I4, I5, E0, E2, E3, E1, E4, E5.
    unfold sample_points. simpl map. rewrite <- !app_assoc.
    repeat split.
Qed.

Lemma raw_run_series_23 l idx (s : Plot) :
  let g := m_rawData s in
  let g' := m_rawData (run_body (raw_body 2 3 l) idx s) in
  g' 2 = g 2 ++ sample_points (@timestamp T) (@velocity T) l idx
  /\ g' 3 = g 3 ++ sample_points (@timestamp T) (@acceleration T) l idx
  /\ g' 4 = g 4 /\ g' 5 = g 5.
Proof.
  cbn zeta. revert s; induction idx as [|i idx IH]; intros s.
  - simpl. rewrite !app_nil_r. repeat split.
  - destruct (IH (raw_body 2 3 l i s)) as (I2 & I3 & I4 & I5).
    destruct (raw_body_series_23 l i s) as (E2 & E3 & E4 & E5 & _).
    change (run_body (raw_body 2 3 l) (i :: idx) s)
      with (run_body (raw_body 2 3 l) idx (raw_body 2 3 l i s)).
    rewrite I2, I3, I4, I5, E2, E3, E4, E5.
    unfold sample_points. simpl map. rewrite <- !app_assoc.
    repeat split.
Qed.

Lemma raw_run_series_45 l idx (s : Plot) :
  let g := m_rawData s in
  let g' := m_rawData (run_body (raw_body 4 5 l) idx s) in
  g' 4 = g 4 ++ sample_points (@timestamp T) (@velocity T) l idx
  /\ g' 5 = g 5 ++ sample_points (@timestamp T) (@acceleration T) l idx
  /\ g' 2 = g 2 /\ g' 3 = g 3.
Proof.
  cbn zeta. revert s; induction idx as [|i idx IH]; intros s.
  - simpl. rewrite !app_nil_r. repeat split.
  - destruct (IH (raw_body 4 5 l i s)) as (I4 & I5 & I2 & I3).
    destruct (raw_body_series_45 l i s) as (E4 & E5 & E2 & E3 & _).
    change (run_body (raw_body 4 5 l) (i :: idx) s)
      with (run_body (raw_body 4 5 l) idx (raw_body 4 5 l i s)).
    rewrite I2, I3, I4, I5, E2, E3, E4, E5.
    unfold sample_points. simpl map. rewrite <- !app_assoc.
    repeat split.
Qed.

(** The six scatter series after a pass that was not aborted: each holds, in
    order, one point for every sample its loop visits. *)
Lemma SetData_series rd fd unit ff stt ty abort (st : Plot) :
  returned (set_data rd fd unit ff stt ty abort st) = false ->
  let f := m_filteredData (state (set_data rd fd unit ff stt ty abort st)) in
  let vs := visited (length (slow fd)) (stride kMaxSize (length (slow fd))) in
  let vf := visited (length (fast fd)) (stride kMaxSize (length (fast fd))) in
  f 0 = sample_points (slow_Vportion ty ff) (@velocity T) (slow fd) vs
  /\ f 2 = sample_points (@timestamp T) (@velocity T) (slow fd) vs
  /\ f 3 = sample_points (@timestamp T) (@acceleration T) (slow fd) vs
  /\ f 1 = sample_points (fast_Vportion ty ff) (@acceleration T) (fast fd) vf
  /\ f 4 = sample_points (@timestamp T) (@velocity T) (fast fd) vf
  /\ f 5 = sample_points (@timestamp T) (@acceleration T) (fast fd) vf.
Proof.
  intros R. cbn zeta.
  destruct (SetData_completed kMaxSize GetAbbreviation GetMeanTimeDelta
              mkSimpleMotorSim mkElevatorSim mkArmSim
              _ _ _ _ _ _ _ _ R) as (R1 & R2 & E).
  rewrite E, finish_filtered.
  unfold fast_loop in R2 |- *. rewrite (for_stride_whole _ _ _ _ _ _ R2).
  unfold slow_loop in R1 |- *. rewrite (for_stride_whole _ _ _ _ _ _ R1).
  match goal with
  | |- context [run_body (fast_body ?a ?b ?c ?l ?mn ?mx) ?idx ?s] =>
      destruct (fast_run_series a b c l mn mx idx s)
        as (F1 & F4 & F5 & F0 & F2 & F3)
  end.
  rewrite F0, F1, F2, F3, F4, F5.
  match goal with
  | |- context [run_body (slow_body ?a ?b ?c ?l ?mn ?mx) ?idx ?s] =>
      destruct (slow_run_series a b c l mn mx idx s)
        as (S0 & S2 & S3 & S1 & S4 & S5)
  end.
  rewrite S0, S1, S2, S3, S4, S5.
  repeat split.
Qed.

(** A complete SetRawData shows raw data alone: the raw series of charts 2
    and 3 hold (timestamp, velocity) and (timestamp, acceleration) of every
    sample of the raw slow run that the strided loop visits, in order, those
    of charts 4 and 5 the same of the raw fast run; every filtered series,
    the mean line and both simulations are empty. *)
Theorem SetRawData_shows_raw_subsample
    (rawData : Storage T) (unit : string) (abort : nat -> bool) (st : Plot) :
  returned (set_raw_data rawData unit abort st) = false ->
  let s := state (set_raw_data rawData unit abort st) in
  let vs := visited (length (slow rawData))
                    (stride kMaxSize (length (slow rawData))) in
  let vf := visited (length (fast rawData))
                    (stride kMaxSize (length (fast rawData))) in
  m_rawData s 2 = sample_points (@timestamp T) (@velocity T) (slow rawData) vs
  /\ m_rawData s 3
     = sample_points (@timestamp T) (@acceleration T) (slow rawData) vs
  /\ m_rawData s 4
     = sample_points (@timestamp T) (@velocity T) (fast rawData) vf
  /\ m_rawData s 5
     = sample_points (@timestamp T) (@acceleration T) (fast rawData) vf
  /\ (forall c, m_filteredData s c = [])
  /\ m_dtMeanLine s = [] /\ m_quasistaticSim s = [] /\ m_dynamicSim s = [].
Proof.
  cbn zeta. unfold SetRawData, SetRawTimeData.
  set (b1 := raw_body 2 3 (slow rawData)).
  set (b2 := raw_body 4 5 (fast rawData)).
  set (n1 := length (slow rawData)). set (n2 := length (fast rawData)).
  set (r1 := for_stride abort b1 n1 (stride kMaxSize n1) 0 (reset unit st)).
  destruct (returned r1) eqn:R1; [intros X; congruence|].
  intros R2.
  split; [|split; [|split; [|split]]];
    try (rewrite (for_stride_whole _ _ _ _ _ _ R2);
         unfold r1; rewrite (for_stride_whole _ _ _ _ _ _ R1);
         destruct (raw_run_series_45 (fast rawData)
                     (visited n2 (stride kMaxSize n2))
                     (run_body b1 (visited n1 (stride kMaxSize n1))
                        (reset unit st))) as (F4 & F5 & F2 & F3);
         destruct (raw_run_series_23 (slow rawData)
                     (visited n1 (stride kMaxSize n1)) (reset unit st))
           as (S2 & S3 & S4 & S5);
         fold b1 in S2, S3, S4, S5; fold b2 in F2, F3, F4, F5;
         rewrite ?F2, ?F3, ?F4, ?F5, ?S2, ?S3, ?S4, ?S5; reflexivity).
  split; [|split; [|split]].
  - intros c.
    rewrite (for_stride_preserves (fun s => m_filteredData s c))
      by (intros; reflexivity).
    unfold r1.
    rewrite (for_stride_preserves (fun s => m_filteredData s c))
      by (intros; reflexivity).
    reflexivity.
  - rewrite (for_stride_preserves (@m_dtMeanLine T)) by kept.
    unfold r1. rewrite (for_stride_preserves (@m_dtMeanLine T)) by kept.
    reflexivity.
  - rewrite (for_stride_preserves (@m_quasistaticSim T)) by kept.
    unfold r1. rewrite (for_stride_preserves (@m_quasistaticSim T)) by kept.
    reflexivity.
  - rewrite (for_stride_preserves (@m_dynamicSim T)) by kept.
    unfold r1. rewrite (for_stride_preserves (@m_dynamicSim T)) by kept.
    reflexivity.
Qed.


(** *** The simulations of a complete pass *)

Lemma SetData_sims rd fd unit ff stt ty abort (st : Plot) :
  returned (set_data rd fd unit ff stt ty abort st) = false ->
  let s := state (set_data rd fd unit ff stt ty abort st) in
  let step := stride kMaxSize (length (fast fd)) in
  let q := sim ty ff stt step (slow rd) sums0 in
  let d := sim ty ff stt step (fast rd) (snd q) in
  m_quasistaticSim s = fst q /\ m_dynamicSim s = fst d /\ sums s = snd d.
Proof.
  intros R. cbn zeta.
  destruct (SetData_completed kMaxSize GetAbbreviation GetMeanTimeDelta
              mkSimpleMotorSim mkElevatorSim mkArmSim
              _ _ _ _ _ _ _ _ R) as (_ & _ & E).
  rewrite E. unfold finish_SetData.
  cbn [state FitPlots sums m_quasistaticSim m_dynamicSim].
  rewrite (SetRawTimeData_frame kMaxSize (@sums T)) by kept. cbn [sums].
  rewrite fast_loop_frame by kept.
  rewrite slow_loop_frame by kept.
  repeat split.
Qed.

Lemma simulate_count ty ff stt step data g :
  timeSeriesPoints (snd (sim ty ff stt step data g)) + 1
  = timeSeriesPoints g + length (concat (fst (sim ty ff stt step data g))).
Proof. unfold simulate. destruct ty; apply PopulateTimeDomainSim_count. Qed.

(** After a pass that was not aborted, the count that RMSE and R-squared
    divide by is the number of simulated points drawn, less the two seed
    points: every point of the two simulated trajectories but the first of
    each has been compared with a measurement, and nothing else has. *)
Theorem SetData_count_is_simulated_points
    (rawData filteredData : Storage T) (unit : string)
    (ffGains startTimes : list T) (type : AnalysisType)
    (abort : nat -> bool) (st : Plot) :
  returned (set_data rawData filteredData unit ffGains startTimes type
                     abort st) = false ->
  let s := state (set_data rawData filteredData unit ffGains startTimes type
                           abort st) in
  timeSeriesPoints (sums s) + 2
  = length (concat (m_quasistaticSim s)) + length (concat (m_dynamicSim s)).
Proof.
  intros R. cbn zeta.
  destruct (SetData_sims _ _ _ _ _ _ _ _ R) as (Q & D & G).
  rewrite Q, D, G.
  match goal with
  | |- context [snd (sim ?ty ?ff ?stt ?step ?dat (snd ?q))] =>
      pose proof (simulate_count ty ff stt step dat (snd q)) as C2
  end.
  match type of C2 with
  | context [snd (sim ?ty ?ff ?stt ?step ?dat sums0)] =>
      pose proof (simulate_count ty ff stt step dat sums0) as C1
  end.
  cbn [timeSeriesPoints sums0] in C1. lia.
Qed.

(** *** The lines of best fit *)

Lemma slow_run_KvFit ty ff stt l mn mx idx (s : Plot) :
  idx <> [] ->
  m_KvFit (run_body (slow_body ty ff stt l mn mx) idx s)
  = fit_line (gain ff 1) mn mx.
Proof.
  revert s; induction idx as [|i idx IH]; intros s N; [congruence|].
  destruct idx as [|j idx]; [reflexivity|].
  change (run_body (slow_body ty ff stt l mn mx) (i :: j :: idx) s)
    with (run_body (slow_body ty ff stt l mn mx) (j :: idx)
            (slow_body ty ff stt l mn mx i s)).
  apply IH. discriminate.
Qed.

Lemma fast_run_KaFit ty ff stt l mn mx idx (s : Plot) :
  idx <> [] ->
  m_KaFit (run_body (fast_body ty ff stt l mn mx) idx s)
  = fit_line (gain ff 2) mn mx.
Proof.
  revert s; induction idx as [|i idx IH]; intros s N; [congruence|].
  destruct idx as [|j idx]; [reflexivity|].
  change (run_body (fast_body ty ff stt l mn mx) (i :: j :: idx) s)
    with (run_body (fast_body ty ff stt l mn mx) (j :: idx)
            (fast_body ty ff stt l mn mx i s)).
  apply IH. discriminate.
Qed.

Lemma visited_nonempty {A : Type} (l : list A) step :
  l <> [] -> visited (length l) step <> [].
Proof. destruct l; [congruence|]. intros _. discriminate. Qed.

(** After a complete pass over non-empty runs each line of best fit joins
    the points (K * lowest, lowest) and (K * highest, highest), where lowest
    and highest are taken over the whole run, not over the visited samples
    alone. *)
Lemma SetData_fit_lines rd fd unit ff stt ty abort (st : Plot) :
  returned (set_data rd fd unit ff stt ty abort st) = false ->
  slow fd <> [] -> fast fd <> [] ->
  let s := state (set_data rd fd unit ff stt ty abort st) in
  m_KvFit s
  = fit_line (gain ff 1) (velocity (min_element (@velocity T) (slow fd)))
             (velocity (max_element (@velocity T) (slow fd)))
  /\ m_KaFit s
     = fit_line (gain ff 2)
                (acceleration (min_element (@acceleration T) (fast fd)))
                (acceleration (max_element (@acceleration T) (fast fd))).
Proof.
  intros R Ns Nf. cbn zeta.
  destruct (SetData_completed kMaxSize GetAbbreviation GetMeanTimeDelta
              mkSimpleMotorSim mkElevatorSim mkArmSim
              _ _ _ _ _ _ _ _ R) as (R1 & R2 & E).
  rewrite E. unfold finish_SetData. cbn [state FitPlots m_KvFit m_KaFit].
  rewrite (SetRawTimeData_frame kMaxSize (@m_KvFit T)) by kept.
  rewrite (SetRawTimeData_frame kMaxSize (@m_KaFit T)) by kept.
  cbn [m_KvFit m_KaFit]. split.
  - rewrite (fast_loop_frame kMaxSize (@m_KvFit T)) by kept.
    unfold slow_loop in R1 |- *. rewrite (for_stride_whole _ _ _ _ _ _ R1).
    apply slow_run_KvFit, visited_nonempty, Ns.
  - unfold fast_loop in R2 |- *. rewrite (for_stride_whole _ _ _ _ _ _ R2).
    apply fast_run_KaFit, visited_nonempty, Nf.
Qed.

End PassOutputs.

(** ** The simulated trajectory *)

Section SimTrajectory.
Context {T : Type} `{Scalar T}.
Context {M : Type} `{MechanismModel T M}.

Lemma stepped_S startTimes (data : list (PreparedData T)) k :
  stepped startTimes data (S k)
  = stepped startTimes data k
    ++ (if is_start startTimes (timestamp (at_ data (S k))) then []
        else [S k]).
Proof.
  unfold stepped. rewrite seq_S, filter_app. simpl.
  destruct (is_start startTimes (timestamp (at_ data (S k)))); reflexivity.
Qed.

(** A run whose samples after the first are all at start times (a run of one
    sample among them) is never stepped: the simulator returns the seed
    point alone, followed by one empty sequence per later sample, and leaves
    the accumulators as they were. *)
Theorem PopulateTimeDomainSim_all_boundaries
    (data : list (PreparedData T)) (startTimes : list T) (step : nat)
    (model : M) (g : Sums T) :
  Forall (fun d => is_start startTimes (timestamp d) = true) (tl data) ->
  PopulateTimeDomainSim data startTimes step model g
  = ([(timestamp (at_ data 0), velocity (at_ data 0))]
       :: repeat [] (length data - 1),
     g).
Proof.
  intros F. unfold PopulateTimeDomainSim.
  assert (L : length data - 1 = length (tl data))
    by (destruct data; simpl; lia).
  rewrite L.
  assert (I : forall k, k <= length (tl data) ->
            sl_pts (sim_upto data startTimes model g k)
              ++ [sl_tmp (sim_upto data startTimes model g k)]
            = [(timestamp (at_ data 0), velocity (at_ data 0))]
                :: repeat [] k
            /\ sl_sums (sim_upto data startTimes model g k) = g).
  { induction k as [|k IH]; intros Hk; [split; reflexivity|].
    destruct IH as [I1 I2]; [lia|].
    assert (B : is_start startTimes (timestamp (at_ data (S k))) = true).
    { rewrite at_S. rewrite Forall_forall in F. apply F.
      apply nth_In. lia. }
    rewrite sim_upto_S, (sim_body_boundary _ _ _ _ B).
    cbn [sl_pts sl_tmp sl_sums]. rewrite I1. split; [|exact I2].
    cbn [repeat app]. f_equal. symmetry. apply repeat_cons. }
  destruct (I (length (tl data)) (Nat.le_refl _)) as [I1 I2].
  rewrite I1, I2. reflexivity.
Qed.

(** The time the loop carries is the running sum of the differences of
    neighbouring timestamps, taken at every sample, a start time or not. *)
Lemma sim_upto_elapsed (data : list (PreparedData T)) startTimes (model : M)
    g k :
  sl_t (sim_upto data startTimes model g k) = elapsed data k.
Proof.
  unfold elapsed. induction k as [|k IH]; [reflexivity|].
  rewrite seq_S, fold_left_app. cbn [fold_left Nat.add].
  rewrite <- IH. cbn [sim_upto]. unfold sim_body.
  destruct (is_start startTimes (timestamp (at_ data (S k)))); reflexivity.
Qed.

(** The points PopulateTimeDomainSim returns, taken through all its
    sequences in order, are the seed point (first timestamp, first measured
    velocity) and then one point for every later sample that is not at a
    start time, and no other.  The point of sample i carries the velocity
    predicted for it, at the time the loop computes for it: the first
    timestamp plus the running sum of the differences of neighbouring
    timestamps up to sample i.  That time is computed, not copied from the
    sample. *)
Theorem PopulateTimeDomainSim_points_in_order
    (data : list (PreparedData T)) (startTimes : list T) (step : nat)
    (model : M) (g : Sums T) :
  concat (fst (PopulateTimeDomainSim data startTimes step model g))
  = (timestamp (at_ data 0), velocity (at_ data 0))
    :: map (fun i =>
              (s_add (timestamp (at_ data 0)) (elapsed data i),
               GetVelocity (sl_model (sim_upto data startTimes model g i))))
           (stepped startTimes data (length data - 1)).
Proof.
  unfold PopulateTimeDomainSim. cbn [fst].
  generalize (length data - 1) as k.
  induction k as [|k IH].
  - cbn. reflexivity.
  - rewrite stepped_S, map_app, app_comm_cons, <- IH.
    cbn [sim_upto]. unfold sim_body.
    destruct (is_start startTimes (timestamp (at_ data (S k)))) eqn:B.
    + cbn [sl_pts sl_tmp map].
      rewrite !concat_app. cbn. rewrite !app_nil_r. reflexivity.
    + cbn [sl_pts sl_tmp sl_t sl_model].
      rewrite !concat_app. cbn [concat map]. rewrite !app_nil_r.
      rewrite app_assoc. do 3 f_equal.
      * rewrite <- (sim_upto_elapsed data startTimes model g (S k)).
        cbn [sim_upto]. unfold sim_body. rewrite B. reflexivity.
      * cbn [sim_upto]. unfold sim_body. rewrite B. reflexivity.
Qed.

End SimTrajectory.

Lemma PopulateTimeDomainSim_all_boundaries_witness :
  Forall (fun d => is_start Demo.starts_twice (timestamp d) = true)
         (tl Demo.run4) /\
  PopulateTimeDomainSim Demo.run4 Demo.starts_twice 1 0%float Demo.no_sums
  = ([(timestamp (at_ Demo.run4 0), velocity (at_ Demo.run4 0))]
       :: repeat [] (length Demo.run4 - 1),
     Demo.no_sums).
Proof.
  assert (F : Forall (fun d => is_start Demo.starts_twice (timestamp d) = true)
                     (tl Demo.run4))
    by (repeat constructor).
  split; [exact F|].
  exact (PopulateTimeDomainSim_all_boundaries
           Demo.run4 Demo.starts_twice 1 0%float Demo.no_sums F).
Defined.


(** In binary64 the time of a simulated point need not be the timestamp of
    its sample: on the run of two samples at 0.2 s and 0.9 s the second point
    is drawn at 0.2 + (0.9 - 0.2), which is the double below 0.9. *)
Lemma plotted_time_can_miss_the_timestamp :
  let pts :=
    concat (fst (PopulateTimeDomainSim Edge.leap [] 1 0%float Demo.no_sums)) in
  map fst pts = [0.2; 0.8999999999999999]%float
  /\ map (@timestamp float) Edge.leap = [0.2; 0.9]%float
  /\ (0.8999999999999999 <? 0.9)%float = true.
Proof. vm_compute. repeat split. Qed.


(** ** The plotted series and fit lines on the real numbers *)

Lemma sample_points_all {T : Type} `{Scalar T} (px py : PreparedData T -> T)
    (run : list (PreparedData T)) :
  sample_points px py run (seq 0 (length run))
  = map (fun d => (px d, py d)) run.
Proof.
  unfold sample_points. induction run as [|d run IH]; [reflexivity|].
  cbn [length seq map]. f_equal.
  rewrite <- seq_shift, map_map. exact IH.
Qed.

Lemma stride_indices_unit n fuel i :
  n <= i + fuel -> stride_indices n 1 fuel i = seq i (n - i).
Proof.
  revert i; induction fuel as [|f IH]; intros i L; simpl.
  - replace (n - i) with 0 by lia. reflexivity.
  - destruct (i <? n) eqn:E.
    + apply Nat.ltb_lt in E. rewrite IH by lia.
      replace (n - i) with (S (n - (i + 1))) by lia.
      simpl. do 2 f_equal. lia.
    + apply Nat.ltb_ge in E. replace (n - i) with 0 by lia. reflexivity.
Qed.

Lemma visited_unit n : visited n 1 = seq 0 n.
Proof.
  unfold visited. rewrite stride_indices_unit by lia.
  f_equal. lia.
Qed.

Section RealOrder.
Local Open Scope R_scope.

Lemma fold_min_least (key : PreparedData R -> R) r x :
  let m := fold_left
             (fun smallest e =>
                if s_ltb (key e) (key smallest) then e else smallest) r x in
  In m (x :: r) /\ forall d, In d (x :: r) -> key m <= key d.
Proof.
  cbn zeta. revert x; induction r as [|e r IH]; intros x.
  - simpl. split; [auto|]. intros d [<-|[]]. lra.
  - cbn [fold_left].
    destruct (s_ltb (key e) (key x)) eqn:E;
      cbn [s_ltb Scalar_R] in E; unfold Real.ltb in E;
      destruct (Rlt_dec (key e) (key x)) as [L|L]; try discriminate.
    + destruct (IH e) as [I1 I2]. split.
      * right. exact I1.
      * intros d [<-|D]; [|apply I2, D].
        pose proof (I2 e (or_introl eq_refl)). lra.
    + destruct (IH x) as [I1 I2]. split.
      * destruct I1 as [<-|I1]; [left; reflexivity|right; right; exact I1].
      * intros d [<-|[<-|D]].
        -- apply I2. left; reflexivity.
        -- pose proof (I2 x (or_introl eq_refl)). lra.
        -- apply I2. right; exact D.
Qed.

Lemma fold_max_greatest (key : PreparedData R -> R) r x :
  let m := fold_left
             (fun largest e =>
                if s_ltb (key largest) (key e) then e else largest) r x in
  In m (x :: r) /\ forall d, In d (x :: r) -> key d <= key m.
Proof.
  cbn zeta. revert x; induction r as [|e r IH]; intros x.
  - simpl. split; [auto|]. intros d [<-|[]]. lra.
  - cbn [fold_left].
    destruct (s_ltb (key x) (key e)) eqn:E;
      cbn [s_ltb Scalar_R] in E; unfold Real.ltb in E;
      destruct (Rlt_dec (key x) (key e)) as [L|L]; try discriminate.
    + destruct (IH e) as [I1 I2]. split.
      * right. exact I1.
      * intros d [<-|D]; [|apply I2, D].
        pose proof (I2 e (or_introl eq_refl)). lra.
    + destruct (IH x) as [I1 I2]. split.
      * destruct I1 as [<-|I1]; [left; reflexivity|right; right; exact I1].
      * intros d [<-|[<-|D]].
        -- apply I2. left; reflexivity.
        -- pose proof (I2 x (or_introl eq_refl)). lra.
        -- apply I2. right; exact D.
Qed.

(** On the reals std::min_element picks a sample of the run whose key no
    sample of the run is below. *)
Lemma min_element_least (key : PreparedData R -> R) l :
  l <> [] ->
  In (min_element key l) l
  /\ forall d, In d l -> key (min_element key l) <= key d.
Proof.
  destruct l as [|x r]; [congruence|]. intros _. apply fold_min_least.
Qed.

Lemma max_element_greatest (key : PreparedData R -> R) l :
  l <> [] ->
  In (max_element key l) l
  /\ forall d, In d l -> key d <= key (max_element key l).
Proof.
  destruct l as [|x r]; [congruence|]. intros _. apply fold_max_greatest.
Qed.
End RealOrder.

Section RealPass.
Variable kMaxSize : nat.
Variable GetAbbreviation : string -> string.
Variable GetMeanTimeDelta : Storage R -> R.
Context {SimpleMotorSim ElevatorSim ArmSim : Type}.
Context `{MechanismModel R SimpleMotorSim}.
Context `{MechanismModel R ElevatorSim}.
Context `{MechanismModel R ArmSim}.
Variable mkSimpleMotorSim : R -> R -> R -> SimpleMotorSim.
Variable mkElevatorSim : R -> R -> R -> R -> ElevatorSim.
Variable mkArmSim : R -> R -> R -> R -> ArmSim.

Local Abbreviation set_data :=
  (SetData kMaxSize GetAbbreviation GetMeanTimeDelta
           mkSimpleMotorSim mkElevatorSim mkArmSim).

(** A non-empty run of at most kMaxSize / 4 samples is walked with step 1. *)
Lemma stride_R_short (n : nat) :
  1 <= n -> 4 * n <= kMaxSize -> stride (T := R) kMaxSize n = 1.
Proof.
  intros Hn Hk. rewrite stride_R_eq by lia.
  symmetry. apply (Nat.div_unique _ _ _ (4 * n - 1)); lia.
Qed.

(** With the arithmetic read on the reals, a complete pass over two
    non-empty runs of at most kMaxSize / 4 samples each plots every sample:
    no point of the filtered scatter series is dropped, and the series of
    charts 0, 2 and 3 follow the slow run, those of charts 1, 4 and 5 the
    fast run, sample by sample and in order. *)
Theorem SetData_short_runs_plotted_in_full
    (rawData filteredData : Storage R) (unit : string)
    (ffGains startTimes : list R) (type : AnalysisType)
    (abort : nat -> bool) (st : AnalyzerPlot R) :
  returned (set_data rawData filteredData unit ffGains startTimes type
                     abort st) = false ->
  slow filteredData <> [] -> fast filteredData <> [] ->
  4 * length (slow filteredData) <= kMaxSize ->
  4 * length (fast filteredData) <= kMaxSize ->
  let f := m_filteredData
             (state (set_data rawData filteredData unit ffGains startTimes
                              type abort st)) in
  f 0 = map (fun d => (slow_Vportion type ffGains d, velocity d))
            (slow filteredData)
  /\ f 2 = map (fun d => (timestamp d, velocity d)) (slow filteredData)
  /\ f 3 = map (fun d => (timestamp d, acceleration d)) (slow filteredData)
  /\ f 1 = map (fun d => (fast_Vportion type ffGains d, acceleration d))
               (fast filteredData)
  /\ f 4 = map (fun d => (timestamp d, velocity d)) (fast filteredData)
  /\ f 5 = map (fun d => (timestamp d, acceleration d)) (fast filteredData).
Proof.
  intros R Ns Nf Ls Lf. cbn zeta.
  assert (Ps : 1 <= length (slow filteredData))
    by (destruct (slow filteredData); [congruence|simpl; lia]).
  assert (Pf : 1 <= length (fast filteredData))
    by (destruct (fast filteredData); [congruence|simpl; lia]).
  destruct (SetData_series kMaxSize GetAbbreviation GetMeanTimeDelta
              mkSimpleMotorSim mkElevatorSim mkArmSim
              _ _ _ _ _ _ _ _ R) as (F0 & F2 & F3 & F1 & F4 & F5).
  rewrite F0, F2, F3, F1, F4, F5.
  rewrite (stride_R_short _ Ps Ls), (stride_R_short _ Pf Lf).
  rewrite !visited_unit, !sample_points_all.
  repeat split.
Qed.

Local Open Scope R_scope.

(** With the comparisons read on the reals, after a complete pass over
    non-empty runs the velocity fit line runs from (Kv * v, v) at a sample
    of lowest velocity to (Kv * v', v') at a sample of highest velocity of
    the whole slow run, and the acceleration fit line likewise between the
    extreme accelerations of the whole fast run with Ka: every plotted
    sample lies within the vertical extent of its fit line. *)
Theorem SetData_fit_lines_span_the_runs
    (rawData filteredData : Storage R) (unit : string)
    (ffGains startTimes : list R) (type : AnalysisType)
    (abort : nat -> bool) (st : AnalyzerPlot R) :
  returned (set_data rawData filteredData unit ffGains startTimes type
                     abort st) = false ->
  slow filteredData <> [] -> fast filteredData <> [] ->
  let s := state (set_data rawData filteredData unit ffGains startTimes type
                           abort st) in
  (exists lo hi,
      In lo (slow filteredData) /\ In hi (slow filteredData)
      /\ m_KvFit s = ((gain ffGains 1 * velocity lo, velocity lo),
                      (gain ffGains 1 * velocity hi, velocity hi))
      /\ forall d, In d (slow filteredData) ->
                   velocity lo <= velocity d <= velocity hi)
  /\ (exists lo hi,
         In lo (fast filteredData) /\ In hi (fast filteredData)
         /\ m_KaFit s = ((gain ffGains 2 * acceleration lo, acceleration lo),
                         (gain ffGains 2 * acceleration hi, acceleration hi))
         /\ forall d, In d (fast filteredData) ->
                      acceleration lo <= acceleration d <= acceleration hi).
Proof.
  intros Rt Ns Nf. cbn zeta.
  destruct (SetData_fit_lines kMaxSize GetAbbreviation GetMeanTimeDelta
              mkSimpleMotorSim mkElevatorSim mkArmSim
              _ _ _ _ _ _ _ _ Rt Ns Nf) as [Ev Ea].
  destruct (min_element_least (@velocity R) _ Ns) as [V1 V2].
  destruct (max_element_greatest (@velocity R) _ Ns) as [V3 V4].
  destruct (min_element_least (@acceleration R) _ Nf) as [A1 A2].
  destruct (max_element_greatest (@acceleration R) _ Nf) as [A3 A4].
  split.
  - exists (min_element (@velocity R) (slow filteredData)),
           (max_element (@velocity R) (slow filteredData)).
    split; [exact V1|split; [exact V3|split; [exact Ev|]]].
    intros d D. split; [apply V2, D|apply V4, D].
  - exists (min_element (@acceleration R) (fast filteredData)),
           (max_element (@acceleration R) (fast filteredData)).
    split; [exact A1|split; [exact A3|split; [exact Ea|]]].
    intros d D. split; [apply A2, D|apply A4, D].
Qed.

End RealPass.

(** * The display functions *)

(** ** Assignment to one element of the flag array *)

Lemma assign_length {A : Type} (i : nat) (v : A) (l : list A) :
  length (assign i v l) = length l.
Proof.
  revert i; induction l as [|a l IH]; intros [|i]; simpl; auto.
Qed.

Lemma nth_assign_false (i j : nat) (l : list bool) :
  nth j (assign i false l) false = nth j l false && negb (j =? i).
Proof.
  revert i j; induction l as [|a l IH]; intros i j.
  - destruct i, j; reflexivity.
  - destruct i as [|i], j as [|j]; simpl.
    + rewrite andb_false_r. reflexivity.
    + rewrite andb_true_r. reflexivity.
    + rewrite andb_true_r. reflexivity.
    + apply IH.
Qed.

(** ** The spinner *)

(** Whatever the time, the character shown after "Loading" is one of the
    four of the spinner, never the terminator of the literal. *)
Lemma Spinner_glyph_in_range (time : float) (c : ascii) :
  Spinner.glyph time = Some c ->
  In c (firstn 4 Spinner.glyphs).
Proof.
  unfold Spinner.glyph.
  destruct (Spinner.to_int (time / Spinner.period)) as [n|]; [|discriminate].
  change 3%Z with (Z.ones 2). rewrite Z.land_ones by lia.
  pose proof (Z.mod_pos_bound n (2 ^ 2) ltac:(lia)) as B.
  destruct (Z.to_nat (n mod 2 ^ 2)) as [|[|[|[|k]]]] eqn:E;
    try (simpl; intros X; injection X as <-; simpl; tauto).
  lia.
Qed.

(** ** What a display leaves of the plot *)

Section DisplayFacts.
Context {T : Type} `{Scalar T}.
Variable kDefaultPlotSize : ImVec2.t.
Variable kCombinedPlotSize : float.
Variable begins : nat -> bool.

Local Abbreviation Plot := (AnalyzerPlot T).
Local Abbreviation display_voltage :=
  (DisplayVoltageDomainPlots (T := T) begins).
Local Abbreviation display_time := (DisplayTimeDomainPlots (T := T) begins).
Local Abbreviation load_plots := (LoadPlots (T := T) kDefaultPlotSize begins).
Local Abbreviation display_combined :=
  (DisplayCombinedPlots (T := T) kCombinedPlotSize begins).

Ltac draw :=
  cbn [bind ret call member fit_flag begin_plot loading PlotRawAndFiltered
       value plot calls].

Lemma PlotSimData_plot data (st : Plot) : plot (PlotSimData data st) = st.
Proof.
  induction data as [|pts data IH]; [reflexivity|].
  cbn [PlotSimData]. draw. exact IH.
Qed.

Lemma PlotSimData_calls data (st : Plot) :
  calls (PlotSimData data st)
  = flat_map (fun pts => [SetNextLineStyle;
                          PlotLineG "Simulation"%string pts]) data.
Proof.
  induction data as [|pts data IH]; [reflexivity|].
  cbn [PlotSimData flat_map]. draw. rewrite IH. reflexivity.
Qed.

(** The flag is cleared where it was set: clearing it is assigning it. *)
Lemma time_chart_plot plotSize i (st : Plot) :
  plot (time_chart begins plotSize i st) = drawn_once begins i st.
Proof.
  unfold time_chart, drawn_once. draw.
  destruct (nth i (m_fitNextPlot st) false) eqn:F;
    destruct (forPicture plotSize && negb (i mod 4 =? 0));
    destruct (begins i); cbn [when andb]; draw;
    destruct ((i =? 2) || (i =? 4)); cbn [when]; draw;
    rewrite ?PlotSimData_plot, ?F; cbn [when]; draw; reflexivity.
Qed.

Lemma same_but_flags_refl (st : Plot) : same_but_flags st st.
Proof. unfold same_but_flags. repeat split. Qed.

Lemma same_but_flags_trans (a b c : Plot) :
  same_but_flags a b -> same_but_flags b c -> same_but_flags a c.
Proof.
  unfold same_but_flags.
  intros (A1 & A2 & A3 & A4 & A5 & A6 & A7 & A8 & A9 & A10 & A11 & A12)
         (B1 & B2 & B3 & B4 & B5 & B6 & B7 & B8 & B9 & B10 & B11 & B12).
  repeat split; congruence.
Qed.

Lemma drawn_once_data i (st : Plot) :
  same_but_flags st (drawn_once begins i st).
Proof.
  unfold drawn_once.
  destruct (begins i && nth i (m_fitNextPlot st) false);
    [|apply same_but_flags_refl].
  unfold same_but_flags. cbn. repeat split.
Qed.

Lemma drawn_once_length i (st : Plot) :
  length (m_fitNextPlot (drawn_once begins i st))
  = length (m_fitNextPlot st).
Proof.
  unfold drawn_once.
  destruct (begins i && nth i (m_fitNextPlot st) false); [|reflexivity].
  cbn. apply assign_length.
Qed.

Lemma drawn_once_flags i (st : Plot) j :
  nth j (m_fitNextPlot (drawn_once begins i st)) false
  = nth j (m_fitNextPlot st) false && negb ((j =? i) && begins i).
Proof.
  unfold drawn_once.
  destruct (begins i) eqn:B;
    destruct (nth i (m_fitNextPlot st) false) eqn:F;
    cbn [andb plot clear_fit_flag m_fitNextPlot];
    rewrite ?nth_assign_false, ?andb_true_r, ?andb_false_r;
    cbn [negb]; rewrite ?andb_true_r; try reflexivity.
  destruct (j =? i) eqn:E; cbn [negb]; rewrite ?andb_true_r; [|reflexivity].
  apply Nat.eqb_eq in E. subst j. rewrite F. reflexivity.
Qed.

Lemma drawn_chain_data l (st : Plot) :
  same_but_flags st (fold_left (fun s i => drawn_once begins i s) l st).
Proof.
  revert st; induction l as [|i l IH]; intros st;
    [apply same_but_flags_refl|].
  cbn [fold_left].
  exact (same_but_flags_trans _ _ _ (drawn_once_data i st) (IH _)).
Qed.

Lemma drawn_chain_length l (st : Plot) :
  length (m_fitNextPlot (fold_left (fun s i => drawn_once begins i s) l st))
  = length (m_fitNextPlot st).
Proof.
  revert st; induction l as [|i l IH]; intros st; [reflexivity|].
  cbn [fold_left]. rewrite IH. apply drawn_once_length.
Qed.

Lemma drawn_chain_flags l (st : Plot) j :
  nth j (m_fitNextPlot (fold_left (fun s i => drawn_once begins i s) l st))
      false
  = nth j (m_fitNextPlot st) false
    && negb (existsb (Nat.eqb j) l && begins j).
Proof.
  revert st; induction l as [|i l IH]; intros st.
  - cbn. rewrite andb_true_r. reflexivity.
  - cbn [fold_left existsb]. rewrite IH, drawn_once_flags.
    destruct (j =? i) eqn:E.
    + apply Nat.eqb_eq in E. subst j.
      destruct (nth i (m_fitNextPlot st) false), (begins i),
        (existsb (Nat.eqb i) l); reflexivity.
    + cbn [andb orb negb]. rewrite andb_true_r. reflexivity.
Qed.

Lemma time_charts_plot plotSize l (st : Plot) :
  plot (time_charts begins plotSize l st)
  = fold_left (fun s i => drawn_once begins i s) l st.
Proof.
  revert st; induction l as [|i l IH]; intros st; [reflexivity|].
  cbn [time_charts fold_left]. draw. rewrite time_chart_plot. apply IH.
Qed.

Ltac settle :=
  repeat first
    [ progress draw
    | progress cbn [bind ret call member fit_flag begin_plot loading
                    PlotRawAndFiltered value plot calls
                    when andb negb clear_fit_flag m_fitNextPlot]
    | match goal with
      | F : nth _ _ false = _ |- _ => rewrite F
      end ].

Lemma display_voltage_plot time plotSize (st : Plot) :
  plot (display_voltage true time plotSize st)
  = drawn_once begins 1 (drawn_once begins 0 st).
Proof.
  unfold DisplayVoltageDomainPlots, drawn_once. cbn [negb]. draw.
  destruct (nth 0 (m_fitNextPlot st) false) eqn:F0;
    destruct (begins 0); settle;
    destruct (forPicture plotSize); settle.
  all: match goal with
       | |- context [nth 1 ?l false] => destruct (nth 1 l false) eqn:F1
       end;
    settle; destruct (begins 1); settle; reflexivity.
Qed.

Lemma display_time_plot time plotSize (st : Plot) :
  plot (display_time true time plotSize st)
  = fold_left (fun s i => drawn_once begins i s) (seq 2 5) st.
Proof.
  change (seq 2 5) with (seq 2 4 ++ [6]). rewrite fold_left_app.
  rewrite <- (time_charts_plot plotSize (seq 2 4)).
  unfold DisplayTimeDomainPlots. cbn [negb fold_left]. draw.
  set (s1 := plot (time_charts begins plotSize (seq 2 4) st)).
  unfold drawn_once.
  destruct (forPicture plotSize); settle;
    destruct (nth 6 (m_fitNextPlot s1) false) eqn:F6;
    settle; destruct (begins 6); settle; reflexivity.
Qed.

(** ** What a display draws *)

Lemma fit_requests_app (a b : list (Call T)) :
  fit_requests (a ++ b) = fit_requests a + fit_requests b.
Proof. unfold fit_requests. rewrite filter_app, length_app. reflexivity. Qed.

Lemma lines_named_app name (a b : list (Call T)) :
  lines_named name (a ++ b) = lines_named name a ++ lines_named name b.
Proof. unfold lines_named. apply flat_map_app. Qed.

Lemma PlotSimData_fit data (st : Plot) :
  fit_requests (calls (PlotSimData data st)) = 0.
Proof.
  rewrite PlotSimData_calls. induction data as [|pts data IH]; [reflexivity|].
  cbn [flat_map]. rewrite fit_requests_app, IH. reflexivity.
Qed.

Lemma PlotSimData_lines data (st : Plot) :
  lines_named "Simulation" (calls (PlotSimData data st)) = data.
Proof.
  rewrite PlotSimData_calls. induction data as [|pts data IH]; [reflexivity|].
  cbn [flat_map]. rewrite lines_named_app, IH. reflexivity.
Qed.

Ltac count_calls :=
  repeat first
    [ rewrite fit_requests_app
    | rewrite lines_named_app
    | rewrite PlotSimData_fit
    | rewrite PlotSimData_lines
    | rewrite PlotSimData_plot ].

Lemma time_chart_fit plotSize i (st : Plot) :
  fit_requests (calls (time_chart begins plotSize i st))
  = if nth i (m_fitNextPlot st) false then 1 else 0.
Proof.
  unfold time_chart. draw.
  destruct (nth i (m_fitNextPlot st) false) eqn:F;
    destruct (forPicture plotSize && negb (i mod 4 =? 0));
    destruct (begins i); settle;
    destruct ((i =? 2) || (i =? 4)); settle;
    count_calls; settle; reflexivity.
Qed.

Lemma time_chart_lines plotSize i (st : Plot) :
  lines_named "Simulation" (calls (time_chart begins plotSize i st))
  = if begins i
    then if i =? 2 then m_quasistaticSim st
         else if i =? 4 then m_dynamicSim st else []
    else [].
Proof.
  unfold time_chart. draw.
  destruct (nth i (m_fitNextPlot st) false) eqn:F;
    destruct (forPicture plotSize && negb (i mod 4 =? 0));
    destruct (begins i); settle;
    destruct (i =? 2); destruct (i =? 4); cbn [orb]; settle;
    count_calls; settle; rewrite ?app_nil_r; reflexivity.
Qed.

Lemma time_charts_fit plotSize l (st : Plot) :
  NoDup l ->
  fit_requests (calls (time_charts begins plotSize l st))
  = length (filter (fun i => nth i (m_fitNextPlot st) false) l).
Proof.
  revert st; induction l as [|i l IH]; intros st N; [reflexivity|].
  inversion N as [|? ? Ni Nl]; subst.
  cbn [time_charts filter]. draw.
  rewrite fit_requests_app, time_chart_fit, time_chart_plot, (IH _ Nl).
  rewrite (filter_ext_in
             (fun j => nth j (m_fitNextPlot (drawn_once begins i st)) false)
             (fun j => nth j (m_fitNextPlot st) false)).
  - destruct (nth i (m_fitNextPlot st) false); reflexivity.
  - intros j Hj. rewrite drawn_once_flags.
    assert (E : (j =? i) = false)
      by (apply Nat.eqb_neq; intros ->; exact (Ni Hj)).
    rewrite E. cbn. apply andb_true_r.
Qed.

Lemma time_charts_lines plotSize l (st : Plot) :
  lines_named "Simulation" (calls (time_charts begins plotSize l st))
  = flat_map (fun i => if begins i
                       then if i =? 2 then m_quasistaticSim st
                            else if i =? 4 then m_dynamicSim st else []
                       else []) l.
Proof.
  revert st; induction l as [|i l IH]; intros st; [reflexivity|].
  cbn [time_charts flat_map]. draw.
  rewrite lines_named_app, time_chart_lines, time_chart_plot, IH.
  destruct (drawn_once_data i st) as (_ & _ & _ & Q & D & _).
  rewrite Q, D. reflexivity.
Qed.


Lemma display_voltage_fit time plotSize (st : Plot) :
  fit_requests (calls (display_voltage true time plotSize st))
  = length (filter (fun i => nth i (m_fitNextPlot st) false) (seq 0 2)).
Proof.
  unfold DisplayVoltageDomainPlots. cbn [negb seq filter]. draw.
  destruct (nth 0 (m_fitNextPlot st) false) eqn:F0;
    destruct (begins 0); settle;
    destruct (forPicture plotSize); settle;
    destruct (begins 1); settle;
    destruct (nth 1 (m_fitNextPlot st) false) eqn:F1;
    repeat first
      [ progress settle
      | rewrite nth_assign_false; cbn [Nat.eqb negb]; rewrite ?andb_true_r ];
    reflexivity.
Qed.

Lemma display_time_fit time plotSize (st : Plot) :
  fit_requests (calls (display_time true time plotSize st))
  = length (filter (fun i => nth i (m_fitNextPlot st) false) (seq 2 5)).
Proof.
  change (seq 2 5) with (seq 2 4 ++ [6]).
  rewrite filter_app, length_app.
  rewrite <- (time_charts_fit plotSize (seq 2 4) st)
    by (repeat constructor; simpl; lia).
  unfold DisplayTimeDomainPlots. cbn [negb filter]. draw.
  rewrite fit_requests_app. f_equal.
  rewrite time_charts_plot.
  set (s1 := fold_left (fun s i => drawn_once begins i s) (seq 2 4) st).
  assert (F : nth 6 (m_fitNextPlot s1) false
              = nth 6 (m_fitNextPlot st) false).
  { unfold s1. rewrite drawn_chain_flags. cbn. apply andb_true_r. }
  destruct (nth 6 (m_fitNextPlot st) false);
    destruct (forPicture plotSize); settle;
    destruct (begins 6); settle; reflexivity.
Qed.

Lemma display_voltage_value time plotSize (st : Plot) :
  value (display_voltage true time plotSize st) = true.
Proof.
  unfold DisplayVoltageDomainPlots. cbn [negb]. draw. reflexivity.
Qed.

Lemma display_time_value time plotSize (st : Plot) :
  value (display_time true time plotSize st) = true.
Proof.
  unfold DisplayTimeDomainPlots. cbn [negb]. draw. reflexivity.
Qed.

(** *** The spinner shown while a pass holds the mutex *)

(** A display function that does not get the mutex draws no chart and
    leaves the plot as it is: its one call is ImGui::Text with the spinner
    character, and it returns false.  LoadPlots then returns false without
    trying the voltage plots, and DisplayCombinedPlots shows the text twice.
    The character, where the conversion of the time to int is defined, is
    one of the four of the spinner and never the terminator. *)
Theorem Display_shows_spinner_while_locked
    (time : float) (plotSize : ImVec2.t) (try_lock2 : bool) (st : Plot) :
  let loading_text := ImGui_Text (T := T) (Spinner.glyph time) in
  let waiting := {| value := false; plot := st; calls := [loading_text] |} in
  display_voltage false time plotSize st = waiting
  /\ display_time false time plotSize st = waiting
  /\ load_plots false try_lock2 time st = waiting
  /\ display_combined false false time st
     = {| value := tt; plot := st; calls := [loading_text; loading_text] |}
  /\ (forall c, Spinner.glyph time = Some c ->
                In c (firstn 4 Spinner.glyphs)).
Proof.
  cbn zeta. repeat (split; [reflexivity|]).
  intros c. apply Spinner_glyph_in_range.
Qed.

(** *** A display changes nothing but fit flags *)

(** A display function that gets the mutex returns true and writes nothing
    of the plot but fit flags: DisplayVoltageDomainPlots clears the flags of
    those of charts 0 and 1 for which BeginPlot returned true, and
    DisplayTimeDomainPlots those of charts 2 to 6; every other flag, every
    series, both simulations, the fit lines, the metrics and the labels are
    as before. *)
Theorem Display_clears_flags_of_begun_charts_only
    (time : float) (plotSize : ImVec2.t) (st : Plot) :
  let v := display_voltage true time plotSize st in
  let t := display_time true time plotSize st in
  (value v = true /\ value t = true)
  /\ (same_but_flags st (plot v) /\ same_but_flags st (plot t))
  /\ (length (m_fitNextPlot (plot v)) = length (m_fitNextPlot st)
      /\ length (m_fitNextPlot (plot t)) = length (m_fitNextPlot st))
  /\ (forall i,
        nth i (m_fitNextPlot (plot v)) false
        = nth i (m_fitNextPlot st) false && negb (begins i && (i <? 2)))
  /\ (forall i,
        nth i (m_fitNextPlot (plot t)) false
        = nth i (m_fitNextPlot st) false
          && negb (begins i && (2 <=? i) && (i <? 7))).
Proof.
  cbn zeta. rewrite display_voltage_value, display_time_value.
  rewrite display_voltage_plot, display_time_plot.
  change (drawn_once begins 1 (drawn_once begins 0 st))
    with (fold_left (fun s i => drawn_once begins i s) (seq 0 2) st).
  split; [split; reflexivity|].
  split; [split; apply drawn_chain_data|].
  split; [split; apply drawn_chain_length|].
  split; intros i; rewrite drawn_chain_flags.
  - destruct i as [|[|i]]; cbn; destruct (begins _);
      rewrite ?andb_true_r, ?andb_false_r; reflexivity.
  - destruct i as [|[|[|[|[|[|[|i]]]]]]]; cbn; destruct (begins _);
      rewrite ?andb_true_r, ?andb_false_r; reflexivity.
Qed.

(** *** Fit requests *)

(** A display function that gets the mutex asks ImPlot to fit the axes once
    for each of its charts whose fit flag is set, whether or not the chart
    then begins: DisplayVoltageDomainPlots for charts 0 and 1,
    DisplayTimeDomainPlots for charts 2 to 6. *)
Theorem Display_requests_fit_per_set_flag
    (time : float) (plotSize : ImVec2.t) (st : Plot) :
  fit_requests (calls (display_voltage true time plotSize st))
  = length (filter (fun i => nth i (m_fitNextPlot st) false) (seq 0 2))
  /\ fit_requests (calls (display_time true time plotSize st))
     = length (filter (fun i => nth i (m_fitNextPlot st) false) (seq 2 5)).
Proof.
  split; [apply display_voltage_fit | apply display_time_fit].
Qed.


(** *** The lines drawn *)

(** The lines a display draws come from the plot as it stands: under the
    name "Simulation" DisplayTimeDomainPlots draws one line for every
    sequence of m_quasistaticSim, in order and the empty ones among them, if
    chart 2 begins, and then one for every sequence of m_dynamicSim if chart
    4 begins; charts 3, 5 and 6 and the voltage-domain charts draw none.
    Under the name "Fit" DisplayVoltageDomainPlots draws the two points of
    m_KvFit on chart 0 and those of m_KaFit on chart 1. *)
Theorem Display_draws_stored_lines
    (time : float) (plotSize : ImVec2.t) (st : Plot) :
  lines_named "Simulation" (calls (display_time true time plotSize st))
  = (if begins 2 then m_quasistaticSim st else [])
    ++ (if begins 4 then m_dynamicSim st else [])
  /\ lines_named "Simulation" (calls (display_voltage true time plotSize st))
     = []
  /\ lines_named "Fit" (calls (display_voltage true time plotSize st))
     = (if begins 0 then [[fst (m_KvFit st); snd (m_KvFit st)]] else [])
       ++ (if begins 1 then [[fst (m_KaFit st); snd (m_KaFit st)]] else []).
Proof.
  split; [|split].
  - unfold DisplayTimeDomainPlots. cbn [negb]. draw.
    rewrite lines_named_app, time_charts_lines, time_charts_plot.
    set (s1 := fold_left (fun s i => drawn_once begins i s) (seq 2 4) st).
    cbn [seq flat_map Nat.eqb].
    replace (if begins 3 then @nil (list (ImPlotPoint T)) else [])
      with (@nil (list (ImPlotPoint T))) by (destruct (begins 3); reflexivity).
    replace (if begins 5 then @nil (list (ImPlotPoint T)) else [])
      with (@nil (list (ImPlotPoint T))) by (destruct (begins 5); reflexivity).
    cbn [app]. rewrite app_nil_r.
    match goal with
    | |- _ ++ ?tail = _ => assert (E : tail = [])
    end.
    { destruct (forPicture plotSize); settle;
        destruct (nth 6 (m_fitNextPlot s1) false) eqn:F6; settle;
        destruct (begins 6); settle; reflexivity. }
    rewrite E. apply app_nil_r.
  - unfold DisplayVoltageDomainPlots. cbn [negb]. draw.
    destruct (nth 0 (m_fitNextPlot st) false) eqn:F0;
      destruct (begins 0); settle;
      destruct (forPicture plotSize); settle;
      destruct (begins 1); settle;
      destruct (nth 1 (m_fitNextPlot st) false) eqn:F1;
      repeat first
        [ progress settle
        | rewrite nth_assign_false; cbn [Nat.eqb negb];
          rewrite ?andb_true_r ];
      reflexivity.
  - unfold DisplayVoltageDomainPlots. cbn [negb]. draw.
    destruct (nth 0 (m_fitNextPlot st) false) eqn:F0;
      destruct (begins 0); settle;
      destruct (forPicture plotSize); settle;
      destruct (begins 1); settle;
      destruct (nth 1 (m_fitNextPlot st) false) eqn:F1;
      repeat first
        [ progress settle
        | rewrite nth_assign_false; cbn [Nat.eqb negb];
          rewrite ?andb_true_r ];
      reflexivity.
Qed.


(** *** The scatter series drawn *)

Lemma scatters_app (a b : list (Call T)) :
  scatters (a ++ b) = scatters a ++ scatters b.
Proof. unfold scatters. apply flat_map_app. Qed.

Lemma PlotSimData_scatters data (st : Plot) :
  scatters (calls (PlotSimData data st)) = [].
Proof.
  rewrite PlotSimData_calls. induction data as [|pts data IH]; [reflexivity|].
  cbn [flat_map]. rewrite scatters_app, IH. reflexivity.
Qed.

Lemma time_chart_scatters plotSize i (st : Plot) :
  scatters (calls (time_chart begins plotSize i st))
  = if begins i
    then [("Raw Data"%string, m_rawData st i);
          ("Filtered Data"%string, m_filteredData st i)]
    else [].
Proof.
  unfold time_chart. draw.
  destruct (nth i (m_fitNextPlot st) false) eqn:F;
    destruct (forPicture plotSize && negb (i mod 4 =? 0));
    destruct (begins i); settle;
    destruct ((i =? 2) || (i =? 4)); settle;
    repeat first [rewrite scatters_app | rewrite PlotSimData_scatters
                 | rewrite PlotSimData_plot];
    settle; reflexivity.
Qed.

Lemma time_charts_scatters plotSize l (st : Plot) :
  scatters (calls (time_charts begins plotSize l st))
  = flat_map (fun i => if begins i
                       then [("Raw Data"%string, m_rawData st i);
                             ("Filtered Data"%string, m_filteredData st i)]
                       else []) l.
Proof.
  revert st; induction l as [|i l IH]; intros st; [reflexivity|].
  cbn [time_charts flat_map]. draw.
  rewrite scatters_app, time_chart_scatters, time_chart_plot, IH.
  destruct (drawn_once_data i st) as (Fd & Rd & _).
  rewrite Fd, Rd. reflexivity.
Qed.

(** The scatter series a display draws are those of the plot as it stands.
    On each of charts 2 to 5 that begins, DisplayTimeDomainPlots draws the
    raw series of the chart and then its filtered series, so that the
    filtered points lie over the raw ones, and on chart 6 the timestep
    series; DisplayVoltageDomainPlots draws the filtered series of charts 0
    and 1 and no raw data. *)
Theorem Display_draws_raw_then_filtered
    (time : float) (plotSize : ImVec2.t) (st : Plot) :
  scatters (calls (display_time true time plotSize st))
  = flat_map (fun i => if begins i
                       then [("Raw Data"%string, m_rawData st i);
                             ("Filtered Data"%string, m_filteredData st i)]
                       else []) (seq 2 4)
    ++ (if begins 6 then [("Timesteps"%string, m_filteredData st 6)] else [])
  /\ scatters (calls (display_voltage true time plotSize st))
     = (if begins 0 then [("Filtered Data"%string, m_filteredData st 0)]
        else [])
       ++ (if begins 1 then [("Filtered Data"%string, m_filteredData st 1)]
           else []).
Proof.
  split.
  - unfold DisplayTimeDomainPlots. cbn [negb]. draw.
    rewrite scatters_app, time_charts_scatters, time_charts_plot.
    f_equal.
    destruct (drawn_chain_data (seq 2 4) st) as (Fd & _).
    set (s1 := fold_left (fun s i => drawn_once begins i s) (seq 2 4) st)
      in *.
    rewrite <- Fd.
    destruct (forPicture plotSize); settle;
      destruct (nth 6 (m_fitNextPlot s1) false) eqn:F6; settle;
      destruct (begins 6); settle; reflexivity.
  - unfold DisplayVoltageDomainPlots. cbn [negb]. draw.
    destruct (nth 0 (m_fitNextPlot st) false) eqn:F0;
      destruct (begins 0); settle;
      destruct (forPicture plotSize); settle;
      destruct (begins 1); settle;
      destruct (nth 1 (m_fitNextPlot st) false) eqn:F1;
      repeat first
        [ progress settle
        | rewrite nth_assign_false; cbn [Nat.eqb negb];
          rewrite ?andb_true_r ];
      reflexivity.
Qed.

(** *** LoadPlots and DisplayCombinedPlots *)

Lemma load_plots_plot time (st : Plot) :
  plot (load_plots true true time st)
  = fold_left (fun s i => drawn_once begins i s) (seq 2 5 ++ seq 0 2) st.
Proof.
  unfold LoadPlots. draw. rewrite display_time_value.
  rewrite display_voltage_plot, display_time_plot, fold_left_app.
  reflexivity.
Qed.

Lemma display_combined_plot time (st : Plot) :
  plot (display_combined true true time st)
  = fold_left (fun s i => drawn_once begins i s) (seq 0 7) st.
Proof.
  unfold DisplayCombinedPlots. draw.
  rewrite display_time_plot, display_voltage_plot. reflexivity.
Qed.

Lemma display_combined_fit time (st : Plot) :
  fit_requests (calls (display_combined true true time st))
  = length (filter (fun i => nth i (m_fitNextPlot st) false) (seq 0 7)).
Proof.
  unfold DisplayCombinedPlots. draw.
  rewrite !fit_requests_app, display_voltage_fit, display_time_fit.
  rewrite display_voltage_plot.
  change (seq 0 7) with (seq 0 2 ++ seq 2 5).
  rewrite filter_app, length_app. cbn [fit_requests filter length].
  rewrite Nat.add_0_r. f_equal. f_equal.
  apply filter_ext_in. intros j Hj.
  change (drawn_once begins 1 (drawn_once begins 0 st))
    with (fold_left (fun s i => drawn_once begins i s) (seq 0 2) st).
  rewrite drawn_chain_flags.
  apply in_seq in Hj.
  destruct j as [|[|j]]; [lia|lia|]. cbn. apply andb_true_r.
Qed.

(** Once no flag is set a display writes nothing. *)
Lemma drawn_chain_idle l (st : Plot) :
  (forall j, nth j (m_fitNextPlot st) false = false) ->
  fold_left (fun s i => drawn_once begins i s) l st = st.
Proof.
  intros Z. induction l as [|i l IH]; [reflexivity|].
  cbn [fold_left]. unfold drawn_once at 2. rewrite Z, andb_false_r. exact IH.
Qed.

(** LoadPlots reports the plots loaded exactly when both of its displays got
    the mutex, and like them writes nothing of the plot but fit flags. *)
Theorem LoadPlots_tells_both_locks
    (try_lock1 try_lock2 : bool) (time : float) (st : Plot) :
  value (load_plots try_lock1 try_lock2 time st) = try_lock1 && try_lock2
  /\ same_but_flags st (plot (load_plots try_lock1 try_lock2 time st)).
Proof.
  destruct try_lock1, try_lock2; unfold LoadPlots; draw;
    rewrite ?display_time_value; settle;
    rewrite ?display_voltage_value, ?display_voltage_plot,
            ?display_time_plot;
    (split; [reflexivity|]).
  - change (drawn_once begins 1
              (drawn_once begins 0
                 (fold_left (fun s i => drawn_once begins i s) (seq 2 5) st)))
      with (fold_left (fun s i => drawn_once begins i s)
              (seq 2 5 ++ seq 0 2) st).
    apply drawn_chain_data.
  - apply drawn_chain_data.
  - apply same_but_flags_refl.
  - apply same_but_flags_refl.
Qed.

End DisplayFacts.

(** ** The first frames after a pass *)

Section DisplayAfterPass.
Context {T : Type} `{Scalar T}.
Variable kMaxSize : nat.
Variable GetAbbreviation : string -> string.
Variable GetMeanTimeDelta : Storage T -> T.
Context {SimpleMotorSim ElevatorSim ArmSim : Type}.
Context `{MechanismModel T SimpleMotorSim}.
Context `{MechanismModel T ElevatorSim}.
Context `{MechanismModel T ArmSim}.
Variable mkSimpleMotorSim : T -> T -> T -> SimpleMotorSim.
Variable mkElevatorSim : T -> T -> T -> T -> ElevatorSim.
Variable mkArmSim : T -> T -> T -> T -> ArmSim.
Variable kCombinedPlotSize : float.
Variable begins : nat -> bool.

Local Abbreviation Plot := (AnalyzerPlot T).
Local Abbreviation set_data :=
  (SetData kMaxSize GetAbbreviation GetMeanTimeDelta
           mkSimpleMotorSim mkElevatorSim mkArmSim).
Local Abbreviation set_raw_data := (SetRawData kMaxSize GetAbbreviation).
Local Abbreviation display_combined :=
  (DisplayCombinedPlots (T := T) kCombinedPlotSize begins).

Lemma reset_flags unit (st : Plot) :
  m_fitNextPlot (ResetData (SetGraphLabels GetAbbreviation unit st))
  = repeat true (length (m_fitNextPlot st)).
Proof. cbn. apply map_true_repeat. Qed.

Lemma SetData_flags rd fd unit ff stt ty abort (st : Plot) :
  m_fitNextPlot (state (set_data rd fd unit ff stt ty abort st))
  = repeat true (length (m_fitNextPlot st)).
Proof.
  unfold SetData. cbn zeta.
  set (s0 := ResetData (SetGraphLabels GetAbbreviation unit st)).
  set (r1 := slow_loop kMaxSize fd ff stt ty abort 0 s0).
  set (r2 := fast_loop kMaxSize fd ff stt ty abort (reads r1) (state r1)).
  assert (F1 : m_fitNextPlot (state r1) = m_fitNextPlot s0)
    by (apply (slow_loop_frame kMaxSize (@m_fitNextPlot T));
        intros; reflexivity).
  assert (F2 : m_fitNextPlot (state r2) = m_fitNextPlot (state r1))
    by (apply (fast_loop_frame kMaxSize (@m_fitNextPlot T));
        intros; reflexivity).
  destruct (returned r1); [rewrite F1; apply reset_flags|].
  destruct (returned r2); [rewrite F2, F1; apply reset_flags|].
  unfold finish_SetData. cbn [state FitPlots m_fitNextPlot].
  rewrite (SetRawTimeData_frame kMaxSize (@m_fitNextPlot T))
    by (intros; reflexivity).
  cbn [m_fitNextPlot]. rewrite F2, F1. unfold s0. rewrite reset_flags.
  rewrite map_true_repeat, repeat_length. reflexivity.
Qed.

Lemma SetRawData_flags rd unit abort (st : Plot) :
  m_fitNextPlot (state (set_raw_data rd unit abort st))
  = repeat true (length (m_fitNextPlot st)).
Proof.
  unfold SetRawData.
  rewrite (SetRawTimeData_frame kMaxSize (@m_fitNextPlot T))
    by (intros; reflexivity).
  apply reset_flags.
Qed.

(** With every flag set, a combined display asks for seven fits; if every
    chart begins, the next asks for none. *)
Lemma display_fits_once (s : Plot) t1 t2 :
  m_fitNextPlot s = repeat true 7 ->
  let f1 := display_combined true true t1 s in
  let f2 := display_combined true true t2 (plot f1) in
  fit_requests (calls f1) = 7
  /\ same_but_flags s (plot f1)
  /\ ((forall i, i < 7 -> begins i = true) ->
      fit_requests (calls f2) = 0 /\ plot f2 = plot f1).
Proof.
  intros E. cbn zeta.
  rewrite !display_combined_fit, !display_combined_plot.
  set (p := fold_left (fun s i => drawn_once begins i s) (seq 0 7) s).
  split; [rewrite E; reflexivity|].
  split; [apply drawn_chain_data|].
  intros B.
  assert (Z : forall j, nth j (m_fitNextPlot p) false = false).
  { intros j. unfold p. rewrite drawn_chain_flags, E.
    destruct j as [|[|[|[|[|[|[|j]]]]]]];
      try (rewrite (B _) by lia; reflexivity).
    cbn. destruct j; reflexivity. }
  split.
  - rewrite (filter_ext _ (fun _ => false) Z). reflexivity.
  - apply drawn_chain_idle, Z.
Qed.

(** Every pass asks for one fit of every chart, and no more: on a plot of
    seven flags, the first DisplayCombinedPlots after a SetData or a
    SetRawData, aborted or not, that gets the mutex at both displays makes
    seven fit requests and leaves the plot of the pass but for the flags; if
    every chart begins, the next one makes no fit request and leaves the plot
    as the first left it. *)
Theorem pass_then_display_fits_once
    (rawData filteredData : Storage T) (unit : string)
    (ffGains startTimes : list T) (type : AnalysisType)
    (abort : nat -> bool) (st : Plot) (time1 time2 : float) :
  length (m_fitNextPlot st) = 7 ->
  let fits_once (s : Plot) :=
    let f1 := display_combined true true time1 s in
    let f2 := display_combined true true time2 (plot f1) in
    fit_requests (calls f1) = 7
    /\ same_but_flags s (plot f1)
    /\ ((forall i, i < 7 -> begins i = true) ->
        fit_requests (calls f2) = 0 /\ plot f2 = plot f1) in
  fits_once (state (set_data rawData filteredData unit ffGains startTimes
                             type abort st))
  /\ fits_once (state (set_raw_data rawData unit abort st)).
Proof.
  intros L. cbn zeta. split; apply display_fits_once.
  - rewrite SetData_flags, L. reflexivity.
  - rewrite SetRawData_flags, L. reflexivity.
Qed.
End DisplayAfterPass.

(** * Util.h *)

Lemma copy_n_spec {A : Type} (src dst : list A) (index : nat) :
  index + length src <= length dst ->
  copy_n src (length src) dst index
  = firstn index dst ++ src ++ skipn (index + length src) dst.
Proof.
  revert dst index; induction src as [|v src IH]; intros dst index L.
  - cbn. rewrite Nat.add_0_r, firstn_skipn. reflexivity.
  - cbn [length copy_n] in *.
    assert (S1 : forall (l : list A) i, i < length l ->
                 firstn (S i) (assign i v l) = firstn i l ++ [v]
                 /\ forall k, skipn (S i + k) (assign i v l)
                              = skipn (S i + k) l).
    { induction l as [|a l IHl]; intros i Hi; [simpl in Hi; lia|].
      destruct i as [|i].
      - split; [reflexivity|]. intros k. reflexivity.
      - destruct (IHl i ltac:(simpl in Hi; lia)) as [F S'].
        split.
        + change (firstn (S (S i)) (assign (S i) v (a :: l)))
            with (a :: firstn (S i) (assign i v l)).
          rewrite F. reflexivity.
        + intros k. exact (S' k). }
    destruct (S1 dst index ltac:(lia)) as [F S'].
    rewrite IH by (rewrite assign_length; lia).
    rewrite F, <- app_assoc. cbn [app].
    replace (S index + length src) with (index + S (length src)) by lia.
    replace (index + S (length src)) with (S index + length src) by lia.
    rewrite S'. reflexivity.
Qed.

(** ArrayConcat returns the elements of its arrays in the order given, one
    array after the other: when the result has exactly the room the sizes
    add up to, every element of it is written, so nothing of what it held
    before the copies is left in it. *)
Theorem ArrayConcat_is_concat {A : Type} (unset : list A)
    (arrays : list (list A)) :
  length unset = length (concat arrays) ->
  ArrayConcat unset arrays = concat arrays.
Proof.
  intros L. unfold ArrayConcat.
  assert (I : forall rest done_ result,
             length result = length (concat done_) + length (concat rest) ->
             firstn (length (concat done_)) result = concat done_ ->
             fst (fold_left
                    (fun (acc : list A * nat) (array : list A) =>
                       let (result, index) := acc in
                       (copy_n array (length array) result index,
                        index + length array))
                    rest (result, length (concat done_)))
             = concat (done_ ++ rest)).
  { induction rest as [|a rest IH]; intros done_ result Len Pre.
    - cbn [fold_left fst]. rewrite app_nil_r.
      cbn in Len. rewrite Nat.add_0_r in Len.
      rewrite <- Pre, <- Len. symmetry. apply firstn_all.
    - cbn [fold_left].
      cbn [concat] in Len. rewrite length_app in Len.
      replace (length (concat done_) + length a)
        with (length (concat (done_ ++ [a])))
        by (rewrite concat_app, length_app; cbn; rewrite app_nil_r;
            reflexivity).
      replace (done_ ++ a :: rest) with ((done_ ++ [a]) ++ rest)
        by (rewrite <- app_assoc; reflexivity).
      apply IH.
      + rewrite copy_n_spec by lia.
        rewrite !length_app, length_firstn, length_skipn.
        rewrite concat_app, length_app. cbn. rewrite app_nil_r. lia.
      + rewrite copy_n_spec by lia. rewrite Pre.
        rewrite concat_app. cbn [concat]. rewrite app_nil_r.
        rewrite app_assoc.
        rewrite firstn_app, firstn_all.
        rewrite Nat.sub_diag. cbn [firstn]. apply app_nil_r. }
  apply (I arrays [] unset); [exact L | reflexivity].
Qed.

Lemma ArrayConcat_is_concat_witness :
  length [0; 0; 0; 0; 0] = length (concat [[1; 2]; []; [3; 4; 5]]) /\
  ArrayConcat [0; 0; 0; 0; 0] [[1; 2]; []; [3; 4; 5]] = [1; 2; 3; 4; 5].
Proof.
  split; [reflexivity|].
  exact (ArrayConcat_is_concat [0; 0; 0; 0; 0] [[1; 2]; []; [3; 4; 5]]
           eq_refl).
Defined.

(** * The further properties on concrete data *)

Lemma SetData_forgets_previous_plot_witness :
  length (m_fitNextPlot Demo.fresh) = length (m_fitNextPlot Demo.shown) /\
  state (Demo.run_SetData Demo.store_still Demo.store_still
           Demo.scenario_gains Demo.starts_far kSimple Demo.never Demo.fresh)
  = state (Demo.run_SetData Demo.store_still Demo.store_still
             Demo.scenario_gains Demo.starts_far kSimple Demo.never
             Demo.shown).
Proof.
  assert (L : length (m_fitNextPlot Demo.fresh)
              = length (m_fitNextPlot Demo.shown))
    by (vm_compute; reflexivity).
  split; [exact L|].
  destruct (SetData_forgets_previous_plot
              Demo.kMaxSize Demo.GetAbbreviation Demo.GetMeanTimeDelta
              Demo.mkSim3 Demo.mkSim4 Demo.mkSim4
              Demo.store_still Demo.store_still "Meters"%string
              Demo.scenario_gains Demo.starts_far kSimple Demo.never
              Demo.fresh Demo.shown L) as (_ & _ & _ & E).
  apply E.
  apply (SetData_never_returned
           Demo.kMaxSize Demo.GetAbbreviation Demo.GetMeanTimeDelta
           Demo.mkSim3 Demo.mkSim4 Demo.mkSim4).
Defined.

Lemma SetData_ignores_abort_in_raw_loops_witness :
  returned (Demo.run_SetData Demo.store4 Demo.store4 Demo.scenario_gains
              Demo.starts4 kSimple (Demo.set_from 9) Demo.fresh) = false /\
  same_but_raw
    (state (Demo.run_SetData Demo.store4 Demo.store4 Demo.scenario_gains
              Demo.starts4 kSimple (Demo.set_from 9) Demo.fresh))
    (state (Demo.run_SetData Demo.store4 Demo.store4 Demo.scenario_gains
              Demo.starts4 kSimple (fun _ => false) Demo.fresh)).
Proof.
  assert (R : returned (Demo.run_SetData Demo.store4 Demo.store4
                          Demo.scenario_gains Demo.starts4 kSimple
                          (Demo.set_from 9) Demo.fresh) = false)
    by (vm_compute; reflexivity).
  split; [exact R|].
  exact (proj1 (SetData_ignores_abort_in_raw_loops
                  Demo.kMaxSize Demo.GetAbbreviation Demo.GetMeanTimeDelta
                  Demo.mkSim3 Demo.mkSim4 Demo.mkSim4
                  Demo.store4 Demo.store4 "Meters"%string
                  Demo.scenario_gains Demo.starts4 kSimple
                  (Demo.set_from 9) Demo.fresh R)).
Defined.

Lemma SetRawData_shows_raw_subsample_witness :
  returned (SetRawData Demo.kMaxSize Demo.GetAbbreviation Demo.store4
              "Meters"%string Demo.never Demo.shown) = false /\
  forall c,
    m_filteredData
      (state (SetRawData Demo.kMaxSize Demo.GetAbbreviation Demo.store4
                "Meters"%string Demo.never Demo.shown)) c = [].
Proof.
  assert (R : returned (SetRawData Demo.kMaxSize Demo.GetAbbreviation
                          Demo.store4 "Meters"%string Demo.never Demo.shown)
              = false)
    by (vm_compute; reflexivity).
  split; [exact R|].
  destruct (SetRawData_shows_raw_subsample
              Demo.kMaxSize Demo.GetAbbreviation Demo.store4 "Meters"%string
              Demo.never Demo.shown R) as (_ & _ & _ & _ & F & _).
  exact F.
Defined.

Lemma SetData_count_is_simulated_points_witness :
  returned (Demo.run_SetData Demo.store4 Demo.store4 Demo.scenario_gains
              Demo.starts4 kSimple Demo.never Demo.fresh) = false /\
  timeSeriesPoints (sums Demo.shown) + 2
  = length (concat (m_quasistaticSim Demo.shown))
    + length (concat (m_dynamicSim Demo.shown)).
Proof.
  assert (R : returned (Demo.run_SetData Demo.store4 Demo.store4
                          Demo.scenario_gains Demo.starts4 kSimple
                          Demo.never Demo.fresh) = false)
    by (apply (SetData_never_returned
                 Demo.kMaxSize Demo.GetAbbreviation Demo.GetMeanTimeDelta
                 Demo.mkSim3 Demo.mkSim4 Demo.mkSim4)).
  split; [exact R|].
  exact (SetData_count_is_simulated_points
           Demo.kMaxSize Demo.GetAbbreviation Demo.GetMeanTimeDelta
           Demo.mkSim3 Demo.mkSim4 Demo.mkSim4
           Demo.store4 Demo.store4 "Meters"%string
           Demo.scenario_gains Demo.starts4 kSimple Demo.never Demo.fresh R).
Defined.

Lemma SetData_short_runs_plotted_in_full_witness :
  (returned Demo.shown_steady = false
   /\ slow Demo.store_steady <> [] /\ fast Demo.store_steady <> []
   /\ 4 * length (slow Demo.store_steady) <= Demo.kMaxSize
   /\ 4 * length (fast Demo.store_steady) <= Demo.kMaxSize) /\
  m_filteredData (state Demo.shown_steady) 2
  = map (fun d => (timestamp d, velocity d)) Demo.steady.
Proof.
  assert (N : slow Demo.store_steady <> []) by discriminate.
  assert (L : 4 * length (slow Demo.store_steady) <= Demo.kMaxSize)
    by (apply Nat.leb_le; vm_compute; reflexivity).
  split; [repeat (split; [first [exact shown_steady_completed | exact N
                                | exact L]|]); exact L|].
  destruct (SetData_short_runs_plotted_in_full
              Demo.kMaxSize Demo.GetAbbreviation Demo.GetMeanTimeDelta
              Demo.mkSim3 Demo.mkSim4 Demo.mkSim4
              Demo.store_steady Demo.store_steady "Meters"%string
              [0; 0; 0]%R [] kSimple Demo.never Demo.fresh_R
              shown_steady_completed N N L L) as (_ & F2 & _).
  exact F2.
Defined.

Lemma SetData_fit_lines_span_the_runs_witness :
  (returned Demo.shown_steady = false
   /\ slow Demo.store_steady <> [] /\ fast Demo.store_steady <> []) /\
  exists lo hi,
    In lo Demo.steady /\ In hi Demo.steady
    /\ m_KvFit (state Demo.shown_steady)
       = ((0 * velocity lo, velocity lo), (0 * velocity hi, velocity hi))%R
    /\ forall d, In d Demo.steady ->
                 (velocity lo <= velocity d <= velocity hi)%R.
Proof.
  assert (N : slow Demo.store_steady <> []) by discriminate.
  split; [split; [exact shown_steady_completed|split; exact N]|].
  exact (proj1 (SetData_fit_lines_span_the_runs
                  Demo.kMaxSize Demo.GetAbbreviation Demo.GetMeanTimeDelta
                  Demo.mkSim3 Demo.mkSim4 Demo.mkSim4
                  Demo.store_steady Demo.store_steady "Meters"%string
                  [0; 0; 0]%R [] kSimple Demo.never Demo.fresh_R
                  shown_steady_completed N N)).
Defined.

Lemma pass_then_display_fits_once_witness :
  length (m_fitNextPlot Demo.fresh) = 7 /\
  (fit_requests
     (calls (DisplayCombinedPlots 600 (fun _ => true) true true 1
               Demo.shown)) = 7
   /\ fit_requests
        (calls (DisplayCombinedPlots 600 (fun _ => true) true true 2
                  (plot (DisplayCombinedPlots 600 (fun _ => true) true true 1
                           Demo.shown)))) = 0).
Proof.
  assert (L : length (m_fitNextPlot Demo.fresh) = 7) by reflexivity.
  split; [exact L|].
  destruct (pass_then_display_fits_once
              Demo.kMaxSize Demo.GetAbbreviation Demo.GetMeanTimeDelta
              Demo.mkSim3 Demo.mkSim4 Demo.mkSim4 600%float (fun _ => true)
              Demo.store4 Demo.store4 "Meters"%string
              Demo.scenario_gains Demo.starts4 kSimple Demo.never Demo.fresh
              1%float 2%float L) as [(F & _ & N) _].
  split; [exact F|].
  exact (proj1 (N (fun i _ => eq_refl))).
Defined.
